(** * Autom6A: task execution and log streaming core

    A shallow embedding of [src/log_handler.py], [src/executor.py] and the
    task-start path of [gui.py], with the properties of the design
    document checked against it.

    Conventions of the embedding.
    - A Python [str] is a [string]: the bytes of its UTF-8 encoding, so
      that a character outside ASCII takes two to four bytes.
    - A reading of [time.time()] is a binary64 floating-point number;
      differences and comparisons of readings are those of the
      processor.
    - What a function reads from another thread, the clock, the file
      system or the operating system is an explicit argument: one record
      of observations per loop iteration or per call. *)

From Stdlib Require Import PrimFloat.
From Stdlib Require FloatOps SpecFloat.
From Stdlib Require Import Bool Arith List ZArith QArith Lia.
From Stdlib Require Import Ascii String DecimalString.
Import ListNotations.

Close Scope Q_scope.
Open Scope string_scope.
Open Scope nat_scope.
Open Scope list_scope.

(** Decimal literals stand for the nearest binary64 number, as in
    Python. *)
Set Warnings "-inexact-float".

(** String concatenation, kept apart from list concatenation. *)
Infix "+:+" := String.append (at level 60, right associativity).

(** ** Python built-ins used by the sources *)

Module Py.

(** [l[-n:]] for a positive constant [n]. *)
Definition lastn {A : Type} (n : nat) (l : list A) : list A :=
  skipn (List.length l - n) l.

Definition nl : ascii := ascii_of_nat 10.
Definition NL : string := String nl "".
Definition dquote : string := String (ascii_of_nat 34) "".

(** [s.split('\n')]: never empty, no piece holds a newline. *)
Fixpoint split_nl (s : string) : list string :=
  match s with
  | EmptyString => [""]
  | String c s' =>
      if Ascii.eqb c nl then "" :: split_nl s'
      else match split_nl s' with
           | [] => [String c ""]
           | l :: ls => String c l :: ls
           end
  end.

(** Whether a string is free of newlines. *)
Fixpoint no_nl (s : string) : bool :=
  match s with
  | EmptyString => true
  | String c s' => negb (Ascii.eqb c nl) && no_nl s'
  end.

(** ['\n'.join(ls)] *)
Definition join_nl (ls : list string) : string := String.concat NL ls.

(** [sub in s] *)
Fixpoint contains (sub s : string) : bool :=
  match s with
  | EmptyString => String.prefix sub ""
  | String _ s' => String.prefix sub s || contains sub s'
  end.


(** The characters for which [str.isspace] holds, by the length of their
    UTF-8 encoding. One byte: U+0009 to U+000D and U+001C to U+0020. *)
Definition space1 (c : ascii) : bool :=
  let n := nat_of_ascii c in
  (((9 <=? n) && (n <=? 13)) || ((28 <=? n) && (n <=? 32)))%nat.

(** Two bytes: U+0085 ([C2 85]) and U+00A0 ([C2 A0]). *)
Definition space2 (c1 c2 : ascii) : bool :=
  let a := nat_of_ascii c1 in
  let b := nat_of_ascii c2 in
  ((a =? 194) && ((b =? 133) || (b =? 160)))%nat.

(** Three bytes: U+1680 ([E1 9A 80]), U+2000 to U+200A ([E2 80 80] to
    [E2 80 8A]), U+2028, U+2029 and U+202F ([E2 80 A8], [E2 80 A9],
    [E2 80 AF]), U+205F ([E2 81 9F]) and U+3000 ([E3 80 80]). *)
Definition space3 (c1 c2 c3 : ascii) : bool :=
  let a := nat_of_ascii c1 in
  let b := nat_of_ascii c2 in
  let c := nat_of_ascii c3 in
  (((a =? 225) && (b =? 154) && (c =? 128))
   || ((a =? 226) && (b =? 128)
       && (((128 <=? c) && (c <=? 138)) || (c =? 168) || (c =? 169)
           || (c =? 175)))
   || ((a =? 226) && (b =? 129) && (c =? 159))
   || ((a =? 227) && (b =? 128) && (c =? 128)))%nat.

(** [s.isspace()] for a string [s] of one character. *)
Definition isspace (s : string) : bool :=
  match s with
  | String c1 EmptyString => space1 c1
  | String c1 (String c2 EmptyString) => space2 c1 c2
  | String c1 (String c2 (String c3 EmptyString)) => space3 c1 c2 c3
  | _ => false
  end.

(** Whether a string begins with a white-space character. *)
Definition starts_space (s : string) : bool :=
  match s with
  | EmptyString => false
  | String c1 s1 =>
      space1 c1 ||
      match s1 with
      | EmptyString => false
      | String c2 s2 =>
          space2 c1 c2 ||
          match s2 with
          | EmptyString => false
          | String c3 _ => space3 c1 c2 c3
          end
      end
  end.

(** [s.lstrip()]: the white-space characters at the front are dropped,
    whatever the length of their encoding. *)
Fixpoint lstrip (s : string) : string :=
  match s with
  | EmptyString => ""
  | String c1 s1 =>
      if space1 c1 then lstrip s1
      else
        match s1 with
        | EmptyString => s
        | String c2 s2 =>
            if space2 c1 c2 then lstrip s2
            else
              match s2 with
              | EmptyString => s
              | String c3 s3 => if space3 c1 c2 c3 then lstrip s3 else s
              end
        end
  end.

(** [s.rstrip()]: a byte is dropped when, with what is kept of the rest,
    it makes up exactly one white-space character. *)
Fixpoint rstrip (s : string) : string :=
  match s with
  | EmptyString => ""
  | String c s' =>
      let r := rstrip s' in
      if isspace (String c r) then "" else String c r
  end.

(** [s.strip()] *)
Definition strip (s : string) : string := rstrip (lstrip s).

(** [str(n)] for a non-negative integer. *)
Definition str_nat (n : nat) : string :=
  NilZero.string_of_uint (Nat.to_uint n).

(** [str(z)] *)
Definition str_Z (z : Z) : string :=
  NilZero.string_of_int (Z.to_int z).

(** [f"{z:02d}"] *)
Definition fmt_02d (z : Z) : string :=
  if ((0 <=? z) && (z <? 10))%Z then "0" +:+ str_Z z else str_Z z.

(** [int(q)] for an exact quotient: truncation towards zero. *)
Definition int_of_Q (q : Q) : Z := Z.quot (Qnum q) (Zpos (Qden q)).

(** [int(x)] for a float: truncation towards zero. Python raises on an
    infinity and on a NaN; the embedding gives 0 there. *)
Definition int_of_float (x : float) : Z :=
  match FloatOps.Prim2SF x with
  | SpecFloat.S754_finite sign mantissa exponent =>
      let magnitude :=
        if (0 <=? exponent)%Z then (Zpos mantissa * 2 ^ exponent)%Z
        else (Zpos mantissa / 2 ^ (- exponent))%Z in
      if sign then (- magnitude)%Z else magnitude
  | _ => 0%Z
  end.

(** [s * n] *)
Fixpoint repeat_str (s : string) (n : nat) : string :=
  match n with
  | O => ""
  | S n' => s +:+ repeat_str s n'
  end.

End Py.

(** ** [src/executor.py] *)

Module Executor.

Definition activation_directive : string := "mamba activate abc_runtime".
Definition conda_hook : string := "conda shell.bash hook".

(** [self.code_prefix] and [self.code_postfix] of [__init__]. *)
Definition code_prefix : list string :=
  [ "eval " +:+ Py.dquote +:+ "$(mamba shell hook --shell bash)" +:+ Py.dquote;
    "mamba activate abc_runtime" ].
Definition code_postfix : list string := [].

Definition is_activation (line : string) : bool :=
  Py.contains activation_directive (Py.strip line).
Definition is_hook (line : string) : bool :=
  Py.contains conda_hook (Py.strip line).

(** The [for line in lines] loop of [_clean_script_content]; [seen] is
    ['abc_runtime' in seen_activations], the only key the set ever
    receives. *)
Fixpoint clean_lines (seen : bool) (lines : list string) : list string :=
  match lines with
  | [] => []
  | line :: rest =>
      if is_activation line then
        if negb seen then line :: clean_lines true rest
        else clean_lines seen rest
      else if is_hook line then clean_lines seen rest
      else line :: clean_lines seen rest
  end.

Definition _clean_script_content (content : string) : string :=
  Py.join_nl (clean_lines false (Py.split_nl content)).

(** The lines of a text that carry the activation directive. *)
Definition activation_lines (text : string) : list string :=
  filter is_activation (Py.split_nl text).

(** *** [execute] *)

(** A call that may raise: its value, or [str(e)] of the exception. *)
Inductive Res (A : Type) : Type :=
| Ok (a : A)
| Raise (msg : string).
Arguments Ok {A} a.
Arguments Raise {A} msg.

(** The file system: the text of the file at a path, if there is one. *)
Definition FS : Type := string -> option string.

Definition fs_write (fs : FS) (path content : string) : FS :=
  fun p => if String.eqb p path then Some content else fs p.

(** The fields of a [CodeExecutor]; a process is known by its pid. *)
Record State : Type := mkState {
  bash_code_path : option string;
  bash_code_path_execute : option string;
  current_process : option Z;
  is_interrupted : bool
}.

Definition new_executor : State := mkState None None None false.

(** One turn of the [while True] read loop: the interrupted flag at its
    top, [stdout.readline()] and, when the line is empty,
    [current_process.poll()]. *)
Record ReadObs : Type := mkReadObs {
  r_interrupted : bool;
  r_readline : Res string;
  r_poll : Res (option Z)
}.

(** What one call of [execute] meets outside the executor.
    - [e_write]: opening and writing the sibling file;
    - [e_stop_flag]: whether a stop flag was passed;
    - [e_monitor]: creating and starting the monitor thread, read only
      when a stop flag was passed ([Thread.start] raises when the system
      can start no more threads);
    - [e_spawn]: [subprocess.Popen], giving the pid;
    - [e_reads]: the turns of the read loop;
    - [e_stderr]: [current_process.stderr.readlines()];
    - [e_interrupted_wait], [e_interrupted_return]: the flag as read
      before [communicate()] and before the [return];
    - [e_communicate]: [communicate()], giving the return code. *)
Record ExecEnv : Type := mkExecEnv {
  e_write : Res unit;
  e_stop_flag : bool;
  e_monitor : Res unit;
  e_spawn : Res Z;
  e_reads : list ReadObs;
  e_stderr : Res (list string);
  e_interrupted_wait : bool;
  e_communicate : Res Z;
  e_interrupted_return : bool
}.

Inductive Effect : Type :=
| WriteFile (path content : string)
| StartMonitor
| Popen (argv : list string).

Inductive Outcome : Type :=
| Returned (text : string)
| Raised (msg : string)
| Running.

(** A step of the [try] body: finished, raised, or still in the read
    loop when the observations ran out. *)
Inductive Step (A : Type) : Type :=
| Done (a : A)
| Throw (msg : string)
| Pending.
Arguments Done {A} a.
Arguments Throw {A} msg.
Arguments Pending {A}.

Fixpoint read_loop (obs : list ReadObs) (stdout : list string)
  : Step (list string) :=
  match obs with
  | [] => Pending
  | o :: obs' =>
      if r_interrupted o then Done stdout
      else
        match r_readline o with
        | Raise m => Throw m
        | Ok output =>
            if String.eqb output "" then
              match r_poll o with
              | Raise m => Throw m
              | Ok (Some _) => Done stdout
              | Ok None => read_loop obs' stdout
              end
            else
              read_loop obs' (stdout ++ ["[stdout] " +:+ Py.strip output])
        end
  end.

Definition stderr_noise : list string :=
  ["EnvironmentNameNotFound"; "terminal process group"; "no job control";
   "shell.bash hook"].

Definition keep_stderr (line : string) : bool :=
  negb (existsb (fun x => Py.contains x line) stderr_noise) &&
  negb (String.eqb Py.NL line).

(** Whether some turn of the read loop leaves it: the flag is set, a
    read raises, or end of file meets an exited process. *)
Definition ends_loop (o : ReadObs) : bool :=
  r_interrupted o ||
  match r_readline o with
  | Raise _ => true
  | Ok output =>
      String.eqb output "" &&
      match r_poll o with
      | Ok None => false
      | _ => true
      end
  end.

Definition last10 (l : list string) : list string :=
  if 10 <? List.length l then Py.lastn 10 l else l.

(** The text written to the sibling file. *)
Definition execute_script (cleaned_content : string) : string :=
  String.concat "" (map (fun code => code +:+ Py.NL) code_prefix) +:+
  cleaned_content +:+ Py.NL +:+
  String.concat "" (map (fun code => code +:+ Py.NL) code_postfix).

(** The body of the [try], after [Popen] has succeeded. *)
Definition try_body (env : ExecEnv) : Step string :=
  match read_loop (e_reads env) [] with
  | Pending => Pending
  | Throw m => Throw m
  | Done stdout =>
      match e_stderr env with
      | Raise m => Throw m
      | Ok lines =>
          let stderr := filter keep_stderr lines in
          let stdout_str := Py.join_nl (last10 stdout) in
          let stderr_str := Py.join_nl (last10 stderr) in
          let waited :=
            if negb (e_interrupted_wait env)
            then match e_communicate env with
                 | Raise m => Some m
                 | Ok _ => None
                 end
            else None in
          match waited with
          | Some m => Throw m
          | None =>
              if e_interrupted_return env
              then Done ("Process interrupted by user" +:+ Py.NL +:+
                         stdout_str +:+ Py.NL +:+ stderr_str)
              else Done (stdout_str +:+ Py.NL +:+ stderr_str)
          end
      end
  end.

(** What a call leaves behind: its outcome, the fields it assigns, the
    file system and its effects in program order. [is_interrupted] is
    left out: after the reset at the top only [terminate] writes it. *)
Record ExecResult : Type := mkExecResult {
  outcome : Outcome;
  path_after : option string;
  path_execute_after : option string;
  process_after : option Z;
  fs_after : FS;
  effects : list Effect
}.

(** [execute(bash_code_path, stop_flag)]. The script is read, the
    sibling written and the monitor thread started before the [try];
    [Popen] and what follows are inside it. A failed [open(..., 'w')] is
    taken to leave the file system as it was. *)
Definition execute (env : ExecEnv) (fs : FS) (path : string) (st : State)
  : ExecResult :=
  match fs path with
  | None =>
      mkExecResult
        (Raised ("[Errno 2] No such file or directory: '" +:+ path +:+ "'"))
        (Some path) (bash_code_path_execute st) (current_process st) fs []
  | Some bash_content =>
      let path_execute := path +:+ ".execute.sh" in
      let cleaned_content := _clean_script_content bash_content in
      match e_write env with
      | Raise m =>
          mkExecResult (Raised m) (Some path) (Some path_execute)
                       (current_process st) fs []
      | Ok _ =>
          let text := execute_script cleaned_content in
          let fs' := fs_write fs path_execute text in
          match (if e_stop_flag env then e_monitor env else Ok tt) with
          | Raise m =>
              mkExecResult (Raised m) (Some path) (Some path_execute)
                           (current_process st) fs'
                           [WriteFile path_execute text]
          | Ok _ =>
              let monitor := if e_stop_flag env then [StartMonitor] else [] in
              let eff := WriteFile path_execute text :: monitor ++
                         [Popen ["bash"; "-e"; path_execute]] in
              let result (o : Outcome) (proc : option Z) :=
                mkExecResult o (Some path) (Some path_execute) proc fs' eff in
              match e_spawn env with
              | Raise m => result (Returned ("Execution error: " +:+ m)) None
              | Ok pid =>
                  match try_body env with
                  | Pending => result Running (Some pid)
                  | Throw m =>
                      result (Returned ("Execution error: " +:+ m)) None
                  | Done text' => result (Returned text') None
                  end
              end
          end
      end
  end.

(** The lines the read loop stores in some turns: every line read that
    is not empty, stripped and labelled, in reading order. *)
Definition lines_read (obs : list ReadObs) : list string :=
  flat_map (fun o => match r_readline o with
                     | Ok output =>
                         if String.eqb output "" then []
                         else ["[stdout] " +:+ Py.strip output]
                     | Raise _ => []
                     end) obs.

(** The read loop goes through the turns [pre] and is left in the turn
    [o] that follows them. *)
Definition left_at (env : ExecEnv) (pre : list ReadObs) (o : ReadObs)
  : Prop :=
  (exists rest, e_reads env = pre ++ o :: rest)
  /\ Forall (fun x => ends_loop x = false) pre
  /\ ends_loop o = true.

(** *** [terminate] *)

Inductive OsError : Type :=
| ProcessLookupError
| TimeoutExpired
| OtherError (msg : string).

Definition str_of_error (e : OsError) : string :=
  match e with
  | ProcessLookupError => "[Errno 3] No such process"
  | TimeoutExpired => "timed out"
  | OtherError msg => msg
  end.

Inductive Signal : Type := SIGTERM | SIGKILL.

(** What [terminate] does outside the executor, in program order. *)
Inductive Action : Type :=
| PrintLine (text : string)
| Getpgid (pid : Z)
| Killpg (pgid : Z) (sig : Signal)
| WaitTimeout (seconds : nat)
| Wait
| ProcTerminate
| ProcKill.

(** What the operating system answers to one call of [terminate]:
    [t_poll] is [current_process.poll()], the rest the outcome of each
    system call the function may make, [None] for success. *)
Record TermEnv : Type := mkTermEnv {
  t_poll : option Z;
  t_getpgid : OsError + Z;
  t_killpg_term : option OsError;
  t_wait_grace : option OsError;
  t_killpg_kill : option OsError;
  t_wait : option OsError;
  t_proc_terminate : option OsError;
  t_wait_grace' : option OsError;
  t_proc_kill : option OsError;
  t_wait' : option OsError
}.

(** The inner [try] up to its handlers: the actions made and the
    exception that leaves it, if any. *)
Definition kill_group (env : TermEnv) (pid : Z)
  : list Action * option OsError :=
  match t_getpgid env with
  | inl e => ([Getpgid pid], Some e)
  | inr pgid =>
      let a0 := [Getpgid pid;
                 PrintLine ("[EXECUTOR] Killing process group " +:+
                        Py.str_Z pgid +:+ "...");
                 Killpg pgid SIGTERM] in
      match t_killpg_term env with
      | Some e => (a0, Some e)
      | None =>
          match t_wait_grace env with
          | None =>
              (a0 ++ [WaitTimeout 2;
                      PrintLine ("[EXECUTOR] Process group " +:+
                             Py.str_Z pgid +:+ " terminated")], None)
          | Some TimeoutExpired =>
              let a1 := a0 ++ [WaitTimeout 2;
                               PrintLine ("[EXECUTOR] Force killing process group "
                                      +:+ Py.str_Z pgid +:+ "...");
                               Killpg pgid SIGKILL] in
              match t_killpg_kill env with
              | Some e => (a1, Some e)
              | None =>
                  match t_wait env with
                  | Some e => (a1 ++ [Wait], Some e)
                  | None =>
                      (a1 ++ [Wait;
                              PrintLine ("[EXECUTOR] Process group " +:+
                                     Py.str_Z pgid +:+ " killed")], None)
                  end
              end
          | Some e => (a0 ++ [WaitTimeout 2], Some e)
          end
      end
  end.

(** The handler [except Exception as e] of the inner [try]: the
    fall-back on the process alone. *)
Definition kill_process (env : TermEnv) (e : OsError)
  : list Action * option OsError :=
  let a0 := [PrintLine ("[EXECUTOR] Error during killpg: " +:+ str_of_error e);
             ProcTerminate] in
  let graceful :=
    match t_proc_terminate env with
    | Some _ => (a0, false)
    | None =>
        match t_wait_grace' env with
        | Some _ => (a0 ++ [WaitTimeout 2], false)
        | None => (a0 ++ [WaitTimeout 2], true)
        end
    end in
  let '(a1, ok) := graceful in
  if ok then (a1, None)
  else
    match t_proc_kill env with
    | Some e' => (a1 ++ [ProcKill], Some e')
    | None =>
        match t_wait' env with
        | Some e' => (a1 ++ [ProcKill; Wait], Some e')
        | None => (a1 ++ [ProcKill; Wait], None)
        end
    end.

Definition terminate (env : TermEnv) (st : State) : State * list Action :=
  match current_process st, t_poll env with
  | Some pid, None =>
      let a0 := [PrintLine ("[EXECUTOR] Terminating process " +:+
                        Py.str_Z pid +:+ "...")] in
      let '(a1, r1) := kill_group env pid in
      let '(a2, r2) :=
        match r1 with
        | None => ([], None)
        | Some ProcessLookupError =>
            ([PrintLine ("[EXECUTOR] Process " +:+ Py.str_Z pid +:+
                     " already terminated")], None)
        | Some e => kill_process env e
        end in
      let a3 :=
        match r2 with
        | None => []
        | Some e =>
            [PrintLine ("[EXECUTOR] Error terminating process: " +:+
                    str_of_error e)]
        end in
      (mkState (bash_code_path st) (bash_code_path_execute st) None true,
       a0 ++ a1 ++ a2 ++ a3)
  | _, _ => (st, [PrintLine "[EXECUTOR] No active process to terminate"])
  end.

(** Whether an action does anything to a process. *)
Definition is_termination_action (a : Action) : bool :=
  match a with
  | PrintLine _ => false
  | _ => true
  end.

End Executor.

(** ** [src/log_handler.py] *)

Module LogHandler.

(** *** Module-level state *)

(** The globals of the module. [log_queue] lists the queued records,
    oldest first; [current_thread] is the handle of the worker thread;
    [stop_flag] is the state of the [threading.Event]. *)
Record Globals : Type := mkGlobals {
  log_queue : list string;
  current_thread : option nat;
  stop_flag : bool;
  task_running : bool;
  _task_start_time : option float
}.

Definition initial_globals : Globals :=
  mkGlobals [] None false false None.

(** [stop_flag.set()] and [stop_flag.clear()] *)
Definition stop_flag_set (g : Globals) : Globals :=
  mkGlobals (log_queue g) (current_thread g) true (task_running g)
            (_task_start_time g).
Definition stop_flag_clear (g : Globals) : Globals :=
  mkGlobals (log_queue g) (current_thread g) false (task_running g)
            (_task_start_time g).

(** [stamp] is the value of [time.strftime("%H:%M:%S")]. *)
Definition log_callback (stamp message : string) (g : Globals) : Globals :=
  mkGlobals (log_queue g ++ ["[" +:+ stamp +:+ "]" +:+ message])
            (current_thread g) (stop_flag g) (task_running g)
            (_task_start_time g).

Definition _clear_log_queue (g : Globals) : Globals :=
  mkGlobals [] (current_thread g) (stop_flag g) (task_running g)
            (_task_start_time g).

(** [now] is the value of [time.time()]. *)
Definition init_task_state (now : float) (g : Globals) : Globals :=
  _clear_log_queue
    (mkGlobals (log_queue g) (current_thread g) (stop_flag g) true (Some now)).

Definition reset_task_state (g : Globals) : Globals :=
  mkGlobals (log_queue g) None false false None.

Definition set_current_thread (thread : nat) (g : Globals) : Globals :=
  mkGlobals (log_queue g) (Some thread) (stop_flag g) (task_running g)
            (_task_start_time g).

Definition get_current_thread (g : Globals) : option nat := current_thread g.
Definition is_task_running (g : Globals) : bool := task_running g.
Definition get_stop_flag (g : Globals) : bool := stop_flag g.

(** [start] is the global [_task_start_time], [now] the clock. The
    difference of two readings of the clock is a finite number, on which
    [int] does not raise. *)
Definition _format_elapsed_time (start : option float) (now : float)
  : string :=
  match start with
  | None => "00:00:00"
  | Some t0 =>
      let elapsed := Py.int_of_float (now - t0)%float in
      let hours := (elapsed / 3600)%Z in
      let minutes := ((elapsed mod 3600) / 60)%Z in
      let seconds := (elapsed mod 60)%Z in
      Py.fmt_02d hours +:+ ":" +:+ Py.fmt_02d minutes +:+ ":" +:+
      Py.fmt_02d seconds
  end.

(** *** Values written and yielded *)

(** A JSON value of a task-state dictionary. *)
Inductive JVal : Type :=
| JBool (b : bool)
| JInt (n : nat)
| JStr (s : string)
| JDict (kv : list (string * string)).

(** The dictionary handed to [_save_task_state]. *)
Definition TaskStateDict : Type := list (string * JVal).

Fixpoint dict_get (k : string) (d : TaskStateDict) : option JVal :=
  match d with
  | [] => None
  | (k', v) :: d' => if String.eqb k k' then Some v else dict_get k d'
  end.

(** What one emission shows, before it is rendered to text. *)
Inductive Snapshot : Type :=
| Progress (truncated : option nat) (display_lines : list string)
           (total : nat) (elapsed : string) (running : bool)
| StopNotice (display_lines : list string)
| Final (truncated : option nat) (display_lines : list string)
        (stopped : bool) (total : nat).

Definition snapshot_lines (s : Snapshot) : list string :=
  match s with
  | Progress _ l _ _ _ => l
  | StopNotice l => l
  | Final _ l _ _ => l
  end.

Definition snapshot_banner (s : Snapshot) : option nat :=
  match s with
  | Progress t _ _ _ _ => t
  | StopNotice _ => None
  | Final t _ _ _ => t
  end.

(** The text of the [yield]. *)
Definition render (s : Snapshot) : string :=
  match s with
  | Progress t lines total elapsed running =>
      let display_text :=
        match t with
        | Some k =>
            "[..." +:+ Py.str_nat k +:+
            " earlier lines truncated for performance...]" +:+
            Py.NL +:+ Py.NL +:+ Py.join_nl lines
        | None => Py.join_nl lines
        end in
      let stats :=
        Py.NL +:+ Py.NL +:+ Py.repeat_str "=" 50 +:+ Py.NL +:+
        "📊 总行数: " +:+ Py.str_nat total +:+ " | 显示: " +:+
        Py.str_nat (List.length lines) +:+ " | " +:+
        "运行时间: " +:+ elapsed +:+ " | " +:+
        "状态: " +:+ (if running then "运行中" else "已完成") in
      display_text +:+ stats
  | StopNotice lines => Py.join_nl lines
  | Final t lines stopped total =>
      let final_text :=
        match t with
        | Some k =>
            "[..." +:+ Py.str_nat k +:+ " earlier lines truncated...]" +:+
            Py.NL +:+ Py.NL +:+ Py.join_nl lines
        | None => Py.join_nl lines
        end in
      if stopped then
        final_text +:+ Py.NL +:+ Py.NL +:+ "✅ 任务已停止" +:+ Py.NL
      else
        final_text +:+ Py.NL +:+ Py.NL +:+ "🎉 任务完成！共处理 " +:+
        Py.str_nat total +:+ " 行日志" +:+ Py.NL
  end.

(** The effects of the generator, in program order. [_save_task_state]
    swallows the exception of a failed write, so [SaveState] stands for
    the call. *)
Inductive Event : Type :=
| Yield (s : Snapshot)
| SaveState (d : TaskStateDict)
| SetTaskRunning (b : bool).

Fixpoint snapshots (evs : list Event) : list Snapshot :=
  match evs with
  | [] => []
  | Yield s :: evs' => s :: snapshots evs'
  | _ :: evs' => snapshots evs'
  end.

(** *** [_stream_logs_with_heartbeat] *)

Definition MAX_DISPLAY_LINES : nat := 100.
Definition MAX_HISTORY_LINES : nat := 500.
Definition MIN_YIELD_INTERVAL : float := 0.1.
Definition HEARTBEAT_INTERVAL : float := 10.
Definition SAVE_INTERVAL : float := 30.

Definition stop_notice : string :=
  Py.NL +:+ "ℹ️ 停止信号已接收，正在终止任务...".

(** The locals of the generator that live across iterations. *)
Record Loop : Type := mkLoop {
  log_buffer : list string;
  last_yield_time : float;
  last_heartbeat_time : float;
  last_save_time : float;
  line_count : nat
}.

(** What one iteration of [while True] reads from outside.
    - [o_now]: [time.time()] at the top;
    - [o_alive]: [current_thread is not None and current_thread.is_alive()];
    - [o_queue]: the records queued when [log_queue.empty()] is first
      tested, that is, published since the previous drain;
    - [o_late]: the records published during the [time.sleep(0.1)] that
      precedes the second test (read only on that path);
    - [o_more]: the records published while the drain runs;
    - [o_stamp]: [time.strftime] for the periodic checkpoint;
    - [o_start], [o_clock]: [_task_start_time] and [time.time()] read by
      [_format_elapsed_time];
    - [o_alive_yield]: the liveness test of the status line;
    - [o_stop]: [stop_flag.is_set()] at the bottom. *)
Record Obs : Type := mkObs {
  o_now : float;
  o_alive : bool;
  o_queue : list string;
  o_late : list string;
  o_more : list string;
  o_stamp : string;
  o_start : option float;
  o_clock : float;
  o_alive_yield : bool;
  o_stop : bool
}.

Definition is_nil {A : Type} (l : list A) : bool :=
  match l with [] => true | _ => false end.

(** The [break] at the top: worker not alive and the queue empty at both
    tests. *)
Definition exits_top (o : Obs) : bool :=
  negb (o_alive o) && is_nil (o_queue o) && is_nil (o_late o).

(** The records the drain of this iteration takes from the queue. *)
Definition drained (o : Obs) : list string :=
  if negb (o_alive o) && is_nil (o_queue o)
  then o_late o ++ o_more o
  else o_queue o ++ o_more o.

(** The inner [while not log_queue.empty()] loop. *)
Fixpoint drain (msgs : list string) (buf : list string) (n : nat)
  : list string * nat :=
  match msgs with
  | [] => (buf, n)
  | message :: rest =>
      let buf1 := buf ++ [message] in
      let buf2 := if MAX_HISTORY_LINES <? List.length buf1
                  then Py.lastn MAX_HISTORY_LINES buf1 else buf1 in
      drain rest buf2 (S n)
  end.

Definition truncated_count (buf : list string) : option nat :=
  if MAX_DISPLAY_LINES <? List.length buf
  then Some (List.length buf - MAX_DISPLAY_LINES) else None.

Inductive Control : Type := Continue | Break.

(** One iteration of the main loop. *)
Definition iteration (o : Obs) (st : Loop) : list Event * Loop * Control :=
  let current_time := o_now o in
  if exits_top o then ([], st, Break)
  else
    let msgs := drained o in
    let '(buf, count) := drain msgs (log_buffer st) (line_count st) in
    let has_new_log := negb (is_nil msgs) in
    let beat := (HEARTBEAT_INTERVAL
                 <=? current_time - last_heartbeat_time st)%float in
    let last_heartbeat := if beat then current_time
                          else last_heartbeat_time st in
    let has_new_log := has_new_log || beat in
    let save := (SAVE_INTERVAL <=? current_time - last_save_time st)%float in
    let ev_save :=
      if save
      then [SaveState [("running", JBool true); ("line_count", JInt count);
                       ("last_update", JStr (o_stamp o))]]
      else [] in
    let last_save := if save then current_time else last_save_time st in
    let emit := has_new_log &&
                (MIN_YIELD_INTERVAL
                 <=? current_time - last_yield_time st)%float in
    let ev_yield :=
      if emit
      then [Yield (Progress (truncated_count buf)
                            (Py.lastn MAX_DISPLAY_LINES buf) count
                            (_format_elapsed_time (o_start o) (o_clock o))
                            (o_alive_yield o))]
      else [] in
    let last_yield := if emit then current_time else last_yield_time st in
    if o_stop o then
      let buf' := buf ++ [stop_notice] in
      (ev_save ++ ev_yield ++
         [Yield (StopNotice (Py.lastn MAX_DISPLAY_LINES buf'))],
       mkLoop buf' last_yield last_heartbeat last_save count, Break)
    else
      (ev_save ++ ev_yield,
       mkLoop buf last_yield last_heartbeat last_save count, Continue).

(** The main loop over the observations of its successive iterations.
    [Continue] as result: the observations ran out with the loop still
    going. *)
Fixpoint main_loop (os : list Obs) (st : Loop)
  : list Event * Loop * Control :=
  match os with
  | [] => ([], st, Continue)
  | o :: os' =>
      match iteration o st with
      | (evs, st', Break) => (evs, st', Break)
      | (evs, st', Continue) =>
          let '(evs', st'', c) := main_loop os' st' in
          (evs ++ evs', st'', c)
      end
  end.

(** What the code after the loop reads: the records still queued, the
    stop flag and [time.strftime]. *)
Record FinalObs : Type := mkFinalObs {
  f_queue : list string;
  f_stop : bool;
  f_stamp : string
}.

(** The code after the main loop: last drain (not capped), final text,
    final checkpoint, [task_running = False], last [yield]. *)
Definition epilogue (f : FinalObs) (st : Loop) : list Event * Loop :=
  let buf := log_buffer st ++ f_queue f in
  let count := line_count st + List.length (f_queue f) in
  ([SaveState [("running", JBool false); ("completed", JBool true);
               ("line_count", JInt count); ("end_time", JStr (f_stamp f))];
    SetTaskRunning false;
    Yield (Final (truncated_count buf) (Py.lastn MAX_DISPLAY_LINES buf)
                 (f_stop f) count)],
   mkLoop buf (last_yield_time st) (last_heartbeat_time st)
          (last_save_time st) count).

(** One invocation: the three clock readings that initialise the loop,
    the observations of the iterations and those of the epilogue. *)
Record Run : Type := mkRun {
  r_yield0 : float;
  r_heartbeat0 : float;
  r_save0 : float;
  r_iters : list Obs;
  r_final : FinalObs
}.

Definition initial_loop (r : Run) : Loop :=
  mkLoop [] (r_yield0 r) (r_heartbeat0 r) (r_save0 r) 0.

(** [None]: the observations ran out before the loop was left. *)
Definition _stream_logs_with_heartbeat (r : Run)
  : option (list Event * Loop) :=
  match main_loop (r_iters r) (initial_loop r) with
  | (evs, st, Break) =>
      let '(evs', st') := epilogue (r_final r) st in
      Some (evs ++ evs', st')
  | (_, _, Continue) => None
  end.

(** The lines appended to [log_buffer] by a run, in order: the records
    taken from the queue and, where the stop flag was seen, the notice. *)
Fixpoint fed (os : list Obs) : list string :=
  match os with
  | [] => []
  | o :: os' =>
      if exits_top o then []
      else drained o ++ (if o_stop o then [stop_notice] else fed os')
  end.

(** The records a run takes from the queue in its main loop. *)
Fixpoint consumed (os : list Obs) : list string :=
  match os with
  | [] => []
  | o :: os' =>
      if exits_top o then []
      else drained o ++ (if o_stop o then [] else consumed os')
  end.

(** Whether the main loop leaves through the stop flag. *)
Fixpoint stopped_by_flag (os : list Obs) : bool :=
  match os with
  | [] => false
  | o :: os' =>
      if exits_top o then false
      else if o_stop o then true else stopped_by_flag os'
  end.

(** Whether some iteration leaves the loop. *)
Fixpoint leaves (os : list Obs) : bool :=
  match os with
  | [] => false
  | o :: os' => exits_top o || o_stop o || leaves os'
  end.

Definition shown_stream (r : Run) : list string :=
  fed (r_iters r) ++ f_queue (r_final r).

(** All records of a run, in publish order. *)
Definition published (r : Run) : list string :=
  consumed (r_iters r) ++ f_queue (r_final r).

(** *** Vocabulary of the properties *)

Definition is_progress (e : Event) : bool :=
  match e with
  | Yield (Progress _ _ _ _ _) => true
  | _ => false
  end.

Definition is_final (s : Snapshot) : bool :=
  match s with
  | Final _ _ _ _ => true
  | _ => false
  end.

(** The banner that closes the final text. *)
Definition closing_banner (stopped : bool) (total : nat) : string :=
  if stopped then Py.NL +:+ Py.NL +:+ "✅ 任务已停止" +:+ Py.NL
  else Py.NL +:+ Py.NL +:+ "🎉 任务完成！共处理 " +:+ Py.str_nat total +:+
       " 行日志" +:+ Py.NL.

(** Whether a progress snapshot is among some events. *)
Definition emits_progress (evs : list Event) : bool :=
  existsb is_progress evs.

(** The two clock tests of an iteration, as the code computes them:
    the heartbeat interval has passed since the heartbeat mark, and the
    debounce interval since the last emission. *)
Definition heartbeat_due (o : Obs) (st : Loop) : bool :=
  (HEARTBEAT_INTERVAL <=? o_now o - last_heartbeat_time st)%float.
Definition debounce_over (o : Obs) (st : Loop) : bool :=
  (MIN_YIELD_INTERVAL <=? o_now o - last_yield_time st)%float.

(** The emission policy of an iteration that reaches the [yield]. *)
Definition should_emit (o : Obs) (st : Loop) : bool :=
  (negb (is_nil (drained o)) || heartbeat_due o st) && debounce_over o st.


(** Each snapshot shows the last [MAX_DISPLAY_LINES] lines of a prefix
    of [stream], and the prefixes grow, from length [k] on. *)
Inductive ordered_from (stream : list string)
  : nat -> list Snapshot -> Prop :=
| ordered_nil (k : nat) : ordered_from stream k []
| ordered_cons (k n : nat) (s : Snapshot) (ss : list Snapshot) :
    k <= n -> n <= List.length stream ->
    snapshot_lines s = Py.lastn MAX_DISPLAY_LINES (firstn n stream) ->
    ordered_from stream n ss ->
    ordered_from stream k (s :: ss).

End LogHandler.

(** ** [gui.py]: starting and stopping a task *)

Module Gui.
Import LogHandler.

(** The [config] dictionary. *)
Definition Config : Type := list (string * string).

Fixpoint config_get (k : string) (c : Config) : option string :=
  match c with
  | [] => None
  | (k', v) :: c' => if String.eqb k k' then Some v else config_get k c'
  end.

(** Truth value of [config.get(k)]. *)
Definition truthy (v : option string) : bool :=
  match v with
  | None => false
  | Some s => negb (String.eqb s "")
  end.

Definition required_keys : list string :=
  ["files"; "output_dir"; "goal"; "data_type"].

Record Request : Type := mkRequest {
  config : Config;
  api_key : option string;
  model_name : string;
  execute : bool;
  mode_name : string
}.

(** What an accepted start reads: [time.time()] in [init_task_state],
    [time.strftime] for the checkpoint and the handle of the new thread. *)
Record StartObs : Type := mkStartObs {
  s_now : float;
  s_stamp : string;
  s_thread : nat
}.

Definition msg_config_missing (missing : list string) : string :=
  "❌ 配置缺失: " +:+ String.concat ", " missing.
Definition msg_no_api_key : string := "❌ 请先设置API密钥".
Definition msg_already_running : string :=
  "⚠️ 已有任务在运行，请先停止当前任务".

(** How the generator begins: one message and [return], or a launched
    worker thread followed by [yield from _stream_logs_with_heartbeat()]. *)
Inductive Started : Type :=
| Rejected (message : string)
| Launched (thread : nat) (saved : TaskStateDict).

Definition missing_keys (c : Config) : list string :=
  filter (fun k => negb (truthy (config_get k c))) required_keys.

Definition api_key_blank (k : option string) : bool :=
  match k with
  | None => true
  | Some s => String.eqb s "" || String.eqb (Py.strip s) ""
  end.

(** [unified_analysis_executor] up to [thread.start()]. *)
Definition unified_analysis_executor (obs : StartObs) (req : Request)
                                     (g : Globals) : Started * Globals :=
  match missing_keys (config req) with
  | (_ :: _) as missing => (Rejected (msg_config_missing missing), g)
  | [] =>
      if api_key_blank (api_key req) then (Rejected msg_no_api_key, g)
      else if is_task_running g then (Rejected msg_already_running, g)
      else
        let g1 := init_task_state (s_now obs) g in
        let g2 := stop_flag_clear g1 in
        let saved := [("running", JBool true);
                      ("mode", JStr (mode_name req));
                      ("start_time", JStr (s_stamp obs));
                      ("config", JDict (config req))] in
        let g3 := set_current_thread (s_thread obs) g2 in
        (Launched (s_thread obs) saved, g3)
  end.

Definition stop_analysis (g : Globals) : string * Globals :=
  if negb (is_task_running g) then ("⚪ 当前没有运行中的任务", g)
  else
    ("⏹️ 停止信号已发送" +:+ Py.NL +:+ "正在中断:" +:+ Py.NL +:+
     "• AI调用" +:+ Py.NL +:+ "• 代码执行" +:+ Py.NL +:+ "• Shell进程" +:+
     Py.NL +:+ Py.NL +:+ "⏳ 请稍候...",
     stop_flag_set g).

(** The part of [reset_chat] and of [start_new_conversation] that
    touches the task state. *)
Definition stop_if_running (g : Globals) : Globals :=
  if is_task_running g then stop_flag_set g else g.

Definition signal_handler (g : Globals) : Globals := stop_flag_set g.

(** *** The task state under the calls of all threads *)

(** Every operation of the sources that writes a global of
    [log_handler.py]: the UI thread ([Start], [StopAnalysis], [ResetChat],
    [NewConversation], [Sigint]), the worker thread ([Publish] through the
    log callback, [WorkerExit] for [reset_task_state] in the [finally] of
    [run_agent]) and the streaming generator ([Take] for one
    [get_nowait], [StreamEnd] for its [task_running = False]). *)
Inductive Op : Type :=
| Start (obs : StartObs) (req : Request)
| StopAnalysis
| ResetChat
| NewConversation
| Sigint
| Publish (stamp message : string)
| WorkerExit
| Take
| StreamEnd.

Definition step (op : Op) (g : Globals) : Globals :=
  match op with
  | Start obs req => snd (unified_analysis_executor obs req g)
  | StopAnalysis => snd (stop_analysis g)
  | ResetChat => stop_if_running g
  | NewConversation => stop_if_running g
  | Sigint => signal_handler g
  | Publish stamp message => log_callback stamp message g
  | WorkerExit => reset_task_state g
  | Take => mkGlobals (tl (log_queue g)) (current_thread g) (stop_flag g)
                      (task_running g) (_task_start_time g)
  | StreamEnd => mkGlobals (log_queue g) (current_thread g) (stop_flag g)
                           false (_task_start_time g)
  end.

Fixpoint run_ops (ops : list Op) (g : Globals) : Globals :=
  match ops with
  | [] => g
  | op :: ops' => run_ops ops' (step op g)
  end.

(** Whether a start request is accepted in a state. *)
Definition accepted (obs : StartObs) (req : Request) (g : Globals) : bool :=
  match fst (unified_analysis_executor obs req g) with
  | Launched _ _ => true
  | Rejected _ => false
  end.

(** The number of tasks created by a sequence of operations: the
    generation of the design, of which the code keeps no count. *)
Fixpoint generation (ops : list Op) (g : Globals) : nat :=
  match ops with
  | [] => 0
  | op :: ops' =>
      (match op with
       | Start obs req => if accepted obs req g then 1 else 0
       | _ => 0
       end) + generation ops' (step op g)
  end.

(** No task is created and no worker thread ends during [ops]. *)
Fixpoint undisturbed (ops : list Op) (g : Globals) : bool :=
  match ops with
  | [] => true
  | op :: ops' =>
      negb (match op with
            | Start obs req => accepted obs req g
            | WorkerExit => true
            | _ => false
            end) && undisturbed ops' (step op g)
  end.

End Gui.

(** ** [src/executor.py]: the stop monitor and the child environment *)

Module Monitor.
Import Executor.

(** What the monitor thread does, in program order. *)
Inductive MonitorStep : Type :=
| Said (text : string)
| Slept
| Terminated (actions : list Action).

(** The [while True] loop of [_monitor_stop_flag]. [readings] lists
    [stop_flag.is_set()] turn by turn; [env] and [st] are what
    [terminate] meets when it is called. The boolean tells whether the
    loop was left. *)
Fixpoint monitor_loop (readings : list bool) (env : TermEnv) (st : State)
  : State * list MonitorStep * bool :=
  match readings with
  | [] => (st, [], false)
  | true :: _ =>
      let '(st', actions) := terminate env st in
      (st',
       [Said "[EXECUTOR] Stop flag detected, terminating process...";
        Terminated actions],
       true)
  | false :: rest =>
      let '(st', steps, ended) := monitor_loop rest env st in
      (st', Slept :: steps, ended)
  end.

Definition _monitor_stop_flag (readings : list bool) (env : TermEnv)
                              (st : State)
  : State * list MonitorStep * bool :=
  let '(st', steps, ended) := monitor_loop readings env st in
  (st', Said "[EXECUTOR] Stop monitor thread started" :: steps, ended).

(** The number of turns before the flag is first seen set. *)
Fixpoint turns_before_set (readings : list bool) : nat :=
  match readings with
  | false :: rest => S (turns_before_set rest)
  | _ => 0
  end.

End Monitor.

Module ChildEnv.

(** A dictionary of environment variables. *)
Definition Env : Type := string -> option string.

(** [env.get(k, default)] and [env[k] = v] *)
Definition env_get (env : Env) (k default : string) : string :=
  match env k with
  | Some v => v
  | None => default
  end.
Definition env_set (env : Env) (k v : string) : Env :=
  fun k' => if String.eqb k' k then Some v else env k'.

(** [s.rstrip('/')] *)
Fixpoint rstrip_slash (s : string) : string :=
  match s with
  | EmptyString => ""
  | String c s' =>
      match rstrip_slash s' with
      | EmptyString => if Ascii.eqb c "/" then "" else String c ""
      | r => String c r
      end
  end.

(** [os.path.expanduser] on a path of the form [~/...], the only form
    the source passes: the home directory is [HOME] or, failing that,
    [pw_dir], the entry of the password database, if any. *)
Definition expanduser (environ : Env) (pw_dir : option string)
                      (path : string) : string :=
  match path with
  | String "~" (String "/" _ as rest) =>
      match (match environ "HOME" with
             | Some h => Some h
             | None => pw_dir
             end) with
      | Some userhome => rstrip_slash userhome +:+ rest
      | None => path
      end
  | _ => path
  end.

Fixpoint ends_with_slash (s : string) : bool :=
  match s with
  | EmptyString => false
  | String c EmptyString => Ascii.eqb c "/"
  | String _ s' => ends_with_slash s'
  end.

(** [os.path.join(a, b)] *)
Definition path_join (a b : string) : string :=
  if String.prefix "/" b then b
  else if String.eqb a "" || ends_with_slash a then a +:+ b
  else a +:+ "/" +:+ b.

Definition conda_paths (environ : Env) (pw_dir : option string)
  : list string :=
  ["/home/malab21/.conda"; "/home/malab21/mambaforge"; "/opt/conda";
   expanduser environ pw_dir "~/mambaforge";
   expanduser environ pw_dir "~/miniconda3"].

(** [_prepare_env]; [path_exists] is [os.path.exists], [environ] is
    [os.environ]. The [for] loop stops at the first path that exists. *)
Definition _prepare_env (path_exists : string -> bool)
                        (pw_dir : option string) (environ : Env) : Env :=
  let env :=
    match find path_exists (conda_paths environ pw_dir) with
    | Some conda_path =>
        let bin_path := path_join conda_path "bin" in
        if negb (Py.contains bin_path (env_get environ "PATH" ""))
        then env_set environ "PATH"
                     (bin_path +:+ ":" +:+ env_get environ "PATH" "")
        else environ
    | None => environ
    end in
  env_set env "CONDA_AUTO_ACTIVATE_BASE" "false".

End ChildEnv.

(** ** [gui.py]: the quick form *)

Module GuiForms.
Import LogHandler Gui.

(** [c.lower()] on one character of the ASCII range; other bytes are
    left alone, which cannot change whether the ASCII word [dorado]
    occurs. *)
Definition lower_char (c : ascii) : ascii :=
  let n := nat_of_ascii c in
  if ((65 <=? n) && (n <=? 90))%nat then ascii_of_nat (n + 32) else c.

Fixpoint lower (s : string) : string :=
  match s with
  | EmptyString => ""
  | String c s' => String (lower_char c) (lower s')
  end.

(** [not text or not text.strip()] *)
Definition blank (text : string) : bool :=
  String.eqb text "" || String.eqb (Py.strip text) "".

(** [validate_quick_inputs]: the texts of the three boxes and the choice
    of the drop-down, which may be [None]. *)
Definition validate_quick_inputs (files_text output_text goal_text : string)
                                 (data_type : option string) : list string :=
  (if negb (Gui.truthy data_type) then ["❌ 请选择数据类型"] else [])
  ++ (if blank files_text then ["❌ 请输入数据文件路径"] else [])
  ++ (if blank output_text then ["❌ 请输入输出路径"] else [])
  ++ (if blank goal_text then ["❌ 请描述分析目标"] else [])
  ++ (if match data_type with
         | Some d => String.eqb d "Nanopore"
         | None => false
         end && negb (Py.contains "dorado" (lower files_text))
      then ["⚠️ Nanopore数据分析需要提供dorado软件的绝对路径"]
      else []).

Definition msg_no_api_key_quick : string := "❌ 请先在配置区设置API密钥".

(** [quick_start_analysis] up to the start of the worker thread. *)
Definition quick_start_analysis
    (obs : StartObs) (data_type : option string)
    (input_files_text output_path_text goal_text : string)
    (api_key : option string) (model_choice : string) (execute : bool)
    (g : Globals) : Started * Globals :=
  match validate_quick_inputs input_files_text output_path_text goal_text
                              data_type with
  | (_ :: _) as errors => (Rejected (Py.join_nl errors), g)
  | [] =>
      if api_key_blank api_key then (Rejected msg_no_api_key_quick, g)
      else if is_task_running g then (Rejected msg_already_running, g)
      else
        let config :=
          [("data_type", match data_type with Some d => d | None => "" end);
           ("files", input_files_text);
           ("output_dir", Py.strip output_path_text);
           ("goal", Py.strip goal_text)] in
        unified_analysis_executor obs
          (mkRequest config api_key model_choice execute "快速模式") g
  end.

(** The value of [config['files']]: a string, a list, or anything else,
    given by its [str()]. *)
Inductive FilesValue : Type :=
| FStr (s : string)
| FList (l : list string)
| FOther (repr : string).

(** [[f.strip() for f in s.split('\n') if f.strip()]] *)
Definition stripped_lines (s : string) : list string :=
  map Py.strip
      (filter (fun f => negb (String.eqb (Py.strip f) "")) (Py.split_nl s)).

Definition _parse_files_config (files_value : FilesValue) : list string :=
  match files_value with
  | FStr s => stripped_lines s
  | FList l => l
  | FOther repr => [repr]
  end.

(** A path as the parser returns it: not empty, no white space at its
    ends, no newline. *)
Definition tidy (path : string) : Prop :=
  path <> "" /\ Py.strip path = path /\ Py.no_nl path = true.

End GuiForms.

(** ** [src/information_slots.py]: the file list *)

Module FileManager.

(** [_parse_to_list] *)
Definition _parse_to_list (value : option string) : list string :=
  match value with
  | None => []
  | Some v => if String.eqb v "" then [] else GuiForms.stripped_lines v
  end.

(** The keys of [{f: None for f in l}], in insertion order: every path
    once, at the place of its first occurrence. *)
Fixpoint keys_from (seen l : list string) : list string :=
  match l with
  | [] => []
  | f :: l' =>
      if existsb (String.eqb f) seen then keys_from seen l'
      else f :: keys_from (f :: seen) l'
  end.

Definition dict_keys (l : list string) : list string := keys_from [] l.

(** [merge(old_files, new_files, action)]; [new_files] may be the [None]
    that [normalize] returns. *)
Definition merge (old_files new_files : option string) (action : string)
  : string :=
  let old_list :=
    match old_files with
    | Some o => if String.eqb o "" then [] else _parse_to_list old_files
    | None => []
    end in
  let new_list := _parse_to_list new_files in
  if String.eqb action "replace" then Py.join_nl new_list
  else if String.eqb action "add"
          || (String.eqb action "auto"
              && (List.length new_list <=? 2)
              && negb (LogHandler.is_nil old_list))
  then Py.join_nl (dict_keys (old_list ++ new_list))
  else Py.join_nl new_list.

End FileManager.

(** ** [src/information_slots.py]: the required slots *)

Module InformationSlots.

(** The dictionary [required_slots], whose four keys never change; a
    slot holds [None] until it is filled. *)
Record Slots : Type := mkSlots {
  data_type : option string;
  files : option string;
  output_dir : option string;
  goal : option string
}.

(** Its items in insertion order. *)
Definition required_items (s : Slots) : list (string * option string) :=
  [("data_type", data_type s); ("files", files s);
   ("output_dir", output_dir s); ("goal", goal s)].

Definition is_none {A : Type} (v : option A) : bool :=
  match v with None => true | Some _ => false end.

Definition get_missing_required_slots (s : Slots) : list string :=
  map fst (filter (fun kv => is_none (snd kv)) (required_items s)).

Definition is_complete (s : Slots) : bool :=
  Nat.eqb (List.length (get_missing_required_slots s)) 0.

(** [int((filled / total) * 100)]; the quotients by four and their
    products by 100 are exact in floating point. *)
Definition get_completeness_percentage (s : Slots) : Z :=
  let total := List.length (required_items s) in
  let filled := total - List.length (get_missing_required_slots s) in
  Py.int_of_Q ((inject_Z (Z.of_nat filled) / inject_Z (Z.of_nat total))
               * inject_Z 100)%Q.

(** [mapping.get(m, m)] of [start_chat_analysis] in [gui.py]. *)
Definition slot_label (name : string) : string :=
  if String.eqb name "data_type" then "数据类型"
  else if String.eqb name "files" then "数据文件"
  else if String.eqb name "output_dir" then "输出目录"
  else if String.eqb name "goal" then "分析目标"
  else name.

(** The tests [start_chat_analysis] makes before it starts a task: the
    message it yields, or [None] when it goes on. *)
Definition chat_gate (handler : option Slots) : option string :=
  match handler with
  | None => Some "❌ 助手未初始化，请先初始化"
  | Some s =>
      if negb (is_complete s)
      then Some ("❌ 信息未收集完整，还缺少: " +:+
                 String.concat ", "
                   (map slot_label (get_missing_required_slots s)))
      else None
  end.

End InformationSlots.

(** ** Concrete situations used by the properties below *)

Module Scenario.
Import Executor.

(** The no-break space U+00A0 and the ideographic space U+3000, as
    encoded. *)
Definition nbsp : string :=
  String (ascii_of_nat 194) (String (ascii_of_nat 160) "").
Definition wide_space : string :=
  String (ascii_of_nat 227)
         (String (ascii_of_nat 128) (String (ascii_of_nat 128) "")).

(** A directory that holds only the script [run.sh]. *)
Definition one_script : FS :=
  fun p => if String.eqb p "run.sh"
           then Some ("echo start" +:+ Py.NL +:+ "mamba activate abc_runtime")
           else None.

(** The script prints one line and exits with code 0. *)
Definition quiet_run : ExecEnv :=
  mkExecEnv (Ok tt) true (Ok tt) (Ok 4242%Z)
            [mkReadObs false (Ok ("start" +:+ Py.NL)) (Ok None);
             mkReadObs false (Ok "") (Ok (Some 0%Z))]
            (Ok []) false (Ok 0%Z) false.

(** The same script in a directory that cannot be written. *)
Definition read_only_dir : ExecEnv :=
  mkExecEnv (Raise "[Errno 13] Permission denied: 'run.sh.execute.sh'")
            true (Ok tt) (Ok 4242%Z) [] (Ok []) false (Ok 0%Z) false.

(** No further thread can be started when the monitor is to start. *)
Definition no_more_threads : ExecEnv :=
  mkExecEnv (Ok tt) true (Raise "can't start new thread") (Ok 4242%Z)
            [] (Ok []) false (Ok 0%Z) false.

(** The task is cancelled while the script is silent: [terminate] sets
    the interrupted flag, kills the process and lets go of it, and the
    reader, woken by the end of the stream, asks the process it no
    longer holds whether it has exited. *)
Definition cancelled_under_reader : ExecEnv :=
  mkExecEnv (Ok tt) true (Ok tt) (Ok 4242%Z)
            [mkReadObs false (Ok ("start" +:+ Py.NL)) (Ok None);
             mkReadObs false (Ok "")
               (Raise "'NoneType' object has no attribute 'poll'")]
            (Ok []) true (Ok 0%Z) true.

(** The task is cancelled while the script prints: the reader sees the
    flag at the top of its next turn. *)
Definition cancelled_between_lines : ExecEnv :=
  mkExecEnv (Ok tt) true (Ok tt) (Ok 4242%Z)
            [mkReadObs false (Ok ("start" +:+ Py.NL)) (Ok None);
             mkReadObs true (Ok "") (Ok None)]
            (Ok []) true (Ok 0%Z) true.

(** The process has exited with code 0 by the time of the call. *)
Definition exited : TermEnv :=
  mkTermEnv (Some 0%Z) (inl ProcessLookupError) None None None None
            None None None None.

Definition holding (pid : Z) : State :=
  mkState (Some "run.sh") (Some "run.sh.execute.sh") (Some pid) false.

(** The process ignores SIGTERM for the two seconds of grace and dies of
    SIGKILL. *)
Definition stubborn : TermEnv :=
  mkTermEnv None (inr 4242%Z) None (Some TimeoutExpired) None None
            None None None None.

(** The process group cannot be found although the process runs. *)
Definition no_group : TermEnv :=
  mkTermEnv None (inl (OtherError "[Errno 1] Operation not permitted"))
            None None None None None (Some TimeoutExpired) None None.

Import LogHandler.

Definition records (n : nat) : list string :=
  map (fun i => "record " +:+ Py.str_nat i) (seq 1 n).

(** An iteration at clock reading [t], the task having started at 0. *)
Definition at_time (t : float) (alive : bool) (queue : list string)
                   (stop : bool) : Obs :=
  mkObs t alive queue [] [] "2024-05-01 12:00:00" (Some 0%float) t alive
        stop.

Definition at_end (stop : bool) : FinalObs :=
  mkFinalObs [] stop "2024-05-01 12:00:30".

(** 505 records are queued when the loop first looks; the worker is
    gone at the second look. *)
Definition overflow_run : Run :=
  mkRun 0 0 0
        [at_time 1 true (records 505) false; at_time 2 false [] false]
        (at_end false).

(** The stop flag is seen while the worker lives and logs. *)
Definition stopped_run : Run :=
  mkRun 0 0 0 [at_time 1 true ["working"] true] (at_end true).



(** The flag is set while the monitor sleeps for the third time. *)
Definition set_at_fourth_turn : list bool := [false; false; false; true; true].

(** A machine with conda under [/opt] and a short search path. *)
Definition opt_conda (p : string) : bool := String.eqb p "/opt/conda".
Definition plain_environ : ChildEnv.Env :=
  fun k => if String.eqb k "PATH" then Some "/usr/bin:/bin"
           else if String.eqb k "HOME" then Some "/home/user/"
           else None.

Import Gui.

Definition full_config : Config :=
  [("files", "/data/a.fastq"); ("output_dir", "/out");
   ("goal", "call peaks"); ("data_type", "MeRIP-seq")].

Definition good_request : Request :=
  mkRequest full_config (Some "sk-key") "gpt" true "快速模式".

(** The same request without a goal. *)
Definition no_goal_request : Request :=
  mkRequest [("files", "/data/a.fastq"); ("output_dir", "/out");
             ("data_type", "MeRIP-seq")]
            (Some "sk-key") "gpt" true "快速模式".

Definition first_start : StartObs := mkStartObs 0 "2024-05-01 12:00:00" 1.
Definition second_start : StartObs := mkStartObs 60 "2024-05-01 12:01:00" 2.

(** The state right after a first task was started. *)
Definition running_globals : Globals :=
  snd (unified_analysis_executor first_start good_request initial_globals).

End Scenario.

(** ** Vocabulary for the behaviour of [terminate] and of the loop *)

Module Trace.
Import Executor LogHandler.

Definition is_sigterm (a : Action) : bool :=
  match a with Killpg _ SIGTERM => true | _ => false end.
Definition is_sigkill (a : Action) : bool :=
  match a with Killpg _ SIGKILL => true | _ => false end.
Definition is_grace_wait (a : Action) : bool :=
  match a with WaitTimeout 2 => true | _ => false end.
Definition is_proc_terminate (a : Action) : bool :=
  match a with ProcTerminate => true | _ => false end.
Definition is_proc_kill (a : Action) : bool :=
  match a with ProcKill => true | _ => false end.

(** Every action that satisfies [q] comes after one that satisfies [p];
    [seen] tells whether such a one came before the list. *)
Fixpoint preceded (p q : Action -> bool) (seen : bool) (l : list Action)
  : bool :=
  match l with
  | [] => true
  | a :: l' => (negb (q a) || seen) && preceded p q (seen || p a) l'
  end.

(** The clock readings of the iterations of the main loop that emit a
    progress snapshot, and of those that write a checkpoint. *)
Fixpoint progress_clocks (os : list Obs) (st : Loop) : list float :=
  match os with
  | [] => []
  | o :: os' =>
      match iteration o st with
      | (evs, st', c) =>
          (if emits_progress evs then [o_now o] else [])
          ++ match c with
             | Break => []
             | Continue => progress_clocks os' st'
             end
      end
  end.

Definition is_save (e : Event) : bool :=
  match e with SaveState _ => true | _ => false end.

Fixpoint save_clocks (os : list Obs) (st : Loop) : list float :=
  match os with
  | [] => []
  | o :: os' =>
      match iteration o st with
      | (evs, st', c) =>
          (if existsb is_save evs then [o_now o] else [])
          ++ match c with
             | Break => []
             | Continue => save_clocks os' st'
             end
      end
  end.

(** The difference of each reading and the one before it, computed as
    the code computes it, is at least [gap]; [prev] comes before the
    first one. *)
Fixpoint spaced (gap prev : float) (l : list float) : Prop :=
  match l with
  | [] => True
  | t :: l' => (gap <=? t - prev)%float = true /\ spaced gap t l'
  end.

(** A task marked as running has a start time and a worker handle. *)
Definition running_has_task (g : Globals) : Prop :=
  task_running g = true ->
  _task_start_time g <> None /\ current_thread g <> None.

(** What a snapshot of the main loop may look like: without a banner at
    most [MAX_DISPLAY_LINES] lines, with one exactly that many and
    between 1 and 400 hidden lines. *)
Definition progress_bounded (s : Snapshot) : Prop :=
  match s with
  | Progress t lines _ _ _ =>
      (t = None /\ List.length lines <= MAX_DISPLAY_LINES)
      \/ (exists k, t = Some k
                    /\ 1 <= k <= MAX_HISTORY_LINES - MAX_DISPLAY_LINES
                    /\ List.length lines = MAX_DISPLAY_LINES)
  | StopNotice lines => List.length lines <= MAX_DISPLAY_LINES
  | Final _ _ _ _ => False
  end.

End Trace.


(** * Properties *)

(** ** Lines of a text *)

Section Lines.
Import Py.

Lemma split_nl_not_nil (s : string) : split_nl s <> [].
Proof.
  induction s as [|c s IH]; simpl; [discriminate|].
  destruct (Ascii.eqb c nl); [discriminate|].
  destruct (split_nl s); discriminate.
Qed.

Lemma split_nl_no_nl (s : string) :
  Forall (fun l => no_nl l = true) (split_nl s).
Proof.
  induction s as [|c s IH]; simpl.
  - constructor; [reflexivity | constructor].
  - destruct (Ascii.eqb c nl) eqn:E.
    + constructor; [reflexivity | exact IH].
    + destruct (split_nl s) as [|l ls].
      * constructor; [simpl; rewrite E; reflexivity | constructor].
      * inversion IH; subst. constructor; [|assumption].
        simpl. rewrite E. assumption.
Qed.

Lemma split_nl_app (l rest : string) :
  no_nl l = true -> split_nl (l +:+ String nl rest) = l :: split_nl rest.
Proof.
  induction l as [|c l IH]; simpl; intros H.
  - reflexivity.
  - apply andb_prop in H as [Hc Hl].
    apply negb_true_iff in Hc. rewrite Hc, (IH Hl). reflexivity.
Qed.

Lemma split_nl_single (l : string) : no_nl l = true -> split_nl l = [l].
Proof.
  induction l as [|c l IH]; simpl; intros H; [reflexivity|].
  apply andb_prop in H as [Hc Hl].
  apply negb_true_iff in Hc. rewrite Hc, (IH Hl). reflexivity.
Qed.

(** Splitting undoes joining, for a list that joining does not
    collapse. *)
Lemma split_join (ls : list string) :
  ls <> [] -> Forall (fun l => no_nl l = true) ls ->
  split_nl (join_nl ls) = ls.
Proof.
  induction ls as [|l ls IH]; intros Hne Hall; [congruence|].
  inversion Hall as [|? ? Hl Hls]; subst.
  destruct ls as [|l' ls].
  - simpl. apply split_nl_single, Hl.
  - change (join_nl (l :: l' :: ls))
      with (l +:+ String nl (join_nl (l' :: ls))).
    rewrite split_nl_app by assumption.
    rewrite IH; [reflexivity | discriminate | assumption].
Qed.



End Lines.

(** ** The script rewrite *)

Section Clean.
Import Py Executor.

Lemma clean_lines_Forall (P : string -> Prop) (seen : bool) (ls : list string) :
  Forall P ls -> Forall P (clean_lines seen ls).
Proof.
  revert seen. induction ls as [|l ls IH]; intros seen H; simpl.
  - constructor.
  - inversion H; subst.
    destruct (is_activation l); [destruct seen; simpl|destruct (is_hook l)];
      auto.
Qed.



Lemma clean_lines_seen_no_activation (ls : list string) :
  filter is_activation (clean_lines true ls) = [].
Proof.
  induction ls as [|l ls IH]; simpl; [reflexivity|].
  destruct (is_activation l) eqn:Ea; simpl; [exact IH|].
  destruct (is_hook l); [exact IH|]. simpl. rewrite Ea. exact IH.
Qed.

Lemma clean_lines_first_activation (ls : list string) :
  filter is_activation (clean_lines false ls)
  = firstn 1 (filter is_activation ls).
Proof.
  induction ls as [|l ls IH]; simpl; [reflexivity|].
  destruct (is_activation l) eqn:Ea; simpl.
  - rewrite Ea, clean_lines_seen_no_activation. reflexivity.
  - destruct (is_hook l); [exact IH|]. simpl. rewrite Ea. exact IH.
Qed.


(** The lines of the cleaned text are the kept lines; a text whose
    lines are all dropped becomes the empty text, of one empty line. *)
Lemma lines_of_clean (content : string) :
  split_nl (_clean_script_content content)
  = match clean_lines false (split_nl content) with
    | [] => [""]
    | kept => kept
    end.
Proof.
  unfold _clean_script_content.
  destruct (clean_lines false (split_nl content)) as [|k ks] eqn:E.
  - reflexivity.
  - apply split_join; [discriminate|].
    rewrite <- E. apply clean_lines_Forall, split_nl_no_nl.
Qed.

(** A script with the directive on three lines, one of them indented
    and one with a trailing comment, and with a conda hook line. *)
Example clean_three_activations :
  _clean_script_content
    ("mamba activate abc_runtime" +:+ NL +:+ "echo a" +:+ NL +:+
     "  mamba activate abc_runtime" +:+ NL +:+
     "eval $(conda shell.bash hook)" +:+ NL +:+
     "mamba activate abc_runtime # again" +:+ NL +:+ "echo b")
  = "mamba activate abc_runtime" +:+ NL +:+ "echo a" +:+ NL +:+ "echo b".
Proof. vm_compute. reflexivity. Qed.



End Clean.

(** ** The executor *)

Section Execute.
Import Py Executor.

Lemma append_fixed (s t : string) : s +:+ t = s -> t = "".
Proof.
  induction s as [|c s IH]; simpl; intros H; [exact H|].
  injection H as H. exact (IH H).
Qed.

Lemma sibling_differs (path : string) : path +:+ ".execute.sh" <> path.
Proof. intros H. apply append_fixed in H. discriminate. Qed.

Lemma read_loop_ends (obs : list ReadObs) (acc : list string) :
  existsb ends_loop obs = true -> read_loop obs acc <> Pending.
Proof.
  revert acc. induction obs as [|o obs IH]; intros acc H; simpl in *.
  - discriminate.
  - unfold ends_loop in H.
    destruct (r_interrupted o); [discriminate|].
    destruct (r_readline o) as [output|m]; [|discriminate].
    destruct (String.eqb output "").
    + destruct (r_poll o) as [[code|]|m]; try discriminate.
      apply IH. exact H.
    + apply IH. exact H.
Qed.

(** The turns that do not end the loop add their lines and nothing
    else. *)
Lemma read_loop_through (pre rest : list ReadObs) (acc : list string) :
  Forall (fun x => ends_loop x = false) pre ->
  read_loop (pre ++ rest) acc = read_loop rest (acc ++ lines_read pre).
Proof.
  revert acc. induction pre as [|o pre IH]; intros acc H.
  - cbn [app lines_read flat_map]. rewrite app_nil_r. reflexivity.
  - inversion H as [|? ? Ho Hpre]; subst. unfold ends_loop in Ho.
    cbn [app read_loop lines_read flat_map].
    destruct (r_interrupted o); [discriminate|].
    destruct (r_readline o) as [output|m]; [|discriminate].
    cbn [orb] in Ho. destruct (String.eqb output "").
    + destruct (r_poll o) as [[code|]|m]; try discriminate.
      cbn [app]. apply IH, Hpre.
    + rewrite (IH _ Hpre), <- app_assoc. reflexivity.
Qed.

(** How the read loop is left in the turn that ends it. *)
Lemma read_loop_left (env : ExecEnv) (pre : list ReadObs) (o : ReadObs) :
  left_at env pre o ->
  read_loop (e_reads env) []
  = if r_interrupted o then Done (lines_read pre)
    else match r_readline o with
         | Raise m => Throw m
         | Ok _ =>
             match r_poll o with
             | Raise m => Throw m
             | Ok _ => Done (lines_read pre)
             end
         end.
Proof.
  intros ([rest Hreads] & Hpre & Ho). rewrite Hreads.
  rewrite (read_loop_through pre (o :: rest) [] Hpre).
  cbn [app read_loop]. unfold ends_loop in Ho.
  destruct (r_interrupted o); [reflexivity|].
  destruct (r_readline o) as [output|m]; [|reflexivity].
  cbn [orb] in Ho. destruct (String.eqb output ""); [|discriminate].
  destruct (r_poll o) as [[code|]|m]; try reflexivity. discriminate.
Qed.

(** C8, as stated, fails twice. With the script in place, a sibling
    file that cannot be written makes [execute] raise, the [open] being
    outside the [try]. And a cancellation need not give the interrupted
    marker: [terminate] sets the flag, kills the process and clears the
    handle; the reader, woken by the end of the stream before it looks
    at the flag again, calls [poll] on the cleared handle, and the result
    is an error text although the flag is set. *)
Lemma execute_raises_and_cancel_races :
  Scenario.one_script "run.sh" <> None
  /\ outcome (execute Scenario.read_only_dir Scenario.one_script "run.sh"
                      new_executor)
     = Raised "[Errno 13] Permission denied: 'run.sh.execute.sh'"
  /\ e_interrupted_wait Scenario.cancelled_under_reader = true
  /\ e_interrupted_return Scenario.cancelled_under_reader = true
  /\ outcome (execute Scenario.cancelled_under_reader Scenario.one_script
                      "run.sh" new_executor)
     = Returned
         "Execution error: 'NoneType' object has no attribute 'poll'".
Proof. split; [discriminate | repeat split; reflexivity]. Qed.

(** C8, amended. [execute] raises to its caller what fails before its
    [try]: reading the script, writing the sibling file, starting the
    monitor thread. Past that point it does not raise. A failing [Popen]
    comes back as the text [Execution error: <message>], and so does
    an exception of [readline], of [poll], of [readlines] or of
    [communicate]. Otherwise the result is the last ten lines of each
    stream joined, the standard output being the non-empty lines read
    before the loop was left, in order; the marker
    [Process interrupted by user] stands in front of it exactly when the
    interrupted flag, which [terminate] sets, is read as set before the
    [return], as it is when the loop was left because of the flag and
    the flag is still set. The call returns as soon as some turn of the
    read loop leaves it, and then holds no process. *)
Theorem execute_captures_failures
    (env : ExecEnv) (fs : FS) (path : string) (st : State) :
  let r := execute env fs path st in
  let failed (m : string) := outcome r = Returned ("Execution error: " +:+ m) in
  (fs path = None -> exists m, outcome r = Raised m)
  /\ (forall content m,
        fs path = Some content -> e_write env = Raise m ->
        outcome r = Raised m)
  /\ (forall content m,
        fs path = Some content -> e_write env = Ok tt ->
        e_stop_flag env = true -> e_monitor env = Raise m ->
        outcome r = Raised m)
  /\ (forall content,
        fs path = Some content -> e_write env = Ok tt ->
        (e_stop_flag env = true -> e_monitor env = Ok tt) ->
        (forall m, outcome r <> Raised m)
        /\ (forall m, e_spawn env = Raise m -> failed m)
        /\ (forall pid pre o,
              e_spawn env = Ok pid -> left_at env pre o ->
              (forall m,
                  r_interrupted o = false -> r_readline o = Raise m ->
                  failed m)
              /\ (forall m,
                    r_interrupted o = false -> r_readline o = Ok "" ->
                    r_poll o = Raise m -> failed m)
              /\ (r_interrupted o = true
                   \/ (r_readline o = Ok ""
                       /\ exists code, r_poll o = Ok (Some code)) ->
                  (forall m, e_stderr env = Raise m -> failed m)
                  /\ (forall lines m,
                        e_stderr env = Ok lines ->
                        e_interrupted_wait env = false ->
                        e_communicate env = Raise m -> failed m)
                  /\ (forall lines,
                        e_stderr env = Ok lines ->
                        (e_interrupted_wait env = true
                         \/ exists code, e_communicate env = Ok code) ->
                        outcome r =
                          Returned
                            ((if e_interrupted_return env
                              then "Process interrupted by user" +:+ NL
                              else "") +:+
                             join_nl (last10 (lines_read pre)) +:+ NL +:+
                             join_nl (last10 (filter keep_stderr lines)))))
              /\ (forall lines,
                    r_interrupted o = true ->
                    e_interrupted_wait env = true ->
                    e_interrupted_return env = true ->
                    e_stderr env = Ok lines ->
                    outcome r =
                      Returned
                        ("Process interrupted by user" +:+ NL +:+
                         join_nl (last10 (lines_read pre)) +:+ NL +:+
                         join_nl (last10 (filter keep_stderr lines)))))
        /\ (existsb ends_loop (e_reads env) = true -> outcome r <> Running)
        /\ process_after r = match outcome r with
                             | Running => match e_spawn env with
                                          | Ok pid => Some pid
                                          | Raise _ => None
                                          end
                             | _ => None
                             end).
Proof.
  intros r failed. subst r failed. unfold execute.
  split; [intros H; rewrite H; eexists; reflexivity|].
  split; [intros content m H1 H2; rewrite H1, H2; reflexivity|].
  split; [intros content m H1 H2 H3 H4; rewrite H1, H2, H3, H4; reflexivity|].
  intros content Hread Hwrite Hmon. rewrite Hread, Hwrite.
  assert (Hm : (if e_stop_flag env then e_monitor env else Ok tt) = Ok tt).
  { destruct (e_stop_flag env); [apply Hmon|]; reflexivity. }
  rewrite Hm.
  assert (Hwait : forall lines,
             e_stderr env = Ok lines ->
             e_interrupted_wait env = true
             \/ (exists code, e_communicate env = Ok code) ->
             forall stdout,
               read_loop (e_reads env) [] = Done stdout ->
               try_body env
               = Done ((if e_interrupted_return env
                        then "Process interrupted by user" +:+ NL else "")
                       +:+ join_nl (last10 stdout) +:+ NL +:+
                       join_nl (last10 (filter keep_stderr lines)))).
  { intros lines He Hw stdout Hl. unfold try_body. rewrite Hl, He.
    assert (Hnone : (if negb (e_interrupted_wait env)
                     then match e_communicate env with
                          | Raise m => Some m
                          | Ok _ => None
                          end
                     else None) = None).
    { destruct Hw as [Hw|[code Hw]]; rewrite Hw; [reflexivity|].
      destruct (negb (e_interrupted_wait env)); reflexivity. }
    rewrite Hnone. destruct (e_interrupted_return env); reflexivity. }
  split; [|split; [|split; [|split]]].
  - intros m. destruct (e_spawn env); [destruct (try_body env)|];
      simpl; discriminate.
  - intros m Hs. rewrite Hs. reflexivity.
  - intros pid pre o Hs Hleft. rewrite Hs.
    pose proof (read_loop_left env pre o Hleft) as Hloop.
    split; [|split; [|split]].
    + intros m Hi Hr. rewrite Hi, Hr in Hloop. unfold try_body.
      rewrite Hloop. reflexivity.
    + intros m Hi Hr Hp. rewrite Hi, Hr, Hp in Hloop. unfold try_body.
      rewrite Hloop. reflexivity.
    + intros Hend.
      assert (Hdone : read_loop (e_reads env) [] = Done (lines_read pre)).
      { destruct Hend as [Hi|[Hr [code Hp]]].
        - rewrite Hi in Hloop. exact Hloop.
        - rewrite Hr, Hp in Hloop. destruct (r_interrupted o); exact Hloop. }
      split; [|split].
      * intros m He. unfold try_body. rewrite Hdone, He. reflexivity.
      * intros lines m He Hw Hc. unfold try_body.
        rewrite Hdone, He, Hw, Hc. reflexivity.
      * intros lines He Hw. rewrite (Hwait lines He Hw _ Hdone).
        reflexivity.
    + intros lines Hi Hw Hret He. rewrite Hi in Hloop.
      rewrite (Hwait lines He (or_introl Hw) _ Hloop), Hret. reflexivity.
  - intros Hends. destruct (e_spawn env) as [pid|m]; [|simpl; discriminate].
    unfold try_body.
    pose proof (read_loop_ends (e_reads env) [] Hends) as Hl.
    destruct (read_loop (e_reads env) []) as [stdout|m|]; [| |congruence].
    + destruct (e_stderr env); [|simpl; discriminate].
      destruct (negb (e_interrupted_wait env));
        [destruct (e_communicate env)|]; simpl;
        try discriminate; destruct (e_interrupted_return env);
        simpl; discriminate.
    + simpl. discriminate.
  - destruct (e_spawn env) as [pid|m]; [|reflexivity].
    destruct (try_body env); reflexivity.
Qed.

Lemma execute_captures_failures_witness :
  outcome (execute Scenario.quiet_run Scenario.one_script "run.sh"
                   new_executor)
  = Returned ("[stdout] start" +:+ NL)
  /\ outcome (execute Scenario.cancelled_between_lines Scenario.one_script
                      "run.sh" new_executor)
     = Returned ("Process interrupted by user" +:+ NL +:+
                 "[stdout] start" +:+ NL)
  /\ outcome (execute Scenario.no_more_threads Scenario.one_script "run.sh"
                      new_executor)
     = Raised "can't start new thread".
Proof.
  split; [|split].
  - pose proof (execute_captures_failures Scenario.quiet_run
                  Scenario.one_script "run.sh" new_executor) as H.
    cbv zeta in H. destruct H as (_ & _ & _ & H).
    destruct (H _ eq_refl eq_refl (fun _ => eq_refl)) as (_ & _ & H3 & _).
    assert (Hleft : left_at Scenario.quiet_run
                      [mkReadObs false (Ok ("start" +:+ NL)) (Ok None)]
                      (mkReadObs false (Ok "") (Ok (Some 0%Z)))).
    { split; [exists []; reflexivity|].
      split; [repeat constructor | reflexivity]. }
    destruct (H3 4242%Z _ _ eq_refl Hleft) as (_ & _ & H5 & _).
    destruct (H5 (or_intror (conj eq_refl (ex_intro _ 0%Z eq_refl))))
      as (_ & _ & H6).
    exact (H6 [] eq_refl (or_intror (ex_intro _ 0%Z eq_refl))).
  - pose proof (execute_captures_failures Scenario.cancelled_between_lines
                  Scenario.one_script "run.sh" new_executor) as H.
    cbv zeta in H. destruct H as (_ & _ & _ & H).
    destruct (H _ eq_refl eq_refl (fun _ => eq_refl)) as (_ & _ & H3 & _).
    assert (Hleft : left_at Scenario.cancelled_between_lines
                      [mkReadObs false (Ok ("start" +:+ NL)) (Ok None)]
                      (mkReadObs true (Ok "") (Ok None))).
    { split; [exists []; reflexivity|].
      split; [repeat constructor | reflexivity]. }
    destruct (H3 4242%Z _ _ eq_refl Hleft) as (_ & _ & _ & H5).
    exact (H5 [] eq_refl eq_refl eq_refl eq_refl).
  - pose proof (execute_captures_failures Scenario.no_more_threads
                  Scenario.one_script "run.sh" new_executor) as H.
    cbv zeta in H. destruct H as (_ & _ & H & _).
    exact (H _ _ eq_refl eq_refl eq_refl eq_refl).
Defined.

(** C10. [execute] never writes the file at [bash_code_path]: every
    path other than [bash_code_path + '.execute.sh'], the original among
    them, holds after the call what it held before; the only file
    written is that sibling, with the prefix commands, the cleaned
    content and the postfix commands; and the only process started is
    [bash -e] on the sibling, which is started whenever the sibling was
    written and the monitor thread, if asked for, could be started. *)
Theorem execute_leaves_script_untouched
    (env : ExecEnv) (fs : FS) (path : string) (st : State) :
  let r := execute env fs path st in
  let sibling := path +:+ ".execute.sh" in
  fs_after r path = fs path
  /\ (forall p, p <> sibling -> fs_after r p = fs p)
  /\ (forall p text, In (WriteFile p text) (effects r) ->
        p = sibling
        /\ fs_after r sibling = Some text
        /\ exists content,
             fs path = Some content
             /\ text = String.concat "" (map (fun c => c +:+ NL) code_prefix)
                       +:+ _clean_script_content content +:+ NL +:+
                       String.concat "" (map (fun c => c +:+ NL) code_postfix))
  /\ (forall argv, In (Popen argv) (effects r) ->
        argv = ["bash"; "-e"; sibling])
  /\ (forall content, fs path = Some content -> e_write env = Ok tt ->
        In (WriteFile sibling (execute_script (_clean_script_content content)))
           (effects r)
        /\ ((e_stop_flag env = true -> e_monitor env = Ok tt) ->
            In (Popen ["bash"; "-e"; sibling]) (effects r))).
Proof.
  intros r sibling.
  assert (Hframe : forall p, p <> sibling -> fs_after r p = fs p).
  { intros p Hp. subst r. unfold execute.
    destruct (fs path) as [content|]; [|reflexivity].
    destruct (e_write env); [|reflexivity].
    assert (Hw : fs_write fs sibling
                   (execute_script (_clean_script_content content)) p = fs p).
    { unfold fs_write. destruct (String.eqb_spec p sibling); congruence. }
    destruct (if e_stop_flag env then e_monitor env else Ok tt);
      [|exact Hw].
    destruct (e_spawn env); [destruct (try_body env)|]; exact Hw. }
  split; [apply Hframe; intros H; symmetry in H;
          exact (sibling_differs path H)|].
  split; [exact Hframe|].
  subst r. unfold execute.
  destruct (fs path) as [content|] eqn:Hfs.
  2:{ simpl. repeat split; try contradiction; discriminate. }
  destruct (e_write env) as [[]|m] eqn:Hw.
  2:{ simpl. repeat split; try contradiction; discriminate. }
  fold sibling.
  set (text := execute_script (_clean_script_content content)).
  assert (Hfs' : fs_write fs sibling text sibling = Some text).
  { unfold fs_write. rewrite String.eqb_refl. reflexivity. }
  destruct (if e_stop_flag env then e_monitor env else Ok tt)
    as [[]|m] eqn:Hmon.
  2:{ cbn [effects fs_after]. split; [|split].
      - intros p t [Hi|[]]. injection Hi as <- <-.
        split; [reflexivity|]. split; [exact Hfs'|].
        exists content. split; reflexivity.
      - intros argv [Hi|[]]. discriminate.
      - intros c Hc _. injection Hc as <-. split; [left; reflexivity|].
        intros H. destruct (e_stop_flag env); [|discriminate].
        rewrite (H eq_refl) in Hmon. discriminate. }
  set (eff := WriteFile sibling text ::
              (if e_stop_flag env then [StartMonitor] else []) ++
              [Popen ["bash"; "-e"; sibling]]).
  assert (Heff : forall e, In e eff ->
                   e = WriteFile sibling text \/ e = StartMonitor
                   \/ e = Popen ["bash"; "-e"; sibling]).
  { intros e [He|He]; [auto|].
    apply in_app_or in He as [He|[He|[]]]; [|auto].
    destruct (e_stop_flag env); [destruct He as [He|[]]; auto|contradiction]. }
  assert (Hin : In (WriteFile sibling text) eff
                /\ In (Popen ["bash"; "-e"; sibling]) eff).
  { split; [left; reflexivity|]. right. apply in_or_app. right. left.
    reflexivity. }
  assert (Hgoal :
    (forall p t, In (WriteFile p t) eff ->
       p = sibling /\ fs_write fs sibling text sibling = Some t
       /\ exists content0,
            Some content = Some content0
            /\ t = String.concat "" (map (fun c => c +:+ NL) code_prefix)
                   +:+ _clean_script_content content0 +:+ NL +:+
                   String.concat "" (map (fun c => c +:+ NL) code_postfix))
    /\ (forall argv, In (Popen argv) eff -> argv = ["bash"; "-e"; sibling])
    /\ (forall content0, Some content = Some content0 -> Ok tt = Ok tt ->
          In (WriteFile sibling
                (execute_script (_clean_script_content content0))) eff
          /\ ((e_stop_flag env = true -> e_monitor env = Ok tt) ->
              In (Popen ["bash"; "-e"; sibling]) eff))).
  { split; [|split].
    - intros p t Hi. apply Heff in Hi as [Hi|[Hi|Hi]]; try discriminate.
      injection Hi as -> ->. split; [reflexivity|]. split; [exact Hfs'|].
      exists content. split; reflexivity.
    - intros argv Hi. apply Heff in Hi as [Hi|[Hi|Hi]]; try discriminate.
      injection Hi as ->. reflexivity.
    - intros c Hc _. injection Hc as <-.
      split; [apply Hin | intros _; apply Hin]. }
  destruct (e_spawn env); [destruct (try_body env)|]; exact Hgoal.
Qed.

Lemma execute_leaves_script_untouched_witness :
  fs_after (execute Scenario.quiet_run Scenario.one_script "run.sh"
                    new_executor) "run.sh"
  = Some ("echo start" +:+ NL +:+ "mamba activate abc_runtime").
Proof.
  exact (proj1 (execute_leaves_script_untouched Scenario.quiet_run
                  Scenario.one_script "run.sh" new_executor)).
Defined.

(** The file that is run carries the directive of the prefix and the
    one kept from the script. *)
Example executed_file_of_one_script :
  fs_after (execute Scenario.quiet_run Scenario.one_script "run.sh"
                    new_executor) "run.sh.execute.sh"
  = Some ("eval " +:+ dquote +:+ "$(mamba shell hook --shell bash)" +:+
          dquote +:+ NL +:+ "mamba activate abc_runtime" +:+ NL +:+
          "echo start" +:+ NL +:+ "mamba activate abc_runtime" +:+ NL).
Proof. reflexivity. Qed.

(** C9. A call of [terminate] made when no process is held, or when the
    held process has already exited, changes no field of the executor
    and does nothing but print that there is no active process: no
    signal, no wait, no exception. *)
Theorem terminate_noop_when_inactive (env : TermEnv) (st : State) :
  current_process st = None \/ t_poll env <> None ->
  terminate env st = (st, [PrintLine "[EXECUTOR] No active process to terminate"])
  /\ existsb is_termination_action (snd (terminate env st)) = false.
Proof.
  intros H.
  assert (E : terminate env st
              = (st, [PrintLine "[EXECUTOR] No active process to terminate"])).
  { unfold terminate. destruct (current_process st) as [pid|];
      [|reflexivity].
    destruct (t_poll env); [reflexivity|].
    destruct H as [H|H]; [discriminate | congruence]. }
  rewrite E. split; reflexivity.
Qed.

Lemma terminate_noop_when_inactive_witness :
  (current_process (Scenario.holding 4242) = None
   \/ t_poll Scenario.exited <> None)
  /\ terminate Scenario.exited (Scenario.holding 4242)
     = (Scenario.holding 4242,
        [PrintLine "[EXECUTOR] No active process to terminate"]).
Proof.
  assert (H : current_process (Scenario.holding 4242) = None
              \/ t_poll Scenario.exited <> None)
    by (right; discriminate).
  split; [exact H|].
  exact (proj1 (terminate_noop_when_inactive Scenario.exited
                  (Scenario.holding 4242) H)).
Defined.

(** Whatever [terminate] did, the process is no longer held afterwards
    unless the call was such a no-op, so a second call is one. *)
Lemma terminate_releases (env : TermEnv) (st : State) :
  t_poll env = None -> current_process (fst (terminate env st)) = None.
Proof.
  intros H. unfold terminate. rewrite H.
  destruct (current_process st) as [pid|] eqn:E; [|exact E].
  destruct (kill_group env pid) as [a1 [e|]].
  - destruct e; [|destruct (kill_process env _)..]; reflexivity.
  - reflexivity.
Qed.

End Execute.

(** ** The rolling buffer *)

Section Window.
Import Py.
Context {A : Type}.
Implicit Types l a b : list A.

Lemma lastn_all n l : List.length l <= n -> lastn n l = l.
Proof.
  intros H. unfold lastn.
  replace (List.length l - n) with 0 by lia. reflexivity.
Qed.

Lemma length_lastn n l : List.length (lastn n l) = Nat.min n (List.length l).
Proof. unfold lastn. rewrite length_skipn. lia. Qed.

Lemma lastn_app_r m a b :
  lastn (m + List.length b) (a ++ b) = lastn m a ++ b.
Proof.
  unfold lastn. rewrite length_app.
  replace (List.length a + List.length b - (m + List.length b))
    with (List.length a - m) by lia.
  rewrite skipn_app.
  replace (List.length a - m - List.length a) with 0 by lia.
  reflexivity.
Qed.

Lemma lastn_lastn n m l : n <= m -> lastn n (lastn m l) = lastn n l.
Proof.
  intros H. unfold lastn. rewrite length_skipn, skipn_skipn.
  f_equal. lia.
Qed.

Lemma lastn_snoc n l x : 0 < n -> lastn n (lastn n l ++ [x]) = lastn n (l ++ [x]).
Proof.
  intros H. replace n with ((n - 1) + List.length [x]) at 1 3 by (simpl; lia).
  rewrite !lastn_app_r, lastn_lastn by lia. reflexivity.
Qed.

(** A window over a longer buffer sees what a window over the whole
    stream sees. *)
Lemma lastn_lastn_app n m l b :
  n <= m -> lastn n (lastn m l ++ b) = lastn n (l ++ b).
Proof.
  intros H. rewrite <- (lastn_app_r m l b).
  apply lastn_lastn. lia.
Qed.

Lemma lastn_firstn_length n l :
  lastn n l = lastn n (firstn (List.length l) l).
Proof. rewrite firstn_all. reflexivity. Qed.

Lemma lastn_prefix n a b :
  lastn n a = lastn n (firstn (List.length a) (a ++ b)).
Proof.
  rewrite firstn_app, firstn_all, Nat.sub_diag. simpl.
  rewrite app_nil_r. reflexivity.
Qed.

(** Of two windows over prefixes of one stream, the later starts and
    ends no earlier: what the first still shares with the second is a
    final segment of the first and an initial segment of the second. *)
Lemma windows_overlap d n1 n2 (stream : list A) :
  n1 <= n2 -> n2 <= List.length stream ->
  skipn ((n2 - d) - (n1 - d)) (lastn d (firstn n1 stream))
  = firstn (n1 - (n2 - d)) (lastn d (firstn n2 stream)).
Proof.
  intros H12 H2. unfold lastn.
  rewrite !length_firstn, !Nat.min_l by lia.
  rewrite skipn_skipn, firstn_skipn_comm, firstn_firstn.
  replace (n2 - d - (n1 - d) + (n1 - d)) with (n2 - d) by lia.
  destruct (Nat.le_gt_cases (n2 - d) n1) as [Hle|Hgt].
  - replace (Nat.min (n2 - d + (n1 - (n2 - d))) n2) with n1 by lia.
    reflexivity.
  - replace (Nat.min (n2 - d + (n1 - (n2 - d))) n2) with (n2 - d) by lia.
    rewrite !skipn_all2; [reflexivity | |]; rewrite length_firstn; lia.
Qed.

End Window.

(** ** The streaming loop *)

Section Stream.
Import Py LogHandler.

Lemma cap_history (buf : list string) :
  (if MAX_HISTORY_LINES <? List.length buf
   then lastn MAX_HISTORY_LINES buf else buf)
  = lastn MAX_HISTORY_LINES buf.
Proof.
  destruct (Nat.ltb_spec MAX_HISTORY_LINES (List.length buf)) as [H|H];
    [reflexivity|].
  symmetry. apply lastn_all. exact H.
Qed.

(** The drain keeps the buffer equal to the last [MAX_HISTORY_LINES]
    lines of everything appended so far, and counts every record. *)
Lemma drain_spec (msgs all buf : list string) (n : nat) :
  buf = lastn MAX_HISTORY_LINES all ->
  drain msgs buf n
  = (lastn MAX_HISTORY_LINES (all ++ msgs), n + List.length msgs).
Proof.
  revert all buf n.
  induction msgs as [|m msgs IH]; intros all buf n Hbuf.
  - cbn [drain]. rewrite app_nil_r, Nat.add_0_r. congruence.
  - cbn [drain]. rewrite cap_history.
    rewrite (IH (all ++ [m])).
    + rewrite <- app_assoc. cbn [List.length app]. f_equal. lia.
    + subst buf. apply lastn_snoc. unfold MAX_HISTORY_LINES. lia.
Qed.

(** The snapshots of one iteration that reaches its body. *)
Lemma iteration_shape (o : Obs) (st : Loop) (all : list string) :
  log_buffer st = lastn MAX_HISTORY_LINES all ->
  exits_top o = false ->
  let buf := lastn MAX_HISTORY_LINES (all ++ drained o) in
  let count := line_count st + List.length (drained o) in
  exists evs st',
    iteration o st = (evs, st', if o_stop o then Break else Continue)
    /\ log_buffer st' = buf ++ (if o_stop o then [stop_notice] else [])
    /\ line_count st' = count
    /\ snapshots evs
       = (if should_emit o st
          then [Progress (truncated_count buf) (lastn MAX_DISPLAY_LINES buf)
                         count
                         (_format_elapsed_time (o_start o) (o_clock o))
                         (o_alive_yield o)]
          else [])
         ++ (if o_stop o
             then [StopNotice (lastn MAX_DISPLAY_LINES (buf ++ [stop_notice]))]
             else [])
    /\ emits_progress evs = should_emit o st
    /\ last_yield_time st'
       = (if should_emit o st then o_now o else last_yield_time st)
    /\ last_heartbeat_time st'
       = (if heartbeat_due o st then o_now o else last_heartbeat_time st).
Proof.
  intros Hbuf Htop buf count.
  unfold iteration, should_emit, heartbeat_due, debounce_over.
  rewrite Htop, (drain_spec _ all _ _ Hbuf). cbv beta iota zeta.
  fold buf. fold count.
  destruct (o_stop o);
    destruct (SAVE_INTERVAL <=? o_now o - last_save_time st)%float;
    destruct ((negb (is_nil (drained o)) ||
               (HEARTBEAT_INTERVAL
                <=? o_now o - last_heartbeat_time st)%float) &&
              (MIN_YIELD_INTERVAL
               <=? o_now o - last_yield_time st)%float);
    eexists; eexists; (split; [reflexivity|]);
    unfold emits_progress;
    cbn [log_buffer line_count last_yield_time last_heartbeat_time
         snapshots app existsb is_progress orb];
    rewrite ?app_nil_r; repeat split; reflexivity.
Qed.

Lemma iteration_top (o : Obs) (st : Loop) :
  exits_top o = true -> iteration o st = ([], st, Break).
Proof. intros H. unfold iteration. rewrite H. reflexivity. Qed.

Lemma snapshots_app (a b : list Event) :
  snapshots (a ++ b) = snapshots a ++ snapshots b.
Proof.
  induction a as [|[s|d|r] a IH]; simpl; rewrite ?IH; reflexivity.
Qed.

Lemma fed_consumed (os : list Obs) :
  fed os = consumed os
           ++ (if stopped_by_flag os then [stop_notice] else []).
Proof.
  induction os as [|o os IH]; simpl; [reflexivity|].
  destruct (exits_top o); [reflexivity|].
  destruct (o_stop o).
  - rewrite app_nil_r. reflexivity.
  - rewrite IH, app_assoc. reflexivity.
Qed.

(** The state in which the main loop is left. *)
Lemma main_loop_state (os : list Obs) :
  forall (st : Loop) (all : list string) evs st' c,
    log_buffer st = lastn MAX_HISTORY_LINES all ->
    main_loop os st = (evs, st', c) ->
    log_buffer st'
    = lastn MAX_HISTORY_LINES (all ++ consumed os)
      ++ (if stopped_by_flag os then [stop_notice] else [])
    /\ line_count st' = line_count st + List.length (consumed os)
    /\ (c = Break <-> leaves os = true).
Proof.
  induction os as [|o os IH]; intros st all evs st' c Hbuf Hrun.
  - simpl in Hrun. injection Hrun as <- <- <-. simpl.
    rewrite !app_nil_r, Nat.add_0_r. repeat split; try assumption;
      discriminate.
  - cbn [main_loop] in Hrun. cbn [consumed stopped_by_flag leaves].
    destruct (exits_top o) eqn:Htop.
    + rewrite (iteration_top _ _ Htop) in Hrun.
      injection Hrun as <- <- <-. simpl.
      rewrite !app_nil_r, Nat.add_0_r. repeat split; auto.
    + destruct (iteration_shape o st all Hbuf Htop)
        as (e1 & st1 & Hit & Hb1 & Hc1 & _).
      rewrite Hit in Hrun. destruct (o_stop o).
      * injection Hrun as <- <- <-. rewrite !app_nil_r.
        repeat split; auto.
      * rewrite app_nil_r in Hb1.
        destruct (main_loop os st1) as [[e2 st2] c2] eqn:Hrest.
        injection Hrun as <- <- <-.
        destruct (IH st1 (all ++ drained o) e2 st2 c2 Hb1 Hrest)
          as (Hb2 & Hc2 & Hl2).
        rewrite <- app_assoc in Hb2. rewrite length_app.
        repeat split; [exact Hb2 | lia | apply Hl2 | apply Hl2].
Qed.

Lemma ordered_from_weaken stream k k' ss :
  k' <= k -> ordered_from stream k ss -> ordered_from stream k' ss.
Proof.
  intros Hk H. inversion H as [|? n s ss' Hkn Hn Hs Hss]; subst;
    [constructor|].
  apply ordered_cons with (n := n); [lia | assumption..].
Qed.

(** Every snapshot of the main loop is a window over the stream of
    appended lines, and the windows only move forward. *)
Lemma main_loop_ordered (os : list Obs) :
  forall (st : Loop) (all rest : list string) evs st' c,
    log_buffer st = lastn MAX_HISTORY_LINES all ->
    main_loop os st = (evs, st', c) ->
    ordered_from (all ++ fed os ++ rest) (List.length all) (snapshots evs).
Proof.
  induction os as [|o os IH]; intros st all rest evs st' c Hbuf Hrun.
  - simpl in Hrun. injection Hrun as <- <- <-. constructor.
  - cbn [main_loop] in Hrun. cbn [fed].
    destruct (exits_top o) eqn:Htop.
    + rewrite (iteration_top _ _ Htop) in Hrun.
      injection Hrun as <- <- <-. constructor.
    + destruct (iteration_shape o st all Hbuf Htop)
        as (e1 & st1 & Hit & Hb1 & _ & Hs1 & _).
      rewrite Hit in Hrun.
      assert (Hwin : forall tail,
                lastn MAX_DISPLAY_LINES
                      (lastn MAX_HISTORY_LINES (all ++ drained o))
                = lastn MAX_DISPLAY_LINES
                    (firstn (List.length (all ++ drained o))
                            (all ++ (drained o ++ tail) ++ rest))).
      { intros tail. rewrite lastn_lastn
          by (unfold MAX_DISPLAY_LINES, MAX_HISTORY_LINES; lia).
        rewrite <- !app_assoc, (app_assoc all).
        apply lastn_prefix. }
      assert (Hprog : forall tail t n e b ss,
                ordered_from (all ++ (drained o ++ tail) ++ rest)
                             (List.length (all ++ drained o)) ss ->
                ordered_from (all ++ (drained o ++ tail) ++ rest)
                             (List.length all)
                  ((if should_emit o st
                    then [Progress t
                            (lastn MAX_DISPLAY_LINES
                               (lastn MAX_HISTORY_LINES (all ++ drained o)))
                            n e b]
                    else []) ++ ss)).
      { intros tail t n e b ss Hss.
        destruct (should_emit o st).
        - apply ordered_cons with (n := List.length (all ++ drained o)).
          + rewrite length_app. lia.
          + rewrite !length_app. lia.
          + apply Hwin.
          + exact Hss.
        - eapply ordered_from_weaken; [|exact Hss].
          rewrite length_app. lia. }
      destruct (o_stop o).
      * injection Hrun as <- <- <-. rewrite Hs1. apply Hprog.
        apply ordered_cons
          with (n := List.length ((all ++ drained o) ++ [stop_notice])).
        -- rewrite !length_app. lia.
        -- rewrite !length_app. simpl. lia.
        -- cbn [snapshot_lines].
           rewrite lastn_lastn_app
             by (unfold MAX_DISPLAY_LINES, MAX_HISTORY_LINES; lia).
           replace (all ++ (drained o ++ [stop_notice]) ++ rest)
             with (((all ++ drained o) ++ [stop_notice]) ++ rest)
             by (rewrite <- !app_assoc; reflexivity).
           apply lastn_prefix.
        -- constructor.
      * rewrite app_nil_r in Hb1, Hs1.
        destruct (main_loop os st1) as [[e2 st2] c2] eqn:Hrest.
        injection Hrun as <- <- <-.
        rewrite snapshots_app, Hs1. apply Hprog.
        specialize (IH st1 (all ++ drained o) rest e2 st2 c2 Hb1 Hrest).
        rewrite <- !app_assoc in *. exact IH.
Qed.

Lemma ordered_from_snoc stream k ss s :
  ordered_from stream k ss ->
  k <= List.length stream ->
  snapshot_lines s = lastn MAX_DISPLAY_LINES stream ->
  ordered_from stream k (ss ++ [s]).
Proof.
  intros H. induction H as [k|k n s' ss Hkn Hn Hs Hss IH]; intros Hk Hl.
  - apply ordered_cons with (n := List.length stream);
      [exact Hk | lia | rewrite firstn_all; exact Hl | constructor].
  - simpl. apply ordered_cons with (n := n); auto.
Qed.

Lemma ordered_from_nth stream k ss :
  ordered_from stream k ss ->
  forall j s, nth_error ss j = Some s ->
    exists n, k <= n /\ n <= List.length stream
              /\ snapshot_lines s
                 = lastn MAX_DISPLAY_LINES (firstn n stream).
Proof.
  intros H. induction H as [k|k n s' ss Hkn Hn Hs Hss IH]; intros j s Hj.
  - destruct j; discriminate.
  - destruct j as [|j]; simpl in Hj.
    + injection Hj as <-. exists n. auto.
    + destruct (IH j s Hj) as (m & Hm & Hm' & Hl).
      exists m. repeat split; auto. lia.
Qed.

Lemma ordered_from_pair stream k ss :
  ordered_from stream k ss ->
  forall i j s1 s2, i < j ->
    nth_error ss i = Some s1 -> nth_error ss j = Some s2 ->
    exists n1 n2,
      n1 <= n2 /\ n2 <= List.length stream
      /\ snapshot_lines s1 = lastn MAX_DISPLAY_LINES (firstn n1 stream)
      /\ snapshot_lines s2 = lastn MAX_DISPLAY_LINES (firstn n2 stream).
Proof.
  intros H. induction H as [k|k n s' ss Hkn Hn Hs Hss IH];
    intros i j s1 s2 Hij H1 H2.
  - destruct i; discriminate.
  - destruct j as [|j]; [lia|]. simpl in H2.
    destruct i as [|i]; simpl in H1.
    + injection H1 as <-.
      destruct (ordered_from_nth _ _ _ Hss j s2 H2) as (m & Hm & Hm' & Hl).
      exists n, m. auto.
    + apply (IH i j s1 s2); [lia | assumption..].
Qed.

(** How an invocation that ends decomposes. *)
Lemma stream_inv (r : Run) evs st :
  _stream_logs_with_heartbeat r = Some (evs, st) ->
  exists evs0 st0,
    main_loop (r_iters r) (initial_loop r) = (evs0, st0, Break)
    /\ evs = evs0 ++ fst (epilogue (r_final r) st0)
    /\ st = snd (epilogue (r_final r) st0).
Proof.
  unfold _stream_logs_with_heartbeat. intros H.
  destruct (main_loop (r_iters r) (initial_loop r)) as [[evs0 st0] c].
  destruct c; [discriminate|].
  destruct (epilogue (r_final r) st0) as [e s] eqn:He.
  injection H as <- <-. exists evs0, st0. rewrite ?He.
  repeat split; reflexivity.
Qed.

(** C3. In one streaming sequence every snapshot shows the last
    [MAX_DISPLAY_LINES] lines of a prefix of one stream: the published
    records in publish order with, if the stop flag was seen, the stop
    notice at the place where it was seen. For snapshots S1 before S2
    the prefix of S2 is at least as long as that of S1. Hence no record
    is shown out of publish order or twice, records leave the display
    at the oldest end only, and the records of S1 that S2 still retains
    are a final segment of S1 and the initial segment of S2, in the
    same order. *)
Theorem snapshots_keep_publish_order (r : Run) evs st :
  _stream_logs_with_heartbeat r = Some (evs, st) ->
  shown_stream r
    = consumed (r_iters r)
      ++ (if stopped_by_flag (r_iters r) then [stop_notice] else [])
      ++ f_queue (r_final r)
  /\ published r = consumed (r_iters r) ++ f_queue (r_final r)
  /\ forall i j S1 S2,
       i < j ->
       nth_error (snapshots evs) i = Some S1 ->
       nth_error (snapshots evs) j = Some S2 ->
       exists n1 n2,
         n1 <= n2 /\ n2 <= List.length (shown_stream r)
         /\ snapshot_lines S1
            = lastn MAX_DISPLAY_LINES (firstn n1 (shown_stream r))
         /\ snapshot_lines S2
            = lastn MAX_DISPLAY_LINES (firstn n2 (shown_stream r))
         /\ skipn ((n2 - MAX_DISPLAY_LINES) - (n1 - MAX_DISPLAY_LINES))
                  (snapshot_lines S1)
            = firstn (n1 - (n2 - MAX_DISPLAY_LINES)) (snapshot_lines S2).
Proof.
  intros Hrun.
  assert (Hshown : shown_stream r
                   = consumed (r_iters r)
                     ++ (if stopped_by_flag (r_iters r)
                         then [stop_notice] else [])
                     ++ f_queue (r_final r)).
  { unfold shown_stream. rewrite fed_consumed, <- app_assoc. reflexivity. }
  split; [exact Hshown|]. split; [reflexivity|].
  destruct (stream_inv r evs st Hrun) as (evs0 & st0 & Hloop & -> & _).
  assert (Hbuf0 : log_buffer (initial_loop r) = lastn MAX_HISTORY_LINES [])
    by reflexivity.
  pose proof (main_loop_ordered _ _ [] (f_queue (r_final r)) _ _ _
                Hbuf0 Hloop) as Hord.
  destruct (main_loop_state _ _ [] _ _ _ Hbuf0 Hloop) as (Hb & _ & _).
  cbn [app List.length] in Hord, Hb. fold (shown_stream r) in Hord.
  assert (Hall : ordered_from (shown_stream r) 0
                   (snapshots (evs0 ++ fst (epilogue (r_final r) st0)))).
  { rewrite snapshots_app. cbn [epilogue fst snapshots].
    apply ordered_from_snoc; [exact Hord | lia |].
    cbn [snapshot_lines]. rewrite Hb, Hshown, <- app_assoc.
    apply lastn_lastn_app.
    unfold MAX_DISPLAY_LINES, MAX_HISTORY_LINES. lia. }
  intros i j S1 S2 Hij H1 H2.
  destruct (ordered_from_pair _ _ _ Hall i j S1 S2 Hij H1 H2)
    as (n1 & n2 & H12 & Hn2 & Hl1 & Hl2).
  exists n1, n2. repeat split; auto.
  rewrite Hl1, Hl2. apply windows_overlap; assumption.
Qed.

Lemma snapshots_keep_publish_order_witness :
  exists evs st,
    _stream_logs_with_heartbeat Scenario.stopped_run = Some (evs, st)
    /\ shown_stream Scenario.stopped_run = ["working"; stop_notice].
Proof.
  assert (E : exists evs st,
            _stream_logs_with_heartbeat Scenario.stopped_run
            = Some (evs, st))
    by (eexists; eexists; vm_compute; reflexivity).
  destruct E as (evs & st & E). exists evs, st. split; [exact E|].
  exact (proj1 (snapshots_keep_publish_order Scenario.stopped_run evs st E)).
Defined.

(** C2, as stated, fails: with 505 records published the buffer ends
    with the newest 500, but every snapshot shows 100 lines and its
    banner reports 400 hidden lines, not 5. *)
Lemma overflow_banner_reports_400 :
  List.length (published Scenario.overflow_run) = MAX_HISTORY_LINES + 5
  /\ option_map
       (fun p => (List.length (log_buffer (snd p)),
                  map snapshot_banner (snapshots (fst p)),
                  map (fun s => String.prefix
                                  "[...400 earlier lines truncated"
                                  (render s))
                      (snapshots (fst p))))
       (_stream_logs_with_heartbeat Scenario.overflow_run)
     = Some (500, [Some 400; Some 400], [true; true]).
Proof. split; vm_compute; reflexivity. Qed.

(** C2, amended. When exactly [MAX_HISTORY_LINES + 5] records are
    published, all of them taken by the main loop and the stop flag not
    seen, the rolling buffer ends with exactly [MAX_HISTORY_LINES]
    records, the oldest 5 gone, and the final snapshot shows the newest
    [MAX_DISPLAY_LINES] records, counts all the records and carries a
    banner that reports [MAX_HISTORY_LINES - MAX_DISPLAY_LINES] = 400
    hidden lines. *)
Theorem overflow_keeps_newest_history (r : Run) evs st :
  _stream_logs_with_heartbeat r = Some (evs, st) ->
  stopped_by_flag (r_iters r) = false ->
  f_queue (r_final r) = [] ->
  List.length (published r) = MAX_HISTORY_LINES + 5 ->
  log_buffer st = skipn 5 (published r)
  /\ List.length (log_buffer st) = MAX_HISTORY_LINES
  /\ exists evs0 d,
       evs = evs0
             ++ [SaveState d; SetTaskRunning false;
                 Yield (Final (Some (MAX_HISTORY_LINES - MAX_DISPLAY_LINES))
                              (lastn MAX_DISPLAY_LINES (published r))
                              (f_stop (r_final r))
                              (MAX_HISTORY_LINES + 5))].
Proof.
  intros Hrun Hstop Hq Hlen.
  destruct (stream_inv r evs st Hrun) as (evs0 & st0 & Hloop & -> & ->).
  assert (Hbuf0 : log_buffer (initial_loop r) = lastn MAX_HISTORY_LINES [])
    by reflexivity.
  destruct (main_loop_state _ _ [] _ _ _ Hbuf0 Hloop) as (Hb & Hc & _).
  unfold published in *. rewrite Hq, app_nil_r in *.
  rewrite Hstop, app_nil_r in Hb. cbn [app] in Hb.
  cbn [initial_loop line_count] in Hc.
  assert (Hskip : log_buffer st0 = skipn 5 (consumed (r_iters r))).
  { rewrite Hb. unfold lastn. rewrite Hlen. reflexivity. }
  assert (Hl : List.length (log_buffer st0) = MAX_HISTORY_LINES).
  { rewrite Hskip, length_skipn, Hlen. lia. }
  unfold epilogue. rewrite Hq, app_nil_r. cbn [fst snd log_buffer].
  split; [exact Hskip|]. split; [exact Hl|].
  eexists. eexists. f_equal. f_equal. f_equal. f_equal.
  unfold truncated_count. rewrite Hl, Hc, Hlen. cbn [List.length].
  rewrite Nat.add_0_r.
  replace (MAX_DISPLAY_LINES <? MAX_HISTORY_LINES) with true by reflexivity.
  rewrite Hb, lastn_lastn
    by (unfold MAX_DISPLAY_LINES, MAX_HISTORY_LINES; lia).
  reflexivity.
Qed.

Lemma overflow_keeps_newest_history_witness :
  exists evs st,
    _stream_logs_with_heartbeat Scenario.overflow_run = Some (evs, st)
    /\ stopped_by_flag (r_iters Scenario.overflow_run) = false
    /\ f_queue (r_final Scenario.overflow_run) = []
    /\ List.length (published Scenario.overflow_run) = MAX_HISTORY_LINES + 5
    /\ log_buffer st = skipn 5 (published Scenario.overflow_run).
Proof.
  assert (E : exists evs st,
            _stream_logs_with_heartbeat Scenario.overflow_run
            = Some (evs, st))
    by (eexists; eexists; vm_compute; reflexivity).
  destruct E as (evs & st & E). exists evs, st.
  assert (H1 : stopped_by_flag (r_iters Scenario.overflow_run) = false)
    by reflexivity.
  assert (H2 : f_queue (r_final Scenario.overflow_run) = [])
    by reflexivity.
  assert (H3 : List.length (published Scenario.overflow_run)
               = MAX_HISTORY_LINES + 5)
    by (vm_compute; reflexivity).
  repeat (split; [assumption|]).
  exact (proj1 (overflow_keeps_newest_history Scenario.overflow_run evs st
                  E H1 H2 H3)).
Defined.

(** *** Termination of the sequence *)

Lemma exits_top_iff (o : Obs) :
  exits_top o = true
  <-> o_alive o = false /\ o_queue o = [] /\ o_late o = [].
Proof.
  unfold exits_top.
  destruct (o_alive o), (o_queue o), (o_late o); simpl;
    intuition discriminate.
Qed.

Lemma leaves_iff (os : list Obs) :
  leaves os = true
  <-> exists o, In o os /\ (exits_top o = true \/ o_stop o = true).
Proof.
  induction os as [|o os IH]; simpl.
  - split; [discriminate | intros (o & [] & _)].
  - rewrite !orb_true_iff, IH. split.
    + intros [[H|H]|(o' & Hin & H)]; eauto.
    + intros (o' & [<-|Hin] & H); [tauto | eauto].
Qed.

Lemma iteration_no_final (o : Obs) (st : Loop) :
  existsb is_final (snapshots (fst (fst (iteration o st)))) = false.
Proof.
  unfold iteration. destruct (exits_top o); [reflexivity|].
  destruct (drain (drained o) (log_buffer st) (line_count st))
    as [buf count].
  destruct (o_stop o);
    destruct (SAVE_INTERVAL <=? o_now o - last_save_time st)%float;
    destruct ((negb (is_nil (drained o)) ||
               (HEARTBEAT_INTERVAL
                <=? o_now o - last_heartbeat_time st)%float) &&
              (MIN_YIELD_INTERVAL
               <=? o_now o - last_yield_time st)%float);
    reflexivity.
Qed.

Lemma main_loop_no_final (os : list Obs) :
  forall st, existsb is_final (snapshots (fst (fst (main_loop os st)))) = false.
Proof.
  induction os as [|o os IH]; intros st; [reflexivity|].
  cbn [main_loop]. pose proof (iteration_no_final o st) as Hi.
  destruct (iteration o st) as [[e1 st1] c1]. cbn [fst] in Hi.
  destruct c1; [|exact Hi].
  specialize (IH st1). destruct (main_loop os st1) as [[e2 st2] c2].
  cbn [fst] in *. rewrite snapshots_app, existsb_app, Hi, IH. reflexivity.
Qed.

(** C5, as stated, fails: the sequence also ends when the stop flag is
    seen, here in the first iteration, with the worker alive and a
    record in the queue. *)
Lemma stream_ends_on_stop_with_worker_alive :
  _stream_logs_with_heartbeat Scenario.stopped_run <> None
  /\ Forall (fun o => o_alive o = true /\ o_queue o <> [])
            (r_iters Scenario.stopped_run).
Proof.
  split; [discriminate|].
  repeat constructor; discriminate.
Qed.

(** C5, amended. The sequence of one invocation ends exactly when some
    iteration finds the worker not alive and the queue empty at both of
    its tests, or finds the stop flag set at its bottom. When it ends,
    its last three effects are the final checkpoint with [running]
    false, [task_running = False] and the one final snapshot, whose
    text closes with the cancellation banner if the stop flag is then
    set and with the completion banner otherwise. *)
Theorem stream_ends_on_idle_or_stop (r : Run) :
  (_stream_logs_with_heartbeat r <> None
   <-> exists o, In o (r_iters r)
                 /\ ((o_alive o = false /\ o_queue o = [] /\ o_late o = [])
                     \/ o_stop o = true))
  /\ forall evs st,
       _stream_logs_with_heartbeat r = Some (evs, st) ->
       exists evs0 d t lines,
         evs = evs0 ++ [SaveState d; SetTaskRunning false;
                        Yield (Final t lines (f_stop (r_final r))
                                     (line_count st))]
         /\ dict_get "running" d = Some (JBool false)
         /\ dict_get "line_count" d = Some (JInt (line_count st))
         /\ existsb is_final (snapshots evs0) = false
         /\ exists body,
              render (Final t lines (f_stop (r_final r)) (line_count st))
              = body +:+ closing_banner (f_stop (r_final r)) (line_count st).
Proof.
  split.
  - assert (Hl : _stream_logs_with_heartbeat r <> None
                 <-> leaves (r_iters r) = true).
    { unfold _stream_logs_with_heartbeat.
      destruct (main_loop (r_iters r) (initial_loop r))
        as [[evs0 st0] c] eqn:Hloop.
      destruct (main_loop_state _ _ [] _ _ _ (eq_refl : log_buffer
                  (initial_loop r) = lastn MAX_HISTORY_LINES []) Hloop)
        as (_ & _ & Hc).
      destruct c.
      - split; [congruence|]. intros H. apply Hc in H. discriminate.
      - destruct (epilogue (r_final r) st0).
        split; [intros _; apply Hc; reflexivity | discriminate]. }
    rewrite Hl, leaves_iff. split; intros (o & Hin & H); exists o;
      (split; [exact Hin|]); rewrite exits_top_iff in *; exact H.
  - intros evs st Hrun.
    destruct (stream_inv r evs st Hrun) as (evs0 & st0 & Hloop & -> & ->).
    pose proof (main_loop_no_final (r_iters r) (initial_loop r)) as Hnf.
    rewrite Hloop in Hnf. cbn [fst] in Hnf.
    unfold epilogue. cbn [fst snd line_count].
    eexists. eexists. eexists. eexists.
    split; [reflexivity|]. split; [reflexivity|]. split; [reflexivity|].
    split; [exact Hnf|].
    unfold render, closing_banner.
    destruct (f_stop (r_final r)); eexists; reflexivity.
Qed.

Lemma stream_ends_on_idle_or_stop_witness :
  exists evs st,
    _stream_logs_with_heartbeat Scenario.overflow_run = Some (evs, st)
    /\ exists evs0 d t lines,
         evs = evs0 ++ [SaveState d; SetTaskRunning false;
                        Yield (Final t lines false (line_count st))]
         /\ dict_get "running" d = Some (JBool false).
Proof.
  assert (E : exists evs st,
            _stream_logs_with_heartbeat Scenario.overflow_run
            = Some (evs, st))
    by (eexists; eexists; vm_compute; reflexivity).
  destruct E as (evs & st & E). exists evs, st. split; [exact E|].
  destruct (proj2 (stream_ends_on_idle_or_stop Scenario.overflow_run)
              evs st E) as (evs0 & d & t & lines & H1 & H2 & _).
  exists evs0, d, t, lines. split; assumption.
Defined.

(** *** Emission policy *)


Lemma leaves_stopped (os : list Obs) :
  leaves os = false -> stopped_by_flag os = false.
Proof.
  induction os as [|o os IH]; simpl; [reflexivity|].
  destruct (exits_top o); [reflexivity|].
  destruct (o_stop o); simpl; [discriminate | exact IH].
Qed.

(** The buffer of a loop that is still going. *)
Lemma main_loop_continue (os : list Obs) (st : Loop) (all : list string)
      evs st' :
  log_buffer st = lastn MAX_HISTORY_LINES all ->
  main_loop os st = (evs, st', Continue) ->
  log_buffer st' = lastn MAX_HISTORY_LINES (all ++ consumed os).
Proof.
  intros Hbuf Hrun.
  destruct (main_loop_state _ _ all _ _ _ Hbuf Hrun) as (Hb & _ & Hc).
  rewrite leaves_stopped, app_nil_r in Hb; [exact Hb|].
  destruct (leaves os); [|reflexivity].
  destruct Hc as [_ Hc]. specialize (Hc eq_refl). discriminate.
Qed.





End Stream.

(** ** Starting and stopping a task *)

Section Coordinator.
Import LogHandler Gui.




(** An API key that holds nothing but white space, the no-break space
    included, is no key. *)
Example start_without_api_key :
  fst (unified_analysis_executor Scenario.first_start
         (mkRequest Scenario.full_config (Some (" " +:+ Scenario.nbsp))
                    "gpt" true "快速模式") initial_globals)
  = Rejected msg_no_api_key.
Proof. vm_compute. reflexivity. Qed.

Lemma step_keeps_stop_flag (op : Op) (g : Globals) :
  stop_flag g = true ->
  match op with
  | Start obs req => accepted obs req g
  | WorkerExit => true
  | _ => false
  end = false ->
  stop_flag (step op g) = true.
Proof.
  intros Hset Hq. destruct op as [obs req| | | | |stamp m| | |];
    cbn [step]; try discriminate; try exact Hset; try reflexivity.
  - unfold accepted in Hq. unfold unified_analysis_executor in *.
    destruct (missing_keys (config req)); [|exact Hset].
    destruct (api_key_blank (api_key req)); [exact Hset|].
    destruct (is_task_running g); [exact Hset | discriminate].
  - unfold stop_analysis. destruct (negb (is_task_running g));
      [exact Hset | reflexivity].
  - unfold stop_if_running. destruct (is_task_running g);
      [reflexivity | exact Hset].
  - unfold stop_if_running. destruct (is_task_running g);
      [reflexivity | exact Hset].
Qed.

(** C1, as stated, fails: the code keeps no generation counter, and the
    worker thread clears the stop flag in its [finally], within the
    task for which it was set and with no new task created. *)
Lemma stop_flag_cleared_by_worker_exit :
  let start := Start Scenario.first_start Scenario.good_request in
  stop_flag (run_ops [start; StopAnalysis] initial_globals) = true
  /\ stop_flag (run_ops [start; StopAnalysis; WorkerExit] initial_globals)
     = false
  /\ generation [start; StopAnalysis] initial_globals = 1
  /\ generation [start; StopAnalysis; WorkerExit] initial_globals = 1.
Proof. repeat split; reflexivity. Qed.

(** C1, amended. The cancellation signal is the one boolean
    [stop_flag]; there is no generation counter. Every accepted start
    leaves the flag unset in the call that creates the task; the worker
    thread unsets it again when it ends ([reset_task_state]); and once
    set, the flag stays set under every sequence of operations in which
    no task is created and no worker thread ends. *)
Theorem stop_flag_lifetime (g : Globals) :
  (forall obs req,
      accepted obs req g = true ->
      stop_flag (step (Start obs req) g) = false
      /\ task_running (step (Start obs req) g) = true)
  /\ stop_flag (step WorkerExit g) = false
  /\ (forall ops,
        stop_flag g = true -> undisturbed ops g = true ->
        stop_flag (run_ops ops g) = true /\ generation ops g = 0).
Proof.
  split; [|split; [reflexivity|]].
  - intros obs req. unfold accepted, step, unified_analysis_executor.
    destruct (missing_keys (config req)); [|discriminate].
    destruct (api_key_blank (api_key req)); [discriminate|].
    destruct (is_task_running g); [discriminate|].
    intros _. split; reflexivity.
  - intros ops. revert g.
    induction ops as [|op ops IH]; intros g Hset Hq; [split; trivial|].
    cbn [undisturbed] in Hq. apply andb_prop in Hq as [Hop Hq].
    apply negb_true_iff in Hop.
    pose proof (step_keeps_stop_flag op g Hset Hop) as Hstep.
    destruct (IH (step op g) Hstep Hq) as [Hf Hg].
    cbn [run_ops generation]. split; [exact Hf|].
    rewrite Hg. destruct op; try reflexivity.
    cbn in Hop. rewrite Hop. reflexivity.
Qed.

Lemma stop_flag_lifetime_witness :
  let ops := [Publish "12:00:05" "step 1"; StopAnalysis; Take; StreamEnd;
              Start Scenario.second_start Scenario.no_goal_request] in
  let g := step StopAnalysis Scenario.running_globals in
  stop_flag g = true /\ undisturbed ops g = true
  /\ stop_flag (run_ops ops g) = true.
Proof.
  intros ops g.
  assert (H1 : stop_flag g = true) by reflexivity.
  assert (H2 : undisturbed ops g = true) by reflexivity.
  split; [exact H1|]. split; [exact H2|].
  exact (proj1 (proj2 (proj2 (stop_flag_lifetime g)) ops H1 H2)).
Defined.

End Coordinator.

(** ** More on [terminate] *)

Section Terminate.
Import Py Executor Trace.

(** A held, running process is always let go of: whatever the system
    calls answer, the executor ends up holding no process, with the
    interrupted flag set and its paths untouched. *)
Theorem terminate_active_releases (env : TermEnv) (st : State) (pid : Z) :
  current_process st = Some pid ->
  t_poll env = None ->
  current_process (fst (terminate env st)) = None
  /\ is_interrupted (fst (terminate env st)) = true
  /\ bash_code_path (fst (terminate env st)) = bash_code_path st
  /\ bash_code_path_execute (fst (terminate env st))
     = bash_code_path_execute st
  /\ hd_error (snd (terminate env st))
     = Some (PrintLine ("[EXECUTOR] Terminating process " +:+ str_Z pid
                        +:+ "..."))
  /\ nth_error (snd (terminate env st)) 1 = Some (Getpgid pid).
Proof.
  intros Hp Hpoll. unfold terminate. rewrite Hp, Hpoll.
  unfold kill_group.
  destruct (t_getpgid env) as [e|pgid].
  - destruct e; [|destruct (kill_process env _) as [a2 r2]..];
      repeat split; reflexivity.
  - destruct (t_killpg_term env) as [e|].
    + destruct e; [|destruct (kill_process env _) as [a2 r2]..];
        repeat split; reflexivity.
    + destruct (t_wait_grace env) as [e|]; [|repeat split; reflexivity].
      destruct e.
      * repeat split; reflexivity.
      * destruct (t_killpg_kill env) as [e|].
        -- destruct e; [|destruct (kill_process env _) as [a2 r2]..];
             repeat split; reflexivity.
        -- destruct (t_wait env) as [e|]; [|repeat split; reflexivity].
           destruct e; [|destruct (kill_process env _) as [a2 r2]..];
             repeat split; reflexivity.
      * destruct (kill_process env _) as [a2 r2]; repeat split; reflexivity.
Qed.

Lemma terminate_active_releases_witness :
  current_process (Scenario.holding 4242) = Some 4242%Z
  /\ t_poll Scenario.stubborn = None
  /\ current_process (fst (terminate Scenario.stubborn
                                     (Scenario.holding 4242))) = None.
Proof.
  split; [reflexivity|]. split; [reflexivity|].
  exact (proj1 (terminate_active_releases Scenario.stubborn
                  (Scenario.holding 4242) 4242 eq_refl eq_refl)).
Defined.

Ltac split_env :=
  repeat match goal with
         | |- context [match ?x with _ => _ end] =>
             lazymatch type of x with
             | OsError => destruct x
             | option OsError => destruct x eqn:?
             | sum OsError Z => destruct x eqn:?
             end
         end.

(** The forceful signal is the last resort: SIGKILL goes to the process
    group exactly when the group was found, SIGTERM was delivered and the
    process outlived the two seconds of grace; it goes to the group that
    received SIGTERM, after that signal and after the wait. *)
Theorem terminate_escalates_after_grace
    (env : TermEnv) (st : State) (pid : Z) :
  current_process st = Some pid ->
  t_poll env = None ->
  (existsb is_sigkill (snd (terminate env st)) = true
   <-> (exists pgid, t_getpgid env = inr pgid)
       /\ t_killpg_term env = None
       /\ t_wait_grace env = Some TimeoutExpired)
  /\ preceded is_sigterm is_sigkill false (snd (terminate env st)) = true
  /\ preceded is_grace_wait is_sigkill false (snd (terminate env st)) = true
  /\ (forall pgid sig, In (Killpg pgid sig) (snd (terminate env st)) ->
        t_getpgid env = inr pgid).
Proof.
  intros Hp Hpoll. unfold terminate. rewrite Hp, Hpoll.
  unfold kill_group, kill_process. split_env; cbn;
    (split; [split; [intros H; try discriminate H; eauto
                    |intros ((pgid & Hg) & Hk & Hw); congruence]|]);
    (split; [reflexivity|]); (split; [reflexivity|]);
    intros pgid sig Hin; cbn in Hin;
    repeat (destruct Hin as [Hin|Hin]; [try discriminate Hin|]);
    try contradiction; try (injection Hin as <- _; reflexivity).
Qed.

Lemma terminate_escalates_after_grace_witness :
  current_process (Scenario.holding 4242) = Some 4242%Z
  /\ t_poll Scenario.stubborn = None
  /\ existsb is_sigkill
       (snd (terminate Scenario.stubborn (Scenario.holding 4242))) = true.
Proof.
  split; [reflexivity|]. split; [reflexivity|].
  apply (proj1 (terminate_escalates_after_grace Scenario.stubborn
                  (Scenario.holding 4242) 4242 eq_refl eq_refl)).
  split; [exists 4242%Z; reflexivity|]. split; reflexivity.
Defined.

(** The process alone is signalled only as a fall-back. When the group
    is gone ([ProcessLookupError]) nothing is signalled at all. The
    process's own [terminate()] is called exactly when signalling the
    group failed with another error, and [kill()] follows only after that
    call, when it or the wait of two seconds failed. *)
Theorem terminate_falls_back_to_process
    (env : TermEnv) (st : State) (pid : Z) :
  current_process st = Some pid ->
  t_poll env = None ->
  (t_getpgid env = inl ProcessLookupError ->
   snd (terminate env st)
   = [PrintLine ("[EXECUTOR] Terminating process " +:+ str_Z pid +:+ "...");
      Getpgid pid;
      PrintLine ("[EXECUTOR] Process " +:+ str_Z pid
                 +:+ " already terminated")])
  /\ (existsb is_proc_terminate (snd (terminate env st)) = true
      <-> exists e, snd (kill_group env pid) = Some e
                    /\ e <> ProcessLookupError)
  /\ (existsb is_proc_kill (snd (terminate env st)) = true
      <-> (exists e, snd (kill_group env pid) = Some e
                     /\ e <> ProcessLookupError)
          /\ (t_proc_terminate env <> None \/ t_wait_grace' env <> None))
  /\ preceded is_proc_terminate is_proc_kill false (snd (terminate env st))
     = true.
Proof.
  intros Hp Hpoll. unfold terminate. rewrite Hp, Hpoll.
  split.
  { intros Hg. unfold kill_group. rewrite Hg. reflexivity. }
  split; [|split].
  - unfold kill_group, kill_process. split_env; cbn;
      (split; [intros H;
               first [discriminate H
                     |eexists; split; [reflexivity | discriminate]]
              |intros (e & He & Hne);
               first [discriminate He | reflexivity
                     |injection He as <-; congruence]]).
  - unfold kill_group, kill_process. split_env; cbn;
      (split;
       [intros H;
        first [discriminate H
              |split; [eexists; split; [reflexivity | discriminate]
                      |first [left; discriminate | right; discriminate]]]
       |intros ((e & He & Hne) & [Hc|Hc]);
        first [discriminate He | reflexivity | congruence
              |injection He as <-; congruence]]).
  - unfold kill_group, kill_process. split_env; reflexivity.
Qed.

Lemma terminate_falls_back_to_process_witness :
  current_process (Scenario.holding 4242) = Some 4242%Z
  /\ t_poll Scenario.no_group = None
  /\ existsb is_proc_kill
       (snd (terminate Scenario.no_group (Scenario.holding 4242))) = true.
Proof.
  split; [reflexivity|]. split; [reflexivity|].
  apply (proj1 (proj2 (proj2 (terminate_falls_back_to_process
                                Scenario.no_group (Scenario.holding 4242)
                                4242 eq_refl eq_refl)))).
  split.
  - exists (OtherError "[Errno 1] Operation not permitted").
    split; [reflexivity | discriminate].
  - right. discriminate.
Defined.

End Terminate.

(** ** More on the streaming loop *)

Section StreamMore.
Import Py LogHandler Trace.

(** An iteration that reaches its body, with its tests named. *)
Lemma iteration_body (o : Obs) (st : Loop) :
  exits_top o = false ->
  iteration o st
  = (let '(buf, count) :=
       drain (drained o) (log_buffer st) (line_count st) in
     let beat := heartbeat_due o st in
     let save := (SAVE_INTERVAL <=? o_now o - last_save_time st)%float in
     let emit := should_emit o st in
     ((if save
       then [SaveState [("running", JBool true); ("line_count", JInt count);
                        ("last_update", JStr (o_stamp o))]]
       else [])
      ++ (if emit
          then [Yield (Progress (truncated_count buf)
                                (lastn MAX_DISPLAY_LINES buf) count
                                (_format_elapsed_time (o_start o) (o_clock o))
                                (o_alive_yield o))]
          else [])
      ++ (if o_stop o
          then [Yield (StopNotice
                         (lastn MAX_DISPLAY_LINES (buf ++ [stop_notice])))]
          else []),
      mkLoop (if o_stop o then buf ++ [stop_notice] else buf)
             (if emit then o_now o else last_yield_time st)
             (if beat then o_now o else last_heartbeat_time st)
             (if save then o_now o else last_save_time st)
             count,
      if o_stop o then Break else Continue)).
Proof.
  intros Htop.
  unfold iteration, should_emit, heartbeat_due, debounce_over.
  rewrite Htop.
  destruct (drain (drained o) (log_buffer st) (line_count st)) as [buf count].
  cbv zeta.
  destruct (o_stop o);
    destruct (SAVE_INTERVAL <=? o_now o - last_save_time st)%float;
    destruct ((negb (is_nil (drained o)) ||
               (HEARTBEAT_INTERVAL
                <=? o_now o - last_heartbeat_time st)%float) &&
              (MIN_YIELD_INTERVAL
               <=? o_now o - last_yield_time st)%float);
    rewrite ?app_nil_r; reflexivity.
Qed.

(** What one iteration does to the time of the last emission and to the
    time of the last checkpoint. *)
Lemma iteration_marks (o : Obs) (st : Loop) :
  let '(evs, st', _) := iteration o st in
  (if emits_progress evs
   then (MIN_YIELD_INTERVAL <=? o_now o - last_yield_time st)%float = true
        /\ last_yield_time st' = o_now o
   else last_yield_time st' = last_yield_time st)
  /\ (if existsb is_save evs
      then (SAVE_INTERVAL <=? o_now o - last_save_time st)%float = true
           /\ last_save_time st' = o_now o
      else last_save_time st' = last_save_time st)
  /\ List.length (filter is_progress evs)
     = (if emits_progress evs then 1 else 0)
  /\ List.length (filter is_save evs)
     = (if existsb is_save evs then 1 else 0)
  /\ Forall (fun e => match e with
                      | SaveState d => dict_get "running" d = Some (JBool true)
                      | _ => True
                      end) evs.
Proof.
  destruct (exits_top o) eqn:Htop.
  - rewrite (iteration_top _ _ Htop). cbn. repeat split; constructor.
  - rewrite (iteration_body _ _ Htop).
    unfold should_emit, heartbeat_due, debounce_over.
    destruct (drain (drained o) (log_buffer st) (line_count st))
      as [buf count].
    cbv zeta.
    destruct (SAVE_INTERVAL <=? o_now o - last_save_time st)%float
      eqn:Hsave;
      destruct ((negb (is_nil (drained o)) ||
                 (HEARTBEAT_INTERVAL
                  <=? o_now o - last_heartbeat_time st)%float)) eqn:Hnew;
      destruct (MIN_YIELD_INTERVAL
                <=? o_now o - last_yield_time st)%float eqn:Hyield;
      destruct (o_stop o);
      cbn [emits_progress existsb is_progress is_save app orb andb filter
           List.length last_yield_time last_save_time];
      repeat split; try reflexivity; repeat constructor.
Qed.

Lemma filter_length_app {A : Type} (f : A -> bool) (a b : list A) :
  List.length (filter f (a ++ b))
  = List.length (filter f a) + List.length (filter f b).
Proof. rewrite filter_app, length_app. reflexivity. Qed.

(** The comparisons are those of binary64: from a mark at 1.1e-08 the
    debounce test holds at 0.100000011, whose exact distance from the
    mark is below a tenth; and 3.3 - 0.3 is a full 3. *)
Example clock_tests_round_as_the_processor :
  debounce_over (Scenario.at_time 0.100000011 true [] false)
                (mkLoop [] 1.1e-08 0 0 0) = true
  /\ _format_elapsed_time (Some 0.3%float) 3.3 = "00:00:03".
Proof. split; vm_compute; reflexivity. Qed.

(** Progress snapshots are debounced: for the clock readings of two
    successive progress emissions, and for the last emission before a
    stretch of the loop and the first one in it, the difference computed
    in binary64, as the code computes it, is at least
    [MIN_YIELD_INTERVAL]; the readings listed are those of all the
    progress snapshots emitted. *)
Theorem progress_snapshots_debounced (os : list Obs) (st : Loop) :
  spaced MIN_YIELD_INTERVAL (last_yield_time st) (progress_clocks os st)
  /\ List.length (progress_clocks os st)
     = List.length (filter is_progress (fst (fst (main_loop os st)))).
Proof.
  revert st. induction os as [|o os IH]; intros st.
  - split; [exact I | reflexivity].
  - cbn [progress_clocks main_loop].
    pose proof (iteration_marks o st) as Hm.
    destruct (iteration o st) as [[evs st'] c].
    destruct Hm as (Hy & _ & Hn & _).
    destruct c.
    + destruct (IH st') as [IHs IHl].
      destruct (main_loop os st') as [[evs2 st2] c2]. cbn [fst] in *.
      rewrite filter_length_app, Hn, length_app, IHl.
      destruct (emits_progress evs).
      * destruct Hy as [Hgap Heq]. rewrite Heq in IHs.
        split; [split; assumption | reflexivity].
      * rewrite Hy in IHs. split; [exact IHs | reflexivity].
    + cbn [fst]. rewrite app_nil_r, Hn.
      destruct (emits_progress evs); cbn; [|split; trivial].
      destruct Hy as [Hgap _]. repeat split; trivial.
Qed.

(** For the clock readings of two successive periodic checkpoints the
    difference computed in binary64, as the code computes it, is at
    least [SAVE_INTERVAL]; each iteration writes at most one checkpoint,
    and every checkpoint written inside the loop is marked as running. *)
Theorem checkpoints_spaced (os : list Obs) (st : Loop) :
  spaced SAVE_INTERVAL (last_save_time st) (save_clocks os st)
  /\ List.length (save_clocks os st)
     = List.length (filter is_save (fst (fst (main_loop os st))))
  /\ Forall (fun e => match e with
                      | SaveState d => dict_get "running" d = Some (JBool true)
                      | _ => True
                      end) (fst (fst (main_loop os st))).
Proof.
  revert st. induction os as [|o os IH]; intros st.
  - split; [exact I | split; [reflexivity | constructor]].
  - cbn [save_clocks main_loop].
    pose proof (iteration_marks o st) as Hm.
    destruct (iteration o st) as [[evs st'] c].
    destruct Hm as (_ & Hs & _ & Hn & Hrun).
    destruct c.
    + destruct (IH st') as (IHs & IHl & IHr).
      destruct (main_loop os st') as [[evs2 st2] c2]. cbn [fst] in *.
      rewrite filter_length_app, Hn, length_app, IHl.
      split; [|split; [|apply Forall_app; split; assumption]].
      * destruct (existsb is_save evs).
        -- destruct Hs as [Hgap Heq]. rewrite Heq in IHs.
           split; assumption.
        -- rewrite Hs in IHs. exact IHs.
      * destruct (existsb is_save evs); reflexivity.
    + cbn [fst]. rewrite app_nil_r, Hn.
      split; [|split; [|exact Hrun]].
      * destruct (existsb is_save evs); cbn; [|trivial].
        destruct Hs as [Hgap _]. split; trivial.
      * destruct (existsb is_save evs); reflexivity.
Qed.

(** The running total counts every record: when a run ends, the counter,
    the final checkpoint and the final snapshot all carry the number of
    records published, those already dropped from the buffer included. *)
Theorem stream_counts_every_record (r : Run) evs st :
  _stream_logs_with_heartbeat r = Some (evs, st) ->
  line_count st = List.length (published r)
  /\ exists evs0 stamp t lines,
       evs = evs0
             ++ [SaveState [("running", JBool false);
                            ("completed", JBool true);
                            ("line_count", JInt (List.length (published r)));
                            ("end_time", JStr stamp)];
                 SetTaskRunning false;
                 Yield (Final t lines (f_stop (r_final r))
                              (List.length (published r)))].
Proof.
  intros Hrun.
  destruct (stream_inv r evs st Hrun) as (evs0 & st0 & Hloop & -> & ->).
  destruct (main_loop_state _ _ [] _ _ _
              (eq_refl : log_buffer (initial_loop r)
                         = lastn MAX_HISTORY_LINES []) Hloop)
    as (_ & Hc & _).
  cbn [initial_loop line_count Nat.add] in Hc.
  unfold published. rewrite length_app, <- Hc.
  unfold epilogue. cbn [fst snd line_count].
  split; [reflexivity|]. repeat eexists.
Qed.

Lemma stream_counts_every_record_witness :
  exists evs st,
    _stream_logs_with_heartbeat Scenario.overflow_run = Some (evs, st)
    /\ line_count st = 505.
Proof.
  assert (E : exists evs st,
            _stream_logs_with_heartbeat Scenario.overflow_run
            = Some (evs, st))
    by (eexists; eexists; vm_compute; reflexivity).
  destruct E as (evs & st & E). exists evs, st. split; [exact E|].
  rewrite (proj1 (stream_counts_every_record Scenario.overflow_run evs st E)).
  vm_compute. reflexivity.
Defined.

Lemma truncated_count_bound (all : list string) :
  let buf := lastn MAX_HISTORY_LINES all in
  (truncated_count buf = None
   /\ List.length (lastn MAX_DISPLAY_LINES buf) <= MAX_DISPLAY_LINES)
  \/ (exists k, truncated_count buf = Some k
                /\ 1 <= k <= MAX_HISTORY_LINES - MAX_DISPLAY_LINES
                /\ List.length (lastn MAX_DISPLAY_LINES buf)
                   = MAX_DISPLAY_LINES).
Proof.
  intros buf. unfold truncated_count.
  assert (Hlen : List.length buf <= MAX_HISTORY_LINES)
    by (unfold buf; rewrite length_lastn; lia).
  rewrite length_lastn.
  destruct (Nat.ltb_spec MAX_DISPLAY_LINES (List.length buf)) as [H|H].
  - right. eexists. split; [reflexivity|]. lia.
  - left. split; [reflexivity | lia].
Qed.

Lemma main_loop_bounded (os : list Obs) :
  forall (st : Loop) (all : list string),
    log_buffer st = lastn MAX_HISTORY_LINES all ->
    Forall progress_bounded (snapshots (fst (fst (main_loop os st)))).
Proof.
  induction os as [|o os IH]; intros st all Hbuf; [constructor|].
  cbn [main_loop]. destruct (exits_top o) eqn:Htop.
  - rewrite (iteration_top _ _ Htop). constructor.
  - destruct (iteration_shape o st all Hbuf Htop)
      as (e1 & st1 & Hit & Hb1 & _ & Hs1 & _).
    rewrite Hit.
    assert (H1 : Forall progress_bounded (snapshots e1)).
    { rewrite Hs1. apply Forall_app. split.
      - destruct (should_emit o st); constructor; [|constructor].
        apply truncated_count_bound.
      - destruct (o_stop o); constructor; [|constructor].
        cbn. rewrite length_lastn. lia. }
    destruct (o_stop o); [exact H1|].
    rewrite app_nil_r in Hb1. specialize (IH st1 _ Hb1).
    destruct (main_loop os st1) as [[e2 st2] c2]. cbn [fst] in *.
    rewrite snapshots_app. apply Forall_app. split; assumption.
Qed.

(** Memory and display stay bounded. While the loop runs the buffer
    holds at most [MAX_HISTORY_LINES] lines; at the end it holds at most
    that, the stop notice and the records drained after the loop. Every
    snapshot shows at most [MAX_DISPLAY_LINES] lines, and a progress
    snapshot with a banner shows exactly that many and reports between 1
    and 400 hidden lines. *)
Theorem stream_is_bounded (r : Run) :
  (forall os evs st,
      main_loop os (initial_loop r) = (evs, st, Continue) ->
      List.length (log_buffer st) <= MAX_HISTORY_LINES)
  /\ (forall evs st,
        _stream_logs_with_heartbeat r = Some (evs, st) ->
        List.length (log_buffer st)
        <= MAX_HISTORY_LINES + 1 + List.length (f_queue (r_final r))
        /\ forall s, In s (snapshots evs) ->
             List.length (snapshot_lines s) <= MAX_DISPLAY_LINES
             /\ (is_final s = false -> progress_bounded s)).
Proof.
  split.
  - intros os evs st Hrun.
    rewrite (main_loop_continue os (initial_loop r) [] evs st eq_refl Hrun).
    rewrite length_lastn. lia.
  - intros evs st Hrun.
    destruct (stream_inv r evs st Hrun) as (evs0 & st0 & Hloop & -> & ->).
    destruct (main_loop_state _ _ [] _ _ _
                (eq_refl : log_buffer (initial_loop r)
                           = lastn MAX_HISTORY_LINES []) Hloop)
      as (Hb & _ & _).
    split.
    + unfold epilogue. cbn [snd log_buffer]. rewrite Hb, !length_app.
      rewrite length_lastn.
      destruct (stopped_by_flag (r_iters r)); cbn [List.length]; lia.
    + pose proof (main_loop_bounded (r_iters r) (initial_loop r) []
                    eq_refl) as Hall.
      rewrite Hloop in Hall. cbn [fst] in Hall.
      rewrite Forall_forall in Hall.
      intros s Hin. rewrite snapshots_app in Hin.
      apply in_app_or in Hin as [Hin|Hin].
      * specialize (Hall s Hin). split; [|intros _; exact Hall].
        destruct s as [t l n e b|l|t l b n]; cbn in *;
          [destruct Hall as [[_ H]|(k & _ & _ & H)]; lia | exact Hall
          | contradiction].
      * unfold epilogue in Hin. cbn in Hin.
        destruct Hin as [<-|[]]. cbn [snapshot_lines is_final].
        split; [rewrite length_lastn; lia | discriminate].
Qed.

Lemma stream_is_bounded_witness :
  exists evs st,
    _stream_logs_with_heartbeat Scenario.overflow_run = Some (evs, st)
    /\ List.length (log_buffer st) <= MAX_HISTORY_LINES + 1 + 0.
Proof.
  assert (E : exists evs st,
            _stream_logs_with_heartbeat Scenario.overflow_run
            = Some (evs, st))
    by (eexists; eexists; vm_compute; reflexivity).
  destruct E as (evs & st & E). exists evs, st. split; [exact E|].
  exact (proj1 (proj2 (stream_is_bounded Scenario.overflow_run) evs st E)).
Defined.

Lemma lastn_keeps_recent {A : Type} (n : nat) (a b : list A) (x : A) :
  List.length b < n -> In x (lastn n (a ++ x :: b)).
Proof.
  intros H.
  replace n with ((n - List.length (x :: b)) + List.length (x :: b))
    by (cbn [List.length]; lia).
  rewrite lastn_app_r. apply in_or_app. right. left. reflexivity.
Qed.

Lemma main_loop_stop (os : list Obs) :
  forall st,
    stopped_by_flag os = true ->
    exists evs st' pre buf,
      main_loop os st = (evs, st', Break)
      /\ snapshots evs
         = pre ++ [StopNotice (lastn MAX_DISPLAY_LINES (buf ++ [stop_notice]))]
      /\ log_buffer st' = buf ++ [stop_notice].
Proof.
  induction os as [|o os IH]; intros st Hstop; [discriminate|].
  cbn [stopped_by_flag] in Hstop. cbn [main_loop].
  destruct (exits_top o) eqn:Htop; [discriminate|].
  rewrite (iteration_body _ _ Htop).
  destruct (drain (drained o) (log_buffer st) (line_count st)) as [buf count].
  cbv zeta. destruct (o_stop o).
  - eexists. eexists. eexists. exists buf.
    split; [reflexivity|]. split; [|reflexivity].
    rewrite app_assoc, snapshots_app. reflexivity.
  - rewrite app_nil_r.
    match goal with
    | |- context [main_loop os ?s] =>
        destruct (IH s Hstop) as (e2 & st2 & pre & buf2 & Hrun & Hs & Hb)
    end.
    rewrite Hrun. eexists. eexists. eexists. exists buf2.
    split; [reflexivity|]. split; [|exact Hb].
    rewrite snapshots_app, Hs, app_assoc. reflexivity.
Qed.

(** When the stop flag is seen, the sequence always ends, and it ends
    with the stop-notice snapshot, whose last line is the notice,
    followed by the final snapshot; the notice stays in the buffer, and
    it is still shown in the final snapshot unless a hundred or more
    records were drained after the loop. *)
Theorem stop_notice_then_final (r : Run) :
  stopped_by_flag (r_iters r) = true ->
  exists evs st pre shown t lines n,
    _stream_logs_with_heartbeat r = Some (evs, st)
    /\ snapshots evs
       = pre ++ [StopNotice shown; Final t lines (f_stop (r_final r)) n]
    /\ last shown "" = stop_notice
    /\ In stop_notice (log_buffer st)
    /\ (List.length (f_queue (r_final r)) < MAX_DISPLAY_LINES ->
        In stop_notice lines).
Proof.
  intros Hstop.
  destruct (main_loop_stop (r_iters r) (initial_loop r) Hstop)
    as (evs0 & st0 & pre & buf & Hrun & Hs & Hb).
  unfold _stream_logs_with_heartbeat. rewrite Hrun.
  unfold epilogue. rewrite Hb.
  eexists. eexists. exists pre. eexists. eexists. eexists. eexists.
  split; [reflexivity|]. cbn [fst snd log_buffer].
  split; [rewrite snapshots_app, Hs, <- app_assoc; reflexivity|].
  split; [|split].
  - replace MAX_DISPLAY_LINES with (99 + List.length [stop_notice])
      by reflexivity.
    rewrite lastn_app_r. apply last_last.
  - apply in_or_app. left. apply in_or_app. right. left. reflexivity.
  - intros Hq. rewrite <- app_assoc. apply lastn_keeps_recent. exact Hq.
Qed.

Lemma stop_notice_then_final_witness :
  stopped_by_flag (r_iters Scenario.stopped_run) = true
  /\ exists evs st,
       _stream_logs_with_heartbeat Scenario.stopped_run = Some (evs, st)
       /\ In stop_notice (log_buffer st).
Proof.
  split; [reflexivity|].
  destruct (stop_notice_then_final Scenario.stopped_run eq_refl)
    as (evs & st & pre & shown & t & lines & n & E & _ & _ & Hin & _).
  exists evs, st. split; assumption.
Defined.

End StreamMore.

(** ** The task state under all operations *)

Section TaskState.
Import LogHandler Gui Trace.

Lemma step_running_has_task (op : Op) (g : Globals) :
  running_has_task g -> running_has_task (step op g).
Proof.
  unfold running_has_task. intros Hinv.
  destruct op as [obs req| | | | |stamp m| | |]; cbn [step].
  - unfold unified_analysis_executor.
    destruct (missing_keys (config req)); [|exact Hinv].
    destruct (api_key_blank (api_key req)); [exact Hinv|].
    destruct (is_task_running g); [exact Hinv|].
    cbn. intros _. split; discriminate.
  - unfold stop_analysis. destruct (negb (is_task_running g));
      [exact Hinv | exact Hinv].
  - unfold stop_if_running. destruct (is_task_running g); exact Hinv.
  - unfold stop_if_running. destruct (is_task_running g); exact Hinv.
  - exact Hinv.
  - exact Hinv.
  - cbn. discriminate.
  - exact Hinv.
  - cbn. discriminate.
Qed.

(** In every state reached from the initial one through calls of the UI,
    the worker and the streaming generator, a task marked as running has
    a start time and the handle of its worker thread recorded. *)
Theorem running_task_is_recorded (ops : list Op) :
  let g := run_ops ops initial_globals in
  task_running g = true ->
  exists t0 thread,
    _task_start_time g = Some t0 /\ current_thread g = Some thread.
Proof.
  assert (H : forall g, running_has_task g ->
                        running_has_task (run_ops ops g)).
  { induction ops as [|op ops IH]; intros g Hg; [exact Hg|].
    cbn [run_ops]. apply IH, step_running_has_task, Hg. }
  assert (H0 : running_has_task initial_globals)
    by (intros Hr; discriminate Hr).
  specialize (H _ H0). cbv zeta. intros Hr.
  destruct (H Hr) as [Ht Hc].
  destruct (_task_start_time (run_ops ops initial_globals)) as [t0|];
    [|congruence].
  destruct (current_thread (run_ops ops initial_globals)) as [th|];
    [|congruence].
  exists t0, th. split; reflexivity.
Qed.

Lemma running_task_is_recorded_witness :
  task_running Scenario.running_globals = true
  /\ exists t0 thread,
       _task_start_time Scenario.running_globals = Some t0
       /\ current_thread Scenario.running_globals = Some thread.
Proof.
  split; [reflexivity|].
  exact (running_task_is_recorded
           [Start Scenario.first_start Scenario.good_request] eq_refl).
Defined.

End TaskState.

(** ** The stop monitor *)

Section MonitorFacts.
Import Executor Monitor.

(** The monitor calls [terminate] at most once: never while the flag
    reads unset, and exactly once, in the first turn in which it reads
    set, after one sleep for each turn before. It then ends; until then
    it touches nothing. *)
Theorem monitor_terminates_once
    (readings : list bool) (env : TermEnv) (st : State) :
  let ended := existsb (fun b => b) readings in
  _monitor_stop_flag readings env st
  = (if ended then fst (terminate env st) else st,
     Said "[EXECUTOR] Stop monitor thread started"
     :: repeat Slept (turns_before_set readings)
     ++ (if ended
         then [Said "[EXECUTOR] Stop flag detected, terminating process...";
               Terminated (snd (terminate env st))]
         else []),
     ended)
  /\ (ended = false -> turns_before_set readings = List.length readings).
Proof.
  cbv zeta. unfold _monitor_stop_flag.
  assert (H : monitor_loop readings env st
              = (if existsb (fun b => b) readings
                 then fst (terminate env st) else st,
                 repeat Slept (turns_before_set readings)
                 ++ (if existsb (fun b => b) readings
                     then [Said "[EXECUTOR] Stop flag detected, terminating process...";
                           Terminated (snd (terminate env st))]
                     else []),
                 existsb (fun b => b) readings)
              /\ (existsb (fun b => b) readings = false ->
                  turns_before_set readings = List.length readings)).
  { induction readings as [|[|] rest IH]; cbn [monitor_loop].
    - split; reflexivity.
    - destruct (terminate env st) as [st' acts]. split; [reflexivity|].
      discriminate.
    - destruct IH as [IH1 IH2]. rewrite IH1. cbn.
      split; [reflexivity|]. intros H. rewrite (IH2 H). reflexivity. }
  destruct H as [H1 H2]. rewrite H1. split; [reflexivity | exact H2].
Qed.

Lemma monitor_terminates_once_witness :
  _monitor_stop_flag Scenario.set_at_fourth_turn Scenario.exited
                     (Scenario.holding 4242)
  = (Scenario.holding 4242,
     [Said "[EXECUTOR] Stop monitor thread started"; Slept; Slept; Slept;
      Said "[EXECUTOR] Stop flag detected, terminating process...";
      Terminated [PrintLine "[EXECUTOR] No active process to terminate"]],
     true).
Proof.
  exact (proj1 (monitor_terminates_once Scenario.set_at_fourth_turn
                  Scenario.exited (Scenario.holding 4242))).
Defined.

End MonitorFacts.

(** ** The child environment *)

Section ChildEnvFacts.
Import Py ChildEnv.

Lemma prefix_app (s t : string) : String.prefix s (s +:+ t) = true.
Proof.
  induction s as [|c s IH]; simpl.
  - destruct t; reflexivity.
  - destruct (ascii_dec c c); [exact IH | congruence].
Qed.

Lemma contains_of_prefix (sub s : string) :
  String.prefix sub s = true -> contains sub s = true.
Proof.
  intros H. destruct s; cbn [contains]; [exact H|]. rewrite H. reflexivity.
Qed.

(** The child environment differs from the parent's in at most two
    variables. [CONDA_AUTO_ACTIVATE_BASE] is ["false"]. [PATH] is left as
    it is, absent included, when none of the known directories exists or
    when it already mentions the [bin] directory of the first one that
    does; otherwise that [bin] directory is put in front of it. *)
Theorem prepare_env_changes_two_variables
    (path_exists : string -> bool) (pw_dir : option string) (environ : Env) :
  let env := _prepare_env path_exists pw_dir environ in
  env "CONDA_AUTO_ACTIVATE_BASE" = Some "false"
  /\ (forall k, k <> "PATH" -> k <> "CONDA_AUTO_ACTIVATE_BASE" ->
        env k = environ k)
  /\ match find path_exists (conda_paths environ pw_dir) with
     | None => env "PATH" = environ "PATH"
     | Some conda_path =>
         In conda_path (conda_paths environ pw_dir)
         /\ path_exists conda_path = true
         /\ if contains (path_join conda_path "bin")
                        (env_get environ "PATH" "")
            then env "PATH" = environ "PATH"
            else env "PATH"
                 = Some (path_join conda_path "bin" +:+ ":" +:+
                         env_get environ "PATH" "")
     end.
Proof.
  cbv zeta. unfold _prepare_env.
  destruct (find path_exists (conda_paths environ pw_dir)) as [p|] eqn:Hf.
  - destruct (contains (path_join p "bin") (env_get environ "PATH" ""))
      eqn:Hc; cbn [negb]; unfold env_set.
    + split; [reflexivity|]. split.
      * intros k _ Hk. destruct (String.eqb_spec k "CONDA_AUTO_ACTIVATE_BASE");
          congruence.
      * apply find_some in Hf. destruct Hf. repeat split; assumption.
    + split; [reflexivity|]. split.
      * intros k Hp Hk.
        destruct (String.eqb_spec k "CONDA_AUTO_ACTIVATE_BASE"); [congruence|].
        destruct (String.eqb_spec k "PATH"); congruence.
      * apply find_some in Hf. destruct Hf. repeat split; assumption.
  - unfold env_set. split; [reflexivity|]. split; [|reflexivity].
    intros k _ Hk. destruct (String.eqb_spec k "CONDA_AUTO_ACTIVATE_BASE");
      congruence.
Qed.

Lemma prepare_env_changes_two_variables_witness :
  _prepare_env Scenario.opt_conda None Scenario.plain_environ "PATH"
  = Some "/opt/conda/bin:/usr/bin:/bin"
  /\ _prepare_env Scenario.opt_conda None Scenario.plain_environ "HOME"
     = Some "/home/user/".
Proof.
  pose proof (prepare_env_changes_two_variables Scenario.opt_conda None
                Scenario.plain_environ) as H.
  cbv zeta in H. destruct H as (_ & Hframe & Hpath).
  split.
  - exact (proj2 (proj2 Hpath)).
  - exact (Hframe "HOME" ltac:(discriminate) ltac:(discriminate)).
Defined.

(** Preparing an environment that was already prepared changes nothing:
    the [bin] directory is not put in front of [PATH] a second time. *)
Theorem prepare_env_idempotent
    (path_exists : string -> bool) (pw_dir : option string) (environ : Env)
    (k : string) :
  _prepare_env path_exists pw_dir
               (_prepare_env path_exists pw_dir environ) k
  = _prepare_env path_exists pw_dir environ k.
Proof.
  set (env1 := _prepare_env path_exists pw_dir environ).
  assert (Hhome : env1 "HOME" = environ "HOME").
  { unfold env1, _prepare_env.
    destruct (find path_exists (conda_paths environ pw_dir)) as [p|];
      [destruct (negb _)|]; reflexivity. }
  assert (Hpaths : conda_paths env1 pw_dir = conda_paths environ pw_dir).
  { unfold conda_paths, expanduser. rewrite Hhome. reflexivity. }
  unfold _prepare_env at 1. rewrite Hpaths.
  destruct (find path_exists (conda_paths environ pw_dir)) as [p|] eqn:Hf.
  - assert (Hin : contains (path_join p "bin") (env_get env1 "PATH" "")
                  = true).
    { unfold env1, _prepare_env. rewrite Hf.
      destruct (contains (path_join p "bin") (env_get environ "PATH" ""))
        eqn:Hc; cbn [negb].
      - exact Hc.
      - apply contains_of_prefix, prefix_app. }
    rewrite Hin. cbn [negb]. unfold env_set.
    destruct (String.eqb_spec k "CONDA_AUTO_ACTIVATE_BASE") as [->|Hk];
      [|reflexivity].
    unfold env1, _prepare_env, env_set.
    destruct (find _ _); [destruct (negb _)|]; reflexivity.
  - unfold env_set.
    destruct (String.eqb_spec k "CONDA_AUTO_ACTIVATE_BASE") as [->|Hk];
      [|reflexivity].
    unfold env1, _prepare_env, env_set. rewrite Hf. reflexivity.
Qed.

End ChildEnvFacts.

(** ** More on the script rewrite *)

Section CleanMore.
Import Py Executor.

Lemma concat_nl_cons (c : ascii) (l : string) (ls : list string) :
  join_nl (String c l :: ls) = String c (join_nl (l :: ls)).
Proof. destruct ls; reflexivity. Qed.

(** Joining the lines of a text gives the text back. *)
Lemma join_split (s : string) : join_nl (split_nl s) = s.
Proof.
  induction s as [|c s IH]; [reflexivity|].
  cbn [split_nl]. pose proof (split_nl_not_nil s) as Hne.
  destruct (Ascii.eqb_spec c nl) as [->|Hc].
  - destruct (split_nl s) as [|l ls]; [congruence|].
    change (join_nl ("" :: l :: ls)) with (String nl (join_nl (l :: ls))).
    rewrite IH. reflexivity.
  - destruct (split_nl s) as [|l ls]; [congruence|].
    rewrite concat_nl_cons, IH. reflexivity.
Qed.

Lemma split_nl_snoc (s : string) : split_nl (s +:+ NL) = split_nl s ++ [""].
Proof.
  induction s as [|c s IH]; [reflexivity|].
  cbn [String.append split_nl]. rewrite IH.
  pose proof (split_nl_not_nil s) as Hne.
  destruct (Ascii.eqb c nl); [reflexivity|].
  destruct (split_nl s); [congruence | reflexivity].
Qed.

Lemma clean_lines_hooks (seen : bool) (ls : list string) :
  Forall (fun l => is_hook l = true -> is_activation l = true)
         (clean_lines seen ls).
Proof.
  revert seen. induction ls as [|l ls IH]; intros seen; cbn [clean_lines].
  - constructor.
  - destruct (is_activation l) eqn:Ea.
    + destruct seen; cbn [negb]; [apply IH|].
      constructor; [intros _; exact Ea | apply IH].
    + destruct (is_hook l) eqn:Eh; [apply IH|].
      constructor; [congruence | apply IH].
Qed.

Lemma clean_lines_seen_id (ls : list string) :
  filter is_activation ls = [] ->
  Forall (fun l => is_hook l = true -> is_activation l = true) ls ->
  clean_lines true ls = ls.
Proof.
  induction ls as [|l ls IH]; intros Ha Hh; [reflexivity|].
  cbn [clean_lines filter] in *. inversion Hh as [|? ? Hl Hls]; subst.
  destruct (is_activation l) eqn:Ea; [discriminate|].
  destruct (is_hook l); [specialize (Hl eq_refl); discriminate|].
  rewrite (IH Ha Hls). reflexivity.
Qed.

Lemma clean_lines_id (ls : list string) :
  List.length (filter is_activation ls) <= 1 ->
  Forall (fun l => is_hook l = true -> is_activation l = true) ls ->
  clean_lines false ls = ls.
Proof.
  induction ls as [|l ls IH]; intros Ha Hh; [reflexivity|].
  cbn [clean_lines filter] in *. inversion Hh as [|? ? Hl Hls]; subst.
  destruct (is_activation l) eqn:Ea; cbn [negb].
  - rewrite clean_lines_seen_id; [reflexivity | | exact Hls].
    cbn [List.length] in Ha.
    destruct (filter is_activation ls); [reflexivity | cbn in Ha; lia].
  - destruct (is_hook l); [specialize (Hl eq_refl); discriminate|].
    rewrite (IH Ha Hls). reflexivity.
Qed.

(** No conda hook line survives the rewrite, except as the activation
    line that is kept; and a script that has no such line and at most one
    activation line comes back unchanged, byte for byte. *)
Theorem clean_script_drops_hooks_only (content : string) :
  Forall (fun l => is_hook l = true -> is_activation l = true)
         (split_nl (_clean_script_content content))
  /\ (List.length (activation_lines content) <= 1 ->
      Forall (fun l => is_hook l = true -> is_activation l = true)
             (split_nl content) ->
      _clean_script_content content = content).
Proof.
  split.
  - rewrite lines_of_clean.
    pose proof (clean_lines_hooks false (split_nl content)) as H.
    destruct (clean_lines false (split_nl content)); [|exact H].
    constructor; [discriminate | constructor].
  - intros Ha Hh. unfold _clean_script_content.
    rewrite (clean_lines_id _ Ha Hh). apply join_split.
Qed.

Lemma clean_script_drops_hooks_only_witness :
  _clean_script_content ("echo start" +:+ NL +:+ "mamba activate abc_runtime")
  = "echo start" +:+ NL +:+ "mamba activate abc_runtime".
Proof.
  apply (proj2 (clean_script_drops_hooks_only
                  ("echo start" +:+ NL +:+ "mamba activate abc_runtime"))).
  - vm_compute. lia.
  - assert (E : split_nl ("echo start" +:+ NL +:+
                          "mamba activate abc_runtime")
                = ["echo start"; "mamba activate abc_runtime"])
      by (vm_compute; reflexivity).
    rewrite E. repeat constructor; vm_compute; discriminate.
Defined.

Lemma execute_script_lines (cleaned : string) :
  split_nl (execute_script cleaned) = code_prefix ++ split_nl cleaned ++ [""].
Proof.
  transitivity (code_prefix ++ split_nl (cleaned +:+ NL)).
  - reflexivity.
  - rewrite split_nl_snoc. reflexivity.
Qed.

(** The file that is run consists of the two prefix commands, the lines
    of the cleaned script and one empty last line. It therefore activates
    the environment once through the prefix and once more exactly when
    the script itself carries an activation line. *)
Theorem executed_file_activations (content : string) :
  split_nl (execute_script (_clean_script_content content))
  = code_prefix ++ split_nl (_clean_script_content content) ++ [""]
  /\ activation_lines (execute_script (_clean_script_content content))
     = "mamba activate abc_runtime" :: firstn 1 (activation_lines content)
  /\ List.length
       (activation_lines (execute_script (_clean_script_content content)))
     = 1 + Nat.min 1 (List.length (activation_lines content)).
Proof.
  assert (Hact : activation_lines
                   (execute_script (_clean_script_content content))
                 = "mamba activate abc_runtime"
                   :: firstn 1 (activation_lines content)).
  { unfold activation_lines. rewrite execute_script_lines.
    rewrite !filter_app. rewrite lines_of_clean.
    replace (filter is_activation code_prefix)
      with ["mamba activate abc_runtime"] by (vm_compute; reflexivity).
    replace (filter is_activation [""]) with (@nil string)
      by (vm_compute; reflexivity).
    rewrite app_nil_r, <- clean_lines_first_activation.
    destruct (clean_lines false (split_nl content)); reflexivity. }
  split; [apply execute_script_lines|]. split; [exact Hact|].
  rewrite Hact. cbn [List.length]. rewrite length_firstn. reflexivity.
Qed.

End CleanMore.

(** ** Stripping and parsing lines *)

Section Strip.
Import Py GuiForms.

Lemma rstrip_idem (s : string) : rstrip (rstrip s) = rstrip s.
Proof.
  induction s as [|c s IH]; [reflexivity|].
  cbn [rstrip]. cbv zeta.
  destruct (isspace (String c (rstrip s))) eqn:E; [reflexivity|].
  cbn [rstrip]. cbv zeta. rewrite IH, E. reflexivity.
Qed.

(** What is kept by [rstrip] is a front part of the string. *)
Lemma rstrip_prefix (s : string) : exists u, s = rstrip s +:+ u.
Proof.
  induction s as [|c s [u IH]]; [exists ""; reflexivity|].
  cbn [rstrip]. cbv zeta.
  destruct (isspace (String c (rstrip s))).
  - exists (String c s). reflexivity.
  - exists u. cbn [String.append]. rewrite <- IH. reflexivity.
Qed.

Lemma lstrip_fixed (s : string) : starts_space s = false -> lstrip s = s.
Proof.
  destruct s as [|c1 [|c2 [|c3 s3]]]; cbn [starts_space lstrip];
    intros H; try reflexivity;
    destruct (space1 c1); cbn [orb] in H; try discriminate H;
    try reflexivity;
    destruct (space2 c1 c2); cbn [orb] in H; try discriminate H;
    try reflexivity;
    destruct (space3 c1 c2 c3); [discriminate H | reflexivity].
Qed.

(** What is kept by [lstrip] is an end part of the string, and does not
    begin with white space. *)
Lemma lstrip_spec (n : nat) :
  forall s, String.length s <= n ->
            starts_space (lstrip s) = false
            /\ exists u, s = u +:+ lstrip s.
Proof.
  induction n as [|n IH]; intros s Hlen.
  - destruct s; [|cbn in Hlen; lia]. split; [reflexivity | exists ""; reflexivity].
  - destruct s as [|c1 s1]; [split; [reflexivity | exists ""; reflexivity]|].
    cbn [String.length] in Hlen. cbn [lstrip].
    destruct (space1 c1) eqn:E1.
    { destruct (IH s1 ltac:(lia)) as [Hs [u Hu]].
      split; [exact Hs|]. exists (String c1 u). cbn [String.append].
      rewrite <- Hu. reflexivity. }
    destruct s1 as [|c2 s2].
    { split; [cbn [starts_space]; rewrite E1; reflexivity
             | exists ""; reflexivity]. }
    cbn [String.length] in Hlen.
    destruct (space2 c1 c2) eqn:E2.
    { destruct (IH s2 ltac:(lia)) as [Hs [u Hu]].
      split; [exact Hs|]. exists (String c1 (String c2 u)).
      cbn [String.append]. rewrite <- Hu. reflexivity. }
    destruct s2 as [|c3 s3].
    { split; [cbn [starts_space]; rewrite E1, E2; reflexivity
             | exists ""; reflexivity]. }
    cbn [String.length] in Hlen.
    destruct (space3 c1 c2 c3) eqn:E3.
    { destruct (IH s3 ltac:(lia)) as [Hs [u Hu]].
      split; [exact Hs|]. exists (String c1 (String c2 (String c3 u))).
      cbn [String.append]. rewrite <- Hu. reflexivity. }
    split; [cbn [starts_space]; rewrite E1, E2, E3; reflexivity
           | exists ""; reflexivity].
Qed.

Lemma starts_space_app (p u : string) :
  starts_space p = true -> starts_space (p +:+ u) = true.
Proof.
  destruct p as [|c1 [|c2 [|c3 p3]]]; cbn [starts_space String.append];
    intros H; try discriminate;
    destruct (space1 c1); cbn [orb] in *; try reflexivity;
    try discriminate.
  - destruct (space2 c1 c2); cbn [orb] in *; [reflexivity | discriminate].
  - destruct (space2 c1 c2); cbn [orb] in *; [reflexivity | exact H].
Qed.

(** Stripping twice is stripping once. *)
Lemma strip_idem (s : string) : strip (strip s) = strip s.
Proof.
  unfold strip.
  destruct (lstrip_spec (String.length s) s (le_n _)) as [Hs _].
  destruct (rstrip_prefix (lstrip s)) as [u Hu].
  assert (Hr : starts_space (rstrip (lstrip s)) = false).
  { destruct (starts_space (rstrip (lstrip s))) eqn:E; [|reflexivity].
    apply (starts_space_app _ u) in E. rewrite <- Hu in E. congruence. }
  rewrite (lstrip_fixed _ Hr). apply rstrip_idem.
Qed.

Lemma no_nl_app (a b : string) : no_nl (a +:+ b) = no_nl a && no_nl b.
Proof.
  induction a as [|c a IH]; [reflexivity|].
  cbn [String.append no_nl]. rewrite IH, andb_assoc. reflexivity.
Qed.

Lemma lstrip_no_nl (s : string) : no_nl s = true -> no_nl (lstrip s) = true.
Proof.
  intros H.
  destruct (lstrip_spec (String.length s) s (le_n _)) as [_ [u Hu]].
  rewrite Hu, no_nl_app in H. apply andb_prop in H. apply H.
Qed.

Lemma rstrip_no_nl (s : string) : no_nl s = true -> no_nl (rstrip s) = true.
Proof.
  intros H. destruct (rstrip_prefix s) as [u Hu].
  rewrite Hu, no_nl_app in H. apply andb_prop in H. apply H.
Qed.

Lemma strip_no_nl (s : string) : no_nl s = true -> no_nl (strip s) = true.
Proof. intros H. apply rstrip_no_nl, lstrip_no_nl, H. Qed.

(** White space of any encoded length goes from both ends and stays
    in the middle. *)
Example strip_beyond_ascii :
  strip (Scenario.wide_space +:+ " /data/a" +:+ Scenario.nbsp +:+ " ")
  = "/data/a"
  /\ strip (Scenario.wide_space +:+ Scenario.nbsp) = ""
  /\ strip ("a" +:+ Scenario.nbsp +:+ "b") = "a" +:+ Scenario.nbsp +:+ "b"
  /\ strip (String (ascii_of_nat 195) (String (ascii_of_nat 160) " "))
     = String (ascii_of_nat 195) (String (ascii_of_nat 160) "").
Proof. vm_compute. repeat split; reflexivity. Qed.

Lemma stripped_lines_tidy (s : string) : Forall tidy (stripped_lines s).
Proof.
  unfold stripped_lines. apply Forall_forall. intros e He.
  apply in_map_iff in He as (f & <- & Hf).
  apply filter_In in Hf as [Hin Hnb].
  pose proof (split_nl_no_nl s) as Hnl. rewrite Forall_forall in Hnl.
  repeat split.
  - intros E. rewrite E in Hnb. discriminate.
  - apply strip_idem.
  - apply strip_no_nl, Hnl, Hin.
Qed.

Lemma stripped_lines_of_tidy (paths : list string) :
  Forall tidy paths ->
  map strip (filter (fun f => negb (String.eqb (strip f) "")) paths) = paths.
Proof.
  induction 1 as [|p paths (Hne & Hs & _) _ IH]; [reflexivity|].
  cbn [filter]. rewrite Hs.
  destruct (String.eqb_spec p ""); [contradiction|].
  cbn [negb map]. rewrite Hs, IH. reflexivity.
Qed.

(** Parsing the joined lines of tidy paths gives the paths back. *)
Lemma stripped_lines_join (paths : list string) :
  Forall tidy paths -> stripped_lines (join_nl paths) = paths.
Proof.
  intros H. destruct paths as [|p paths]; [reflexivity|].
  unfold stripped_lines. rewrite split_join.
  - apply stripped_lines_of_tidy, H.
  - discriminate.
  - eapply Forall_impl; [|exact H]. intros a (_ & _ & Ha). exact Ha.
Qed.

(** The file list of a configuration given as text: blank lines are
    dropped, every entry is a tidy path (not empty, no white space at its
    ends, no newline), and a list of tidy paths written one per line is
    read back as it was. *)
Theorem parse_files_config_round_trip (s : string) :
  Forall tidy (_parse_files_config (FStr s))
  /\ (forall paths, Forall tidy paths ->
        _parse_files_config (FStr (join_nl paths)) = paths)
  /\ _parse_files_config
       (FStr (join_nl (_parse_files_config (FStr s))))
     = _parse_files_config (FStr s).
Proof.
  cbn [_parse_files_config]. split; [apply stripped_lines_tidy|].
  split; [apply stripped_lines_join|].
  apply stripped_lines_join, stripped_lines_tidy.
Qed.

Lemma parse_files_config_round_trip_witness :
  _parse_files_config
    (FStr (join_nl ["/data/a.fastq"; "/data/b.fastq"]))
  = ["/data/a.fastq"; "/data/b.fastq"].
Proof.
  apply (proj1 (proj2 (parse_files_config_round_trip ""))).
  repeat constructor; discriminate.
Defined.

(** A line of white space alone is no path, whatever the white space. *)
Example parse_drops_wide_blank_line :
  _parse_files_config
    (FStr (Scenario.wide_space +:+ NL +:+ "/data/a.fastq" +:+ Scenario.nbsp))
  = ["/data/a.fastq"].
Proof. vm_compute. reflexivity. Qed.

End Strip.

(** ** The quick form and the file list *)

Section QuickForm.
Import Py LogHandler Gui GuiForms.

Lemma blank_false_iff (text : string) :
  blank text = false <-> strip text <> "".
Proof.
  unfold blank. rewrite orb_false_iff. split.
  - intros [_ H]. destruct (String.eqb_spec (strip text) ""); congruence.
  - intros H. split.
    + destruct (String.eqb_spec text "") as [->|]; [|reflexivity].
      exfalso. apply H. reflexivity.
    + destruct (String.eqb_spec (strip text) ""); congruence.
Qed.

Lemma app_nil_iff {A : Type} (a b : list A) :
  a ++ b = [] <-> a = [] /\ b = [].
Proof.
  split; [apply app_eq_nil | intros [-> ->]; reflexivity].
Qed.

Lemma one_error_iff (c : bool) (m : string) :
  (if c then [m] else []) = [] <-> c = false.
Proof. destruct c; split; congruence. Qed.

Lemma validate_accepts_iff
    (files_text output_text goal_text : string) (data_type : option string) :
  validate_quick_inputs files_text output_text goal_text data_type = []
  <-> (exists d, data_type = Some d /\ d <> ""
                 /\ (d = "Nanopore" ->
                     contains "dorado" (lower files_text) = true))
      /\ strip files_text <> ""
      /\ strip output_text <> ""
      /\ strip goal_text <> "".
Proof.
  unfold validate_quick_inputs.
  rewrite !app_nil_iff, !one_error_iff, !blank_false_iff.
  rewrite negb_false_iff, andb_false_iff, negb_false_iff.
  split.
  - intros (Hd & Hf & Ho & Hg & Hn). split; [|auto].
    destruct data_type as [d|]; [|discriminate].
    exists d. split; [reflexivity|]. split.
    + intros ->. discriminate.
    + intros ->. destruct Hn as [Hn|Hn]; [discriminate | exact Hn].
  - intros ((d & -> & Hd & Hn) & Hf & Ho & Hg).
    split.
    + unfold truthy. destruct (String.eqb_spec d ""); [contradiction | reflexivity].
    + repeat split; auto.
      destruct (String.eqb_spec d "Nanopore") as [E|];
        [right; auto | left; reflexivity].
Qed.

(** The quick form is accepted exactly when a data type is chosen, the
    three texts hold more than white space and, for Nanopore data, the
    file text mentions dorado in any letter case. *)
Theorem validate_quick_inputs_accepts
    (files_text output_text goal_text : string) (data_type : option string) :
  validate_quick_inputs files_text output_text goal_text data_type = []
  <-> (exists d, data_type = Some d /\ d <> ""
                 /\ (d = "Nanopore" ->
                     contains "dorado" (lower files_text) = true))
      /\ strip files_text <> ""
      /\ strip output_text <> ""
      /\ strip goal_text <> "".
Proof. apply validate_accepts_iff. Qed.

(** A goal that holds only an ideographic space is no goal. *)
Example validate_rejects_wide_blank_goal :
  validate_quick_inputs "/data/a.fastq" "/out" Scenario.wide_space
                        (Some "MeRIP-seq")
  = ["❌ 请描述分析目标"].
Proof. vm_compute. reflexivity. Qed.

Lemma strip_nonempty (s : string) : strip s <> "" -> s <> "".
Proof. intros H ->. apply H. reflexivity. Qed.

Lemma validate_quick_inputs_accepts_witness :
  validate_quick_inputs "/data/run1 /opt/Dorado/bin/dorado" "/out" "m6A"
                        (Some "Nanopore") = [].
Proof.
  apply (proj2 (validate_quick_inputs_accepts
                  "/data/run1 /opt/Dorado/bin/dorado" "/out" "m6A"
                  (Some "Nanopore"))).
  split.
  - exists "Nanopore". split; [reflexivity|]. split; [discriminate|].
    intros _. reflexivity.
  - repeat split; vm_compute; discriminate.
Defined.

(** A quick form that passes validation is never turned down for its
    configuration: with an API key and no task running it starts the
    task, with the output directory and the goal stripped and the file
    text as typed. A form with errors is answered with all of them, one
    per line, and nothing is touched. *)
Theorem quick_start_analysis_launches
    (obs : StartObs) (data_type : option string)
    (files_text output_text goal_text : string)
    (key : option string) (model_choice : string) (execute : bool)
    (g : Globals) :
  let result := quick_start_analysis obs data_type files_text output_text
                  goal_text key model_choice execute g in
  (validate_quick_inputs files_text output_text goal_text data_type = [] ->
   api_key_blank key = false ->
   is_task_running g = false ->
   exists d saved,
     data_type = Some d
     /\ fst result = Launched (s_thread obs) saved
     /\ dict_get "config" saved
        = Some (JDict [("data_type", d); ("files", files_text);
                       ("output_dir", strip output_text);
                       ("goal", strip goal_text)])
     /\ task_running (snd result) = true
     /\ stop_flag (snd result) = false
     /\ log_queue (snd result) = []
     /\ current_thread (snd result) = Some (s_thread obs))
  /\ (validate_quick_inputs files_text output_text goal_text data_type <> [] ->
      result
      = (Rejected (join_nl (validate_quick_inputs files_text output_text
                              goal_text data_type)), g)).
Proof.
  cbv zeta. unfold quick_start_analysis. split.
  - intros Hv Hk Hr. rewrite Hv, Hk, Hr.
    apply validate_accepts_iff in Hv
      as ((d & -> & Hd & _) & Hf & Ho & Hg).
    apply strip_nonempty in Hf.
    exists d. eexists. split; [reflexivity|].
    unfold unified_analysis_executor. cbn [Gui.config Gui.api_key Gui.mode_name].
    assert (Hm : missing_keys [("data_type", d); ("files", files_text);
                               ("output_dir", strip output_text);
                               ("goal", strip goal_text)] = []).
    { unfold missing_keys, required_keys. cbn [filter config_get String.eqb
        Ascii.eqb Bool.eqb andb]. unfold truthy.
      destruct (String.eqb_spec files_text ""); [contradiction|].
      destruct (String.eqb_spec (strip output_text) ""); [contradiction|].
      destruct (String.eqb_spec (strip goal_text) ""); [contradiction|].
      destruct (String.eqb_spec d ""); [contradiction|]. reflexivity. }
    rewrite Hm, Hk, Hr. cbn. repeat split; reflexivity.
  - intros Hv.
    destruct (validate_quick_inputs files_text output_text goal_text
                data_type); [congruence | reflexivity].
Qed.
Lemma quick_start_analysis_launches_witness :
  validate_quick_inputs "/data/a.fastq" " /out " "call peaks"
                        (Some "MeRIP-seq") = []
  /\ api_key_blank (Some "sk-key") = false
  /\ is_task_running initial_globals = false
  /\ exists saved,
       fst (quick_start_analysis Scenario.first_start (Some "MeRIP-seq")
              "/data/a.fastq" " /out " "call peaks" (Some "sk-key") "gpt"
              true initial_globals)
       = Launched 1 saved
       /\ dict_get "config" saved
          = Some (JDict [("data_type", "MeRIP-seq");
                         ("files", "/data/a.fastq");
                         ("output_dir", "/out"); ("goal", "call peaks")]).
Proof.
  assert (H1 : validate_quick_inputs "/data/a.fastq" " /out " "call peaks"
                 (Some "MeRIP-seq") = []) by reflexivity.
  assert (H2 : api_key_blank (Some "sk-key") = false) by reflexivity.
  assert (H3 : is_task_running initial_globals = false) by reflexivity.
  split; [exact H1|]. split; [exact H2|]. split; [exact H3|].
  destruct (proj1 (quick_start_analysis_launches Scenario.first_start
                     (Some "MeRIP-seq") "/data/a.fastq" " /out "
                     "call peaks" (Some "sk-key") "gpt" true
                     initial_globals) H1 H2 H3)
    as (d & saved & Hd & Hl & Hc & _).
  injection Hd as <-. exists saved. split; [exact Hl | exact Hc].
Defined.

End QuickForm.

Section Merge.
Import Py GuiForms FileManager.

Lemma seen_iff (f : string) (seen : list string) :
  existsb (String.eqb f) seen = true <-> In f seen.
Proof.
  rewrite existsb_exists. split.
  - intros (x & Hin & Hx). apply String.eqb_eq in Hx. subst. exact Hin.
  - intros H. exists f. split; [exact H | apply String.eqb_refl].
Qed.

Lemma keys_from_ext (l s1 s2 : list string) :
  (forall x, In x s1 <-> In x s2) -> keys_from s1 l = keys_from s2 l.
Proof.
  revert s1 s2. induction l as [|f l IH]; intros s1 s2 H; [reflexivity|].
  cbn [keys_from].
  assert (E : existsb (String.eqb f) s1 = existsb (String.eqb f) s2).
  { destruct (existsb (String.eqb f) s1) eqn:E1; symmetry.
    - apply seen_iff, H, seen_iff, E1.
    - destruct (existsb (String.eqb f) s2) eqn:E2; [|reflexivity].
      apply seen_iff, H, seen_iff in E2. congruence. }
  rewrite E. destruct (existsb (String.eqb f) s2).
  - apply IH, H.
  - f_equal. apply IH. intros x. cbn [In]. rewrite H. reflexivity.
Qed.

Lemma keys_from_In (l seen : list string) (x : string) :
  In x (keys_from seen l) <-> In x l /\ ~ In x seen.
Proof.
  revert seen. induction l as [|f l IH]; intros seen; cbn [keys_from In].
  - tauto.
  - destruct (existsb (String.eqb f) seen) eqn:E.
    + apply seen_iff in E. rewrite IH. split.
      * tauto.
      * intros [[->|H] Hn]; [contradiction | tauto].
    + assert (Hn : ~ In f seen)
        by (intros H; apply seen_iff in H; congruence).
      cbn [In]. rewrite IH. cbn [In]. split.
      * intros [->|[H1 H2]]; [tauto|]. split; [tauto|]. tauto.
      * intros [[->|H] Hx]; [tauto|].
        destruct (String.eqb_spec f x) as [->|Hne]; [tauto|].
        right. split; [exact H|]. intros [E'|E']; [congruence | tauto].
Qed.

Lemma keys_from_NoDup (l seen : list string) : NoDup (keys_from seen l).
Proof.
  revert seen. induction l as [|f l IH]; intros seen; cbn [keys_from].
  - constructor.
  - destruct (existsb (String.eqb f) seen); [apply IH|].
    constructor; [|apply IH].
    rewrite keys_from_In. cbn [In]. tauto.
Qed.

Lemma keys_from_app (l m seen : list string) :
  keys_from seen (l ++ m) = keys_from seen l ++ keys_from (l ++ seen) m.
Proof.
  revert seen. induction l as [|f l IH]; intros seen; [reflexivity|].
  cbn [app keys_from].
  destruct (existsb (String.eqb f) seen) eqn:E.
  - apply seen_iff in E. rewrite IH. f_equal. apply keys_from_ext.
    intros x. cbn [In]. rewrite !in_app_iff. split; [tauto|].
    intros [->|H]; tauto.
  - cbn [app]. rewrite IH. f_equal. f_equal. apply keys_from_ext.
    intros x. cbn [In]. rewrite !in_app_iff. cbn [In]. tauto.
Qed.

Lemma keys_from_fixed (l seen : list string) :
  NoDup l -> (forall x, In x l -> ~ In x seen) -> keys_from seen l = l.
Proof.
  revert seen. induction l as [|f l IH]; intros seen Hnd Hs; [reflexivity|].
  inversion Hnd as [|? ? Hf Hl]; subst. cbn [keys_from].
  destruct (existsb (String.eqb f) seen) eqn:E.
  - apply seen_iff in E. exfalso. apply (Hs f); [left; reflexivity | exact E].
  - f_equal. apply IH; [exact Hl|].
    intros x Hx [->|H]; [contradiction|]. apply (Hs x); [right; exact Hx | exact H].
Qed.

Lemma keys_from_all_seen (m seen : list string) :
  (forall x, In x m -> In x seen) -> keys_from seen m = [].
Proof.
  induction m as [|f m IH]; intros H; [reflexivity|].
  cbn [keys_from].
  assert (E : existsb (String.eqb f) seen = true)
    by (apply seen_iff, H; left; reflexivity).
  rewrite E. apply IH. intros x Hx. apply H. right. exact Hx.
Qed.

Lemma parse_to_list_tidy (v : option string) : Forall tidy (_parse_to_list v).
Proof.
  destruct v as [v|]; cbn [_parse_to_list]; [|constructor].
  destruct (String.eqb v ""); [constructor | apply stripped_lines_tidy].
Qed.

Lemma parse_join (paths : list string) :
  Forall tidy paths -> _parse_to_list (Some (join_nl paths)) = paths.
Proof.
  intros H. cbn [_parse_to_list].
  pose proof (stripped_lines_join paths H) as Hr.
  destruct (String.eqb_spec (join_nl paths) "") as [E|]; [|exact Hr].
  rewrite E in Hr. rewrite <- Hr. reflexivity.
Qed.

Lemma merge_old_list (old : option string) :
  match old with
  | Some o => if String.eqb o "" then [] else _parse_to_list old
  | None => []
  end = _parse_to_list old.
Proof.
  destruct old as [o|]; [|reflexivity]. cbn [_parse_to_list].
  destruct (String.eqb o ""); reflexivity.
Qed.

Lemma merge_add (old new : option string) :
  merge old new "add"
  = join_nl (dict_keys (_parse_to_list old ++ _parse_to_list new)).
Proof. unfold merge. rewrite merge_old_list. reflexivity. Qed.

(** Adding files to a file list keeps every path once, at the place
    where it first occurs: the old paths stay in front in their order,
    the new ones that are not yet listed follow, nothing else appears,
    and adding the same files again changes nothing. *)
Theorem merge_add_keeps_each_path_once (old_files new_files : option string) :
  let merged := merge old_files new_files "add" in
  let paths := _parse_to_list (Some merged) in
  paths = dict_keys (_parse_to_list old_files ++ _parse_to_list new_files)
  /\ NoDup paths
  /\ (forall f, In f paths
                <-> In f (_parse_to_list old_files)
                    \/ In f (_parse_to_list new_files))
  /\ (exists added, paths = dict_keys (_parse_to_list old_files) ++ added)
  /\ merge (Some merged) new_files "add" = merged.
Proof.
  cbv zeta. rewrite merge_add.
  set (O := _parse_to_list old_files). set (N := _parse_to_list new_files).
  assert (Htidy : Forall tidy (dict_keys (O ++ N))).
  { apply Forall_forall. intros x Hx. unfold dict_keys in Hx.
    apply keys_from_In in Hx as [Hx _].
    assert (Hall : Forall tidy (O ++ N))
      by (apply Forall_app; split; apply parse_to_list_tidy).
    rewrite Forall_forall in Hall. apply Hall, Hx. }
  rewrite (parse_join _ Htidy).
  split; [reflexivity|]. split; [apply keys_from_NoDup|].
  split; [|split].
  - intros f. unfold dict_keys. rewrite keys_from_In, in_app_iff.
    cbn [In]. tauto.
  - unfold dict_keys. rewrite keys_from_app. eexists. reflexivity.
  - rewrite merge_add, (parse_join _ Htidy). fold N. f_equal.
    assert (HK : NoDup (dict_keys (O ++ N))) by apply keys_from_NoDup.
    assert (HN : forall x, In x N -> In x (dict_keys (O ++ N))).
    { intros x Hx. apply keys_from_In.
      split; [apply in_or_app; right; exact Hx | intros []]. }
    generalize dependent (dict_keys (O ++ N)). intros K _ HK HN.
    unfold dict_keys. rewrite keys_from_app.
    rewrite (keys_from_fixed K); [|exact HK | intros x _ []].
    rewrite keys_from_all_seen; [apply app_nil_r|].
    intros x Hx. apply in_or_app. left. apply HN, Hx.
Qed.

(** A path typed with a no-break space behind it is the path already
    listed. *)
Example merge_strips_no_break_space :
  merge (Some "/data/a.fastq")
        (Some ("/data/a.fastq" +:+ Scenario.nbsp +:+ NL +:+ "/data/b.fastq"))
        "add"
  = "/data/a.fastq" +:+ NL +:+ "/data/b.fastq".
Proof. vm_compute. reflexivity. Qed.

End Merge.

(** ** Elapsed time *)

Section Elapsed.
Import Py LogHandler.

Lemma length_append (a b : string) :
  String.length (a +:+ b) = String.length a + String.length b.
Proof. induction a as [|c a IH]; [reflexivity|]. cbn. rewrite IH. reflexivity. Qed.

Lemma fmt_02d_width (z : Z) :
  (0 <= z < 100)%Z -> String.length (fmt_02d z) = 2.
Proof.
  intros H. assert (E : exists n, n < 100 /\ z = Z.of_nat n).
  { exists (Z.to_nat z). split; lia. }
  destruct E as (n & Hn & ->). clear H.
  do 100 (destruct n as [|n]; [reflexivity|]). lia.
Qed.

(** The elapsed time shown is that of the whole seconds between the
    start and the clock reading, the difference being taken in binary64
    and truncated as the code does. When they are fewer than a hundred
    hours, the text is [HH:MM:SS], eight characters, with minutes and
    seconds below sixty; and with no start time recorded it is
    [00:00:00]. *)
Theorem elapsed_time_format (start now : float) :
  PrimFloat.is_finite (now - start) = true ->
  (0 <= int_of_float (now - start) < 360000)%Z ->
  (exists h m s : Z,
      (0 <= h < 100 /\ 0 <= m < 60 /\ 0 <= s < 60)%Z
      /\ (3600 * h + 60 * m + s = int_of_float (now - start))%Z
      /\ _format_elapsed_time (Some start) now
         = fmt_02d h +:+ ":" +:+ fmt_02d m +:+ ":" +:+ fmt_02d s
      /\ String.length (_format_elapsed_time (Some start) now) = 8)
  /\ _format_elapsed_time None now = "00:00:00".
Proof.
  intros _ Hb. split; [|reflexivity].
  set (e := int_of_float (now - start)) in *.
  exists (e / 3600)%Z, ((e mod 3600) / 60)%Z, (e mod 60)%Z.
  assert (Hh : (0 <= e / 3600 < 100)%Z).
  { split; [apply Z.div_pos; lia | apply Z.div_lt_upper_bound; lia]. }
  assert (Hm : (0 <= (e mod 3600) / 60 < 60)%Z).
  { pose proof (Z.mod_pos_bound e 3600 ltac:(lia)).
    split; [apply Z.div_pos; lia | apply Z.div_lt_upper_bound; lia]. }
  assert (Hs : (0 <= e mod 60 < 60)%Z) by (apply Z.mod_pos_bound; lia).
  split; [auto|]. split.
  - pose proof (Z.div_mod e 3600 ltac:(lia)).
    pose proof (Z.div_mod (e mod 3600) 60 ltac:(lia)).
    assert ((e mod 3600) mod 60 = e mod 60)%Z.
    { symmetry. rewrite (Z.div_mod e 3600) at 1 by lia.
      replace (3600 * (e / 3600) + e mod 3600)%Z
        with (e mod 3600 + (60 * (e / 3600)) * 60)%Z by lia.
      apply Z.mod_add. lia. }
    lia.
  - split; [reflexivity|].
    unfold _format_elapsed_time. fold e.
    rewrite !length_append, !fmt_02d_width by lia. reflexivity.
Qed.

Lemma elapsed_time_format_witness :
  PrimFloat.is_finite (3725.8 - 0.3) = true
  /\ (0 <= int_of_float (3725.8 - 0.3) < 360000)%Z
  /\ _format_elapsed_time (Some 0.3%float) 3725.8 = "01:02:05"
  /\ String.length (_format_elapsed_time (Some 0.3%float) 3725.8) = 8.
Proof.
  assert (H0 : PrimFloat.is_finite (3725.8 - 0.3) = true)
    by (vm_compute; reflexivity).
  assert (H1 : (0 <= int_of_float (3725.8 - 0.3) < 360000)%Z)
    by (vm_compute; split; [discriminate | reflexivity]).
  split; [exact H0|]. split; [exact H1|].
  split; [vm_compute; reflexivity|].
  destruct (proj1 (elapsed_time_format 0.3 3725.8 H0 H1))
    as (h & m & s & _ & _ & _ & H).
  exact H.
Defined.

End Elapsed.

(** ** Completeness of the slots *)

Section SlotsFacts.
Import InformationSlots.

(** The completeness shown to the user is 25 % for each required slot
    that is not [None]; it is 100 exactly when the slots are complete,
    that is, when all four hold something, and that is exactly when the
    chat mode goes on to start a task. *)
Theorem completeness_of_slots (s : Slots) :
  get_completeness_percentage s
  = (25 * (4 - Z.of_nat (List.length (get_missing_required_slots s))))%Z
  /\ (is_complete s = true
      <-> data_type s <> None /\ files s <> None
          /\ output_dir s <> None /\ goal s <> None)
  /\ (is_complete s = true <-> get_completeness_percentage s = 100%Z)
  /\ (chat_gate (Some s) = None <-> is_complete s = true).
Proof.
  destruct s as [[d|] [f|] [o|] [g|]];
    (split; [reflexivity|]);
    (split; [cbn; split; [intros H; try discriminate H;
                          repeat split; discriminate
                         |intros (H1 & H2 & H3 & H4); congruence]|]);
    (split; [cbn; split; intros H; first [reflexivity | discriminate H]|]);
    cbn; split; intros H; first [reflexivity | discriminate H].
Qed.
End SlotsFacts.

(** ** Captured output *)

Section Capture.
Import Py Executor.

(** The turns that do not end the loop all read a line, and the loop
    stores the non-empty ones. *)
Lemma lines_read_outputs (pre : list ReadObs) :
  Forall (fun x => ends_loop x = false) pre ->
  exists outputs,
    map r_readline pre = map Ok outputs
    /\ lines_read pre
       = map (fun l => "[stdout] " +:+ strip l)
             (filter (fun l => negb (String.eqb l "")) outputs).
Proof.
  induction 1 as [|o pre Ho _ (outputs & Hr & Hl)].
  - exists []. split; reflexivity.
  - unfold ends_loop in Ho. destruct (r_interrupted o); [discriminate|].
    destruct (r_readline o) as [output|m] eqn:Hread; [|discriminate].
    exists (output :: outputs). cbn [map]. rewrite Hread, Hr.
    split; [reflexivity|].
    cbn [lines_read flat_map filter]. fold (lines_read pre).
    rewrite Hread, Hl. destruct (String.eqb output ""); reflexivity.
Qed.

(** When the read loop ends without an exception, because the
    interrupted flag is read as set or because the stream is at its end
    and the process has exited, it has read a line in every turn before,
    and it has kept each line that is not empty, in the order read,
    stripped and marked [[stdout] ]; of these the result retains the
    last ten, or all when there are fewer. *)
Theorem stdout_capture_and_retention
    (env : ExecEnv) (pre : list ReadObs) (o : ReadObs) :
  left_at env pre o ->
  (r_interrupted o = true
   \/ (r_readline o = Ok "" /\ exists code, r_poll o = Ok (Some code))) ->
  exists outputs,
    map r_readline pre = map Ok outputs
    /\ let stdout :=
         map (fun l => "[stdout] " +:+ strip l)
             (filter (fun l => negb (String.eqb l "")) outputs) in
       read_loop (e_reads env) [] = Done stdout
       /\ last10 stdout = skipn (List.length stdout - 10) stdout
       /\ List.length (last10 stdout) = Nat.min 10 (List.length stdout)
       /\ firstn (List.length stdout - 10) stdout ++ last10 stdout = stdout.
Proof.
  intros Hleft Hend.
  pose proof (read_loop_left env pre o Hleft) as Hloop.
  destruct Hleft as (_ & Hpre & _).
  destruct (lines_read_outputs pre Hpre) as (outputs & Hr & Hl).
  exists outputs. split; [exact Hr|]. cbv zeta. rewrite <- Hl.
  set (stdout := lines_read pre).
  assert (H10 : last10 stdout = lastn 10 stdout).
  { unfold last10. destruct (Nat.ltb_spec 10 (List.length stdout));
      [reflexivity | symmetry; apply lastn_all; assumption]. }
  split.
  { destruct Hend as [Hi|[Hread [code Hp]]].
    - rewrite Hi in Hloop. exact Hloop.
    - rewrite Hread, Hp in Hloop. destruct (r_interrupted o); exact Hloop. }
  split; [exact H10|]. rewrite H10.
  split; [apply length_lastn | apply firstn_skipn].
Qed.

Lemma stdout_capture_and_retention_witness :
  read_loop (e_reads Scenario.quiet_run) [] = Done ["[stdout] start"]
  /\ last10 ["[stdout] start"] = ["[stdout] start"].
Proof.
  assert (Hleft : left_at Scenario.quiet_run
                    [mkReadObs false (Ok ("start" +:+ NL)) (Ok None)]
                    (mkReadObs false (Ok "") (Ok (Some 0%Z)))).
  { split; [exists []; reflexivity|].
    split; [repeat constructor | reflexivity]. }
  destruct (stdout_capture_and_retention Scenario.quiet_run _ _ Hleft
              (or_intror (conj eq_refl (ex_intro _ 0%Z eq_refl))))
    as (outputs & Hr & Hloop & _).
  cbn [map] in Hr. destruct outputs as [|x [|y outputs]]; try discriminate Hr.
  injection Hr as <-. split; [exact Hloop | reflexivity].
Defined.

(** Once [execute] has returned a text it holds no process, so a stop
    request that arrives late finds nothing to terminate: [terminate]
    only prints and signals nothing. *)
Theorem terminate_after_execute_is_noop
    (env : ExecEnv) (fs : FS) (path : string) (st : State)
    (tenv : TermEnv) (st' : State) (text : string) :
  outcome (execute env fs path st) = Returned text ->
  current_process st' = process_after (execute env fs path st) ->
  terminate tenv st'
  = (st', [PrintLine "[EXECUTOR] No active process to terminate"]).
Proof.
  intros Ho Hp.
  assert (Hn : process_after (execute env fs path st) = None).
  { unfold execute in *. destruct (fs path); [|discriminate].
    destruct (e_write env); [|discriminate].
    destruct (if e_stop_flag env then e_monitor env else Ok tt);
      [|discriminate].
    destruct (e_spawn env); [|reflexivity].
    destruct (try_body env); [reflexivity | reflexivity | discriminate]. }
  unfold terminate. rewrite Hp, Hn. reflexivity.
Qed.
Lemma terminate_after_execute_is_noop_witness :
  outcome (execute Scenario.quiet_run Scenario.one_script "run.sh"
                   new_executor) = Returned ("[stdout] start" +:+ NL)
  /\ terminate Scenario.stubborn new_executor
     = (new_executor,
        [PrintLine "[EXECUTOR] No active process to terminate"]).
Proof.
  assert (H : outcome (execute Scenario.quiet_run Scenario.one_script
                               "run.sh" new_executor)
              = Returned ("[stdout] start" +:+ NL)) by reflexivity.
  split; [exact H|].
  exact (terminate_after_execute_is_noop Scenario.quiet_run
           Scenario.one_script "run.sh" new_executor Scenario.stubborn
           new_executor _ H eq_refl).
Defined.

End Capture.
